(** * Meta Ads analytics dashboard: metrics, benchmarks, recommendations
      and the spreadsheet normaliser

    A shallow embedding of the core functions of [appmanual.py], [app.py]
    and [before_metrics_addition.py].

    Numbers.  The Python code computes with [numpy.float64] values held in
    pandas objects.  A number is modelled as an exact rational or one of the
    three IEEE special values; division, multiplication and addition follow
    the IEEE rules for the special values (a division by zero yields an
    infinity or NaN and does not raise, as in numpy).  Rounding and the sign
    of zero are outside the model.  The wrap-around of int64 sums and the
    overflow of float64 results on finite operands are in the part on
    machine arithmetic, which follows [calculate_metrics] a second time;
    within the range stated there the two agree. *)

From Stdlib Require Import String Ascii List Bool Arith ZArith QArith Lia.
From Stdlib Require Import Permutation Sorted DecimalString.
Import ListNotations.

Set Implicit Arguments.
Open Scope string_scope.
Open Scope list_scope.

(** ** Exceptions and results *)

Inductive exn : Type :=
| KeyError (key : string)
| AttributeError (what : string)
| TypeError (what : string).

Inductive result (A : Type) : Type :=
| Ok (a : A)
| Raise (e : exn).

Arguments Ok {A} a.
Arguments Raise {A} e.

Definition bind {A B : Type} (r : result A) (k : A -> result B) : result B :=
  match r with
  | Ok a => k a
  | Raise e => Raise e
  end.

Declare Scope py_scope.
Delimit Scope py_scope with py.
Notation "x <- r ;; k" := (bind r (fun x => k))
  (at level 61, r at next level, right associativity) : py_scope.

(** ** Numbers *)

Inductive num : Type :=
| Fin (q : Q)
| PInf
| NInf
| NaN.

Definition of_Z (z : Z) : num := Fin (inject_Z z).
Definition of_nat (n : nat) : num := of_Z (Z.of_nat n).

Definition is_finite (x : num) : bool :=
  match x with Fin _ => true | _ => false end.

Definition isna (x : num) : bool :=
  match x with NaN => true | _ => false end.

(** Equality of numbers as values: rationals are compared by [Qeq]. *)
Definition num_eq (x y : num) : Prop :=
  match x, y with
  | Fin a, Fin b => (a == b)%Q
  | PInf, PInf | NInf, NInf | NaN, NaN => True
  | _, _ => False
  end.

Definition num_eqb (x y : num) : bool :=
  match x, y with
  | Fin a, Fin b => Qeq_bool a b
  | PInf, PInf | NInf, NInf | NaN, NaN => true
  | _, _ => false
  end.

Infix "=n=" := num_eq (at level 70, no associativity).

Definition Qltb (a b : Q) : bool := negb (Qle_bool b a).

(** The comparisons [<], [<=], [>], [>=]; every comparison with NaN is
    false. *)
Definition nlt (x y : num) : bool :=
  match x, y with
  | NaN, _ | _, NaN => false
  | Fin a, Fin b => Qltb a b
  | NInf, NInf => false
  | NInf, _ => true
  | _, PInf => match x with PInf => false | _ => true end
  | _, _ => false
  end.

Definition nle (x y : num) : bool :=
  match x, y with
  | NaN, _ | _, NaN => false
  | Fin a, Fin b => Qle_bool a b
  | NInf, _ => true
  | _, PInf => true
  | _, _ => false
  end.

Definition ngt (x y : num) : bool := nlt y x.
Definition nge (x y : num) : bool := nle y x.

Definition nneg (x : num) : num :=
  match x with
  | Fin q => Fin (- q)
  | PInf => NInf
  | NInf => PInf
  | NaN => NaN
  end.

Definition nadd (x y : num) : num :=
  match x, y with
  | NaN, _ | _, NaN => NaN
  | Fin a, Fin b => Fin (a + b)
  | PInf, NInf | NInf, PInf => NaN
  | PInf, _ | _, PInf => PInf
  | NInf, _ | _, NInf => NInf
  end.

(** An infinity times [y]. *)
Definition inf_times (pos : bool) (y : num) : num :=
  match y with
  | NaN => NaN
  | Fin b =>
      match (b ?= 0)%Q with
      | Eq => NaN
      | Gt => if pos then PInf else NInf
      | Lt => if pos then NInf else PInf
      end
  | PInf => if pos then PInf else NInf
  | NInf => if pos then NInf else PInf
  end.

Definition nmul (x y : num) : num :=
  match x, y with
  | Fin a, Fin b => Fin (a * b)
  | PInf, _ => inf_times true y
  | NInf, _ => inf_times false y
  | _, PInf => inf_times true x
  | _, NInf => inf_times false x
  | _, _ => NaN
  end.

(** True division of numpy values: [x / 0] is an infinity of the sign of
    [x], [0 / 0] is NaN, nothing raises. *)
Definition ndiv (x y : num) : num :=
  match x, y with
  | NaN, _ | _, NaN => NaN
  | Fin a, Fin b =>
      if Qeq_bool b 0 then
        match (a ?= 0)%Q with
        | Eq => NaN
        | Gt => PInf
        | Lt => NInf
        end
      else Fin (a / b)
  | Fin _, _ => Fin 0
  | PInf, Fin b => if Qle_bool 0 b then PInf else NInf
  | NInf, Fin b => if Qle_bool 0 b then NInf else PInf
  | _, _ => NaN
  end.

Declare Scope num_scope.
Delimit Scope num_scope with num.
Infix "+" := nadd : num_scope.
Infix "*" := nmul : num_scope.
Infix "/" := ndiv : num_scope.
Infix "<?" := nlt : num_scope.
Infix "<=?" := nle : num_scope.
Infix ">?" := ngt : num_scope.
Infix ">=?" := nge : num_scope.

Definition n0 : num := Fin 0.
Definition n100 : num := Fin 100.

(** ** Strings *)

Definition lower_ascii (c : ascii) : ascii :=
  let n := nat_of_ascii c in
  if (65 <=? n)%nat && (n <=? 90)%nat then ascii_of_nat (n + 32) else c.

(** [str.lower()] on the ASCII letters; other bytes are kept. *)
Fixpoint lower (s : string) : string :=
  match s with
  | EmptyString => EmptyString
  | String c t => String (lower_ascii c) (lower t)
  end.

(** [needle in hay] for Python strings. *)
Fixpoint contains (needle hay : string) : bool :=
  String.prefix needle hay
  || match hay with
     | EmptyString => false
     | String _ t => contains needle t
     end.

Definition is_space (c : ascii) : bool :=
  let n := nat_of_ascii c in
  ((9 <=? n)%nat && (n <=? 13)%nat) || (n =? 32)%nat
  || ((28 <=? n)%nat && (n <=? 31)%nat).

Fixpoint lstrip (s : string) : string :=
  match s with
  | String c t => if is_space c then lstrip t else s
  | EmptyString => EmptyString
  end.

Fixpoint rstrip (s : string) : string :=
  match s with
  | EmptyString => EmptyString
  | String c t =>
      match rstrip t with
      | EmptyString => if is_space c then EmptyString else String c EmptyString
      | t' => String c t'
      end
  end.

(** [str.strip()]. *)
Definition strip (s : string) : string := rstrip (lstrip s).

(** ** Series and data frames

    A data frame is a row count and its columns in order; a column of
    numbers is a [NumCol], the [date] column is a [DateCol] (with [None] for
    NaT) and a column of text (the [product] column) is an [ObjCol]. *)

Inductive Series : Type :=
| NumCol (l : list num)
| DateCol (l : list (option Z))
| ObjCol (l : list string).

Record DataFrame : Type := mkDF {
  nrows : nat;
  columns : list (string * Series)
}.

Fixpoint lookup {V : Type} (k : string) (d : list (string * V)) : option V :=
  match d with
  | [] => None
  | (k', v) :: d' => if String.eqb k k' then Some v else lookup k d'
  end.

(** [d[k] = v] on a dict: the value under an existing key is replaced in
    place, a new key is appended. *)
Fixpoint setitem {V : Type} (k : string) (v : V) (d : list (string * V))
  : list (string * V) :=
  match d with
  | [] => [(k, v)]
  | (k', v') :: d' =>
      if String.eqb k k' then (k', v) :: d' else (k', v') :: setitem k v d'
  end.

(** [df[name]] *)
Definition getcol (df : DataFrame) (name : string) : result Series :=
  match lookup name (columns df) with
  | Some s => Ok s
  | None => Raise (KeyError name)
  end.

(** [df[name]] where the code goes on with arithmetic on the column. *)
Definition getnum (df : DataFrame) (name : string) : result (list num) :=
  match lookup name (columns df) with
  | Some (NumCol l) => Ok l
  | Some _ => Raise (TypeError name)
  | None => Raise (KeyError name)
  end.

(** [df[name] = series] *)
Definition setcol (df : DataFrame) (name : string) (s : Series) : DataFrame :=
  mkDF (nrows df) (setitem name s (columns df)).

(** [Series.sum()]: NaN entries are skipped, the empty sum is 0. *)
Fixpoint series_sum (l : list num) : num :=
  match l with
  | [] => n0
  | x :: l' => if isna x then series_sum l' else (x + series_sum l')%num
  end.

Fixpoint numeric_only (cols : list (string * Series)) : list (string * num) :=
  match cols with
  | [] => []
  | (k, NumCol l) :: cols' => (k, series_sum l) :: numeric_only cols'
  | _ :: cols' => numeric_only cols'
  end.

(** [df.sum(numeric_only=True)] *)
Definition df_sum (df : DataFrame) : list (string * num) :=
  numeric_only (columns df).

(** [totals.name] *)
Definition attr (totals : list (string * num)) (name : string) : result num :=
  match lookup name totals with
  | Some v => Ok v
  | None => Raise (AttributeError name)
  end.

(** Element-wise operations on aligned series. *)
Fixpoint zip_with (f : num -> num -> num) (a b : list num) : list num :=
  match a, b with
  | x :: a', y :: b' => f x y :: zip_with f a' b'
  | _, _ => []
  end.

Definition sdiv (a b : list num) : list num := zip_with ndiv a b.
Definition smul_scalar (a : list num) (k : num) : list num :=
  map (fun x => (x * k)%num) a.

(** [series.fillna(v)] *)
Definition fillna (v : num) (a : list num) : list num :=
  map (fun x => if isna x then v else x) a.

(** [series.replace([float('inf')], v)]: only the positive infinity is
    listed. *)
Definition replace_inf (v : num) (a : list num) : list num :=
  map (fun x => match x with PInf => v | _ => x end) a.

(** ** Benchmarks, metric sets and issues *)

Record Bench : Type := mkBench {
  min_ : num;
  ideal : num;
  max_ : num;
  unit_ : string
}.

(** [BENCHMARKS[name]] *)
Definition getitem {V : Type} (d : list (string * V)) (k : string) : result V :=
  match lookup k d with
  | Some v => Ok v
  | None => Raise (KeyError k)
  end.

Record Totals : Type := mkTotals {
  t_impressions : num;
  t_clicks : num;
  t_lp_views : num;
  t_adds_to_cart : num;
  t_checkouts : num;
  t_purchases : num;
  t_spend : num
}.

(** The dict returned by [calculate_metrics] of [appmanual.py] and of
    [app.py]; both have the same keys. *)
Record Metrics : Type := mkMetrics {
  CTR : num;
  LP_View_Rate : num;
  ATC_Rate : num;
  Checkout_Rate : num;
  Purchase_Rate : num;
  Overall_CVR : num;
  CPC : num;
  CPA : num;
  ROAS : num;
  Frequency : num;
  totals : Totals
}.

Inductive Priority : Type := CRITICAL | HIGH | MEDIUM.

(** [priority_order] *)
Definition priority_order (p : Priority) : nat :=
  match p with
  | CRITICAL => 0
  | HIGH => 1
  | MEDIUM => 2
  end.

Record Issue : Type := mkIssue {
  priority : Priority;
  metric : string;
  current : num;
  target : num;
  recommendations : list string
}.

(** [pct] of [calculate_metrics], the same in the three files. *)
Definition pct (a b : num) : num :=
  if (b >? n0)%num then (a / b * n100)%num else n0.

(** [a / b if b > 0 else 0] *)
Definition ratio (a b : num) : num :=
  if (b >? n0)%num then (a / b)%num else n0.

(** ** [list.sort(key=...)]: a stable sort, here by insertion *)

Section Sort.
Variable A : Type.
Variable key : A -> nat.

Fixpoint insert_by (x : A) (l : list A) : list A :=
  match l with
  | [] => [x]
  | y :: l' =>
      if (key x <=? key y)%nat then x :: l else y :: insert_by x l'
  end.

Definition sort_by (l : list A) : list A := fold_right insert_by [] l.

(** The elements of key [k]. *)
Definition with_key (k : nat) (x : A) : bool := (key x =? k)%nat.
End Sort.

Definition sort_issues (issues : list Issue) : list Issue :=
  sort_by (fun x => priority_order (priority x)) issues.

(** [issues.append(x)] under the guard of a rule. *)
Definition append_if (cond : bool) (x : Issue) (issues : list Issue)
  : list Issue :=
  if cond then issues ++ [x] else issues.

(** * appmanual.py *)

Module Manual.

Definition BENCHMARKS : list (string * Bench) :=
  [ ("CTR", mkBench (Fin (9 # 10)) (Fin (15 # 10)) (Fin 3) "%");
    ("LP_View_Rate", mkBench (Fin 80) (Fin 90) (Fin 100) "%");
    ("ATC_Rate", mkBench (Fin 10) (Fin 20) (Fin 30) "%");
    ("Checkout_Rate", mkBench (Fin 60) (Fin 75) (Fin 85) "%");
    ("Purchase_Rate", mkBench (Fin 50) (Fin 65) (Fin 80) "%");
    ("Overall_CVR", mkBench (Fin 2) (Fin 5) (Fin 10) "%");
    ("CPC", mkBench (Fin 5) (Fin 10) (Fin 15) "₹");
    ("CPA", mkBench (Fin 100) (Fin 300) (Fin 500) "₹");
    ("Frequency", mkBench (Fin 1) (Fin (11 # 10)) (Fin (13 # 10)) "x") ].

Definition calculate_metrics (df : DataFrame) : result Metrics :=
  (let totals := df_sum df in
   clicks <- attr totals "clicks";;
   impressions <- attr totals "impressions";;
   lp_views <- attr totals "lp_views";;
   adds_to_cart <- attr totals "adds_to_cart";;
   checkouts <- attr totals "checkouts";;
   purchases <- attr totals "purchases";;
   spend <- attr totals "spend";;
   Ok {| CTR := pct clicks impressions;
         LP_View_Rate := pct lp_views clicks;
         ATC_Rate := pct adds_to_cart lp_views;
         Checkout_Rate := pct checkouts adds_to_cart;
         Purchase_Rate := pct purchases checkouts;
         Overall_CVR := pct purchases clicks;
         CPC := ratio spend clicks;
         CPA := ratio spend purchases;
         ROAS := ratio (purchases * Fin 500)%num spend;
         Frequency := ratio impressions clicks;
         totals := {| t_impressions := impressions;
                      t_clicks := clicks;
                      t_lp_views := lp_views;
                      t_adds_to_cart := adds_to_cart;
                      t_checkouts := checkouts;
                      t_purchases := purchases;
                      t_spend := spend |} |})%py.

(** [(daily[a] / daily[b] * 100).fillna(0)] *)
Definition pct_col (daily : DataFrame) (a b : string) : result Series :=
  (x <- getnum daily a;;
   y <- getnum daily b;;
   Ok (NumCol (fillna n0 (smul_scalar (sdiv x y) n100))))%py.

(** [(daily[a] / daily[b]).fillna(0)] *)
Definition ratio_col (daily : DataFrame) (a b : string) : result Series :=
  (x <- getnum daily a;;
   y <- getnum daily b;;
   Ok (NumCol (fillna n0 (sdiv x y))))%py.

(** [(daily[a] / daily[b]).fillna(0).replace([float('inf')], 0)] *)
Definition ratio_col_noinf (daily : DataFrame) (a b : string)
  : result Series :=
  (x <- getnum daily a;;
   y <- getnum daily b;;
   Ok (NumCol (replace_inf n0 (fillna n0 (sdiv x y)))))%py.

(** The body of [calculate_daily_metrics] on the value of the copy. *)
Definition calculate_daily_metrics (df : DataFrame) : result DataFrame :=
  (let daily := df in
   s <- pct_col daily "clicks" "impressions";;
   let daily := setcol daily "CTR" s in
   s <- pct_col daily "lp_views" "clicks";;
   let daily := setcol daily "LP_View_Rate" s in
   s <- pct_col daily "adds_to_cart" "lp_views";;
   let daily := setcol daily "ATC_Rate" s in
   s <- pct_col daily "checkouts" "adds_to_cart";;
   let daily := setcol daily "Checkout_Rate" s in
   s <- pct_col daily "purchases" "checkouts";;
   let daily := setcol daily "Purchase_Rate" s in
   s <- pct_col daily "purchases" "clicks";;
   let daily := setcol daily "Overall_CVR" s in
   s <- ratio_col daily "spend" "clicks";;
   let daily := setcol daily "CPC" s in
   s <- ratio_col_noinf daily "spend" "purchases";;
   let daily := setcol daily "CPA" s in
   s <- ratio_col daily "impressions" "clicks";;
   let daily := setcol daily "Frequency" s in
   Ok daily)%py.

Definition get_status (metric_name : string) (value : num) : string :=
  match lookup metric_name BENCHMARKS with
  | None => "neutral"
  | Some bench =>
      if (value >=? ideal bench)%num then "excellent"
      else if (value >=? min_ bench)%num then "good"
      else "critical"
  end.

Definition get_status_emoji (metric_name : string) (value : num) : string :=
  let status := get_status metric_name value in
  if String.eqb status "excellent" then "✅"
  else if String.eqb status "good" then "⚠️"
  else "🚨".

Definition checkout_issue (current target : num) : Issue :=
  mkIssue CRITICAL "Checkout Rate" current target
    [ "Enable guest checkout to reduce friction";
      "Add multiple payment options (UPI, COD, Cards)";
      "Display shipping costs earlier in the funnel";
      "Simplify checkout to 1-2 steps maximum";
      "Add trust badges and security indicators";
      "Optimize mobile checkout experience" ].

Definition lp_issue (current target : num) : Issue :=
  mkIssue HIGH "Landing Page View Rate" current target
    [ "Improve page load speed (compress images, use CDN)";
      "Optimize for mobile devices";
      "Check for broken links or redirects";
      "Ensure landing page matches ad promise" ].

Definition purchase_issue (current target : num) : Issue :=
  mkIssue MEDIUM "Purchase Completion Rate" current target
    [ "Add exit-intent popups with discount offers";
      "Implement cart abandonment email sequence";
      "Show limited stock/urgency indicators";
      "Offer free shipping threshold";
      "Add live chat support during checkout" ].

Definition ctr_issue (current target : num) : Issue :=
  mkIssue MEDIUM "Click-Through Rate" current target
    [ "Test different ad creatives and copy";
      "Improve ad targeting to reach more relevant audience";
      "Use more compelling calls-to-action";
      "A/B test different images and videos";
      "Ensure ad relevance matches landing page" ].

Definition get_recommendations (metrics : Metrics) : result (list Issue) :=
  (let issues := [] in
   b <- getitem BENCHMARKS "Checkout_Rate";;
   let issues :=
     append_if (Checkout_Rate metrics <? min_ b)%num
       (checkout_issue (Checkout_Rate metrics) (ideal b)) issues in
   b <- getitem BENCHMARKS "LP_View_Rate";;
   let issues :=
     append_if (LP_View_Rate metrics <? min_ b)%num
       (lp_issue (LP_View_Rate metrics) (ideal b)) issues in
   b <- getitem BENCHMARKS "Purchase_Rate";;
   let issues :=
     append_if (Purchase_Rate metrics <? min_ b)%num
       (purchase_issue (Purchase_Rate metrics) (ideal b)) issues in
   b <- getitem BENCHMARKS "CTR";;
   let issues :=
     append_if (CTR metrics <? min_ b)%num
       (ctr_issue (CTR metrics) (ideal b)) issues in
   Ok (sort_issues issues))%py.

End Manual.

(** ** Insight records of the ads API

    [fetch_campaign_data] and [fetch_data] build one row per insight record.
    The fields of a record are taken after their conversion by [int] and
    [float]; a record on which a conversion or a test on [action_type]
    raises is not turned into a row (the function returns the error pair),
    so it has no place here. *)

Record Action : Type := mkAction {
  action_type : string;
  value : Z
}.

Record ActionValue : Type := mkActionValue {
  av_action_type : string;
  av_value : Q
}.

Record Insight : Type := mkInsight {
  date_start : Z;
  i_campaign_name : string;
  i_impressions : Z;
  i_clicks : Z;
  i_spend : Q;
  i_reach : Z;
  i_frequency : Q;
  i_cpc : Q;
  i_ctr : Q;
  actions : list Action;
  action_values : list ActionValue
}.

(** The funnel entries of the row dict, which the loop over [actions]
    assigns. *)
Record Funnel : Type := mkFunnel {
  lp_views : Z;
  adds_to_cart : Z;
  checkouts : Z;
  purchases : Z
}.

(** One turn of the loop [for action in actions]. *)
Definition action_step (row : Funnel) (action : Action) : Funnel :=
  let action_type := action_type action in
  let value := value action in
  if contains "landing_page_view" action_type then
    mkFunnel value (adds_to_cart row) (checkouts row) (purchases row)
  else if contains "add_to_cart" action_type
          || String.eqb action_type "offsite_conversion.fb_pixel_add_to_cart"
  then
    mkFunnel (lp_views row) value (checkouts row) (purchases row)
  else if contains "initiate_checkout" action_type
          || String.eqb action_type
               "offsite_conversion.fb_pixel_initiate_checkout"
  then
    mkFunnel (lp_views row) (adds_to_cart row) value (purchases row)
  else if contains "purchase" action_type
          || String.eqb action_type "offsite_conversion.fb_pixel_purchase"
  then
    mkFunnel (lp_views row) (adds_to_cart row) (checkouts row) value
  else row.

Definition extract_actions (actions : list Action) : Funnel :=
  fold_left action_step actions (mkFunnel 0 0 0 0).

(** * app.py *)

Module Api.

Definition BENCHMARKS : list (string * Bench) := Manual.BENCHMARKS.

Record Row : Type := mkRow {
  date : Z;
  product : string;
  impressions : Z;
  clicks : Z;
  spend : Q;
  reach : Z;
  frequency : Q;
  cpc : Q;
  ctr : Q;
  funnel : Funnel
}.

(** The body of the loop [for insight in insights] of
    [fetch_campaign_data]. *)
Definition row_of_insight (insight : Insight) : Row :=
  mkRow (date_start insight) (i_campaign_name insight)
    (i_impressions insight) (i_clicks insight) (i_spend insight)
    (i_reach insight) (i_frequency insight) (i_cpc insight) (i_ctr insight)
    (extract_actions (actions insight)).

Definition calculate_metrics (df : DataFrame) : result Metrics :=
  (let totals := df_sum df in
   clicks <- attr totals "clicks";;
   impressions <- attr totals "impressions";;
   lp_views <- attr totals "lp_views";;
   adds_to_cart <- attr totals "adds_to_cart";;
   checkouts <- attr totals "checkouts";;
   purchases <- attr totals "purchases";;
   spend <- attr totals "spend";;
   freq <- (if (0 <? nrows df)%nat
            then (f <- attr totals "frequency";;
                  Ok (f / of_nat (nrows df))%num)
            else Ok n0);;
   Ok {| CTR := pct clicks impressions;
         LP_View_Rate := pct lp_views clicks;
         ATC_Rate := pct adds_to_cart lp_views;
         Checkout_Rate := pct checkouts adds_to_cart;
         Purchase_Rate := pct purchases checkouts;
         Overall_CVR := pct purchases clicks;
         CPC := ratio spend clicks;
         CPA := ratio spend purchases;
         ROAS := ratio (purchases * Fin 500)%num spend;
         Frequency := freq;
         totals := {| t_impressions := impressions;
                      t_clicks := clicks;
                      t_lp_views := lp_views;
                      t_adds_to_cart := adds_to_cart;
                      t_checkouts := checkouts;
                      t_purchases := purchases;
                      t_spend := spend |} |})%py.

Definition get_status_emoji (metric_name : string) (value : num) : string :=
  match lookup metric_name BENCHMARKS with
  | None => "⚪"
  | Some bench =>
      if (value >=? ideal bench)%num then "✅"
      else if (value >=? min_ bench)%num then "⚠️"
      else "🚨"
  end.

Definition checkout_issue (current target : num) : Issue :=
  mkIssue CRITICAL "Checkout Rate" current target
    [ "Enable guest checkout to reduce friction";
      "Add multiple payment options (UPI, COD, Cards)";
      "Display shipping costs earlier in the funnel";
      "Simplify checkout to 1-2 steps maximum" ].

Definition lp_issue (current target : num) : Issue :=
  mkIssue HIGH "Landing Page View Rate" current target
    [ "Improve page load speed (compress images, use CDN)";
      "Optimize for mobile devices";
      "Check for broken links or redirects" ].

Definition ctr_issue (current target : num) : Issue :=
  mkIssue MEDIUM "Click-Through Rate" current target
    [ "Test different ad creatives and copy";
      "Improve ad targeting to reach more relevant audience";
      "Use more compelling calls-to-action" ].

Definition get_recommendations (metrics : Metrics) : result (list Issue) :=
  (let issues := [] in
   b <- getitem BENCHMARKS "Checkout_Rate";;
   let issues :=
     append_if (Checkout_Rate metrics <? min_ b)%num
       (checkout_issue (Checkout_Rate metrics) (ideal b)) issues in
   b <- getitem BENCHMARKS "LP_View_Rate";;
   let issues :=
     append_if (LP_View_Rate metrics <? min_ b)%num
       (lp_issue (LP_View_Rate metrics) (ideal b)) issues in
   b <- getitem BENCHMARKS "CTR";;
   let issues :=
     append_if (CTR metrics <? min_ b)%num
       (ctr_issue (CTR metrics) (ideal b)) issues in
   Ok (sort_issues issues))%py.

End Api.

(** * before_metrics_addition.py *)

Module Rev.

Definition BENCHMARKS : list (string * Bench) :=
  [ ("CTR", mkBench (Fin (9 # 10)) (Fin (15 # 10)) (Fin 3) "%");
    ("LP_View_Rate", mkBench (Fin 80) (Fin 90) (Fin 100) "%");
    ("ATC_Rate", mkBench (Fin 10) (Fin 20) (Fin 30) "%");
    ("Checkout_Rate", mkBench (Fin 60) (Fin 75) (Fin 85) "%");
    ("Purchase_Rate", mkBench (Fin 50) (Fin 65) (Fin 80) "%");
    ("Overall_CVR", mkBench (Fin 2) (Fin 5) (Fin 10) "%");
    ("CPC", mkBench (Fin 5) (Fin 10) (Fin 15) "");
    ("CPA", mkBench (Fin 100) (Fin 300) (Fin 500) "");
    ("Frequency", mkBench (Fin 1) (Fin (11 # 10)) (Fin (13 # 10)) "x");
    ("ROAS", mkBench (Fin 2) (Fin 4) (Fin 6) "x");
    ("ACoS", mkBench (Fin 40) (Fin 25) (Fin 15) "%") ].

Definition AOV : Z := 600.

Record Row : Type := mkRow {
  date : Z;
  campaign_name : string;
  impressions : Z;
  clicks : Z;
  spend : Q;
  reach : Z;
  frequency : Q;
  cpc : Q;
  ctr : Q;
  funnel : Funnel;
  revenue : Q
}.

(** The loop over [action_values]: the first purchase entry gives the
    revenue and ends the loop. *)
Fixpoint find_revenue (action_values : list ActionValue) : option Q :=
  match action_values with
  | [] => None
  | action_value :: rest =>
      let action_type := av_action_type action_value in
      if contains "purchase" action_type
         || String.eqb action_type "offsite_conversion.fb_pixel_purchase"
      then Some (av_value action_value)
      else find_revenue rest
  end.

(** The body of the loop [for insight in insights] of [fetch_data]. *)
Definition row_of_insight (insight : Insight) : Row :=
  let funnel := extract_actions (actions insight) in
  let revenue :=
    match find_revenue (action_values insight) with
    | Some r => r
    | None =>
        if (0 <? purchases funnel)%Z
        then inject_Z (purchases funnel * AOV)
        else 0%Q
    end in
  mkRow (date_start insight) (i_campaign_name insight)
    (i_impressions insight) (i_clicks insight) (i_spend insight)
    (i_reach insight) (i_frequency insight) (i_cpc insight) (i_ctr insight)
    funnel revenue.

Record Totals : Type := mkTotals {
  t_impressions : num;
  t_clicks : num;
  t_lp_views : num;
  t_adds_to_cart : num;
  t_checkouts : num;
  t_purchases : num;
  t_spend : num;
  t_revenue : num
}.

Record Metrics : Type := mkMetrics {
  CTR : num;
  LP_View_Rate : num;
  ATC_Rate : num;
  Checkout_Rate : num;
  Purchase_Rate : num;
  Overall_CVR : num;
  CPC : num;
  CPA : num;
  ROAS : num;
  ACoS : num;
  Frequency : num;
  totals : Totals
}.

Definition calculate_metrics (df : DataFrame) : result Metrics :=
  (let totals := df_sum df in
   spend <- attr totals "spend";;
   revenue <- attr totals "revenue";;
   let roas := ratio revenue spend in
   let acos := pct spend revenue in
   clicks <- attr totals "clicks";;
   impressions <- attr totals "impressions";;
   lp_views <- attr totals "lp_views";;
   adds_to_cart <- attr totals "adds_to_cart";;
   checkouts <- attr totals "checkouts";;
   purchases <- attr totals "purchases";;
   freq <- (if (0 <? nrows df)%nat
            then (f <- attr totals "frequency";;
                  Ok (f / of_nat (nrows df))%num)
            else Ok n0);;
   Ok {| CTR := pct clicks impressions;
         LP_View_Rate := pct lp_views clicks;
         ATC_Rate := pct adds_to_cart lp_views;
         Checkout_Rate := pct checkouts adds_to_cart;
         Purchase_Rate := pct purchases checkouts;
         Overall_CVR := pct purchases clicks;
         CPC := ratio spend clicks;
         CPA := ratio spend purchases;
         ROAS := roas;
         ACoS := acos;
         Frequency := freq;
         totals := {| t_impressions := impressions;
                      t_clicks := clicks;
                      t_lp_views := lp_views;
                      t_adds_to_cart := adds_to_cart;
                      t_checkouts := checkouts;
                      t_purchases := purchases;
                      t_spend := spend;
                      t_revenue := revenue |} |})%py.

(** [(daily[a] / daily[b] * 100).fillna(0).replace([float('inf')], 0)] *)
Definition pct_col_noinf (daily : DataFrame) (a b : string)
  : result Series :=
  (x <- getnum daily a;;
   y <- getnum daily b;;
   Ok (NumCol (replace_inf n0 (fillna n0 (smul_scalar (sdiv x y) n100)))))%py.

(** The body of [calculate_daily_metrics] on the value of the copy. *)
Definition calculate_daily_metrics (df : DataFrame) : result DataFrame :=
  (let daily := df in
   s <- Manual.pct_col daily "clicks" "impressions";;
   let daily := setcol daily "CTR" s in
   s <- Manual.pct_col daily "lp_views" "clicks";;
   let daily := setcol daily "LP_View_Rate" s in
   s <- Manual.pct_col daily "adds_to_cart" "lp_views";;
   let daily := setcol daily "ATC_Rate" s in
   s <- Manual.pct_col daily "checkouts" "adds_to_cart";;
   let daily := setcol daily "Checkout_Rate" s in
   s <- Manual.pct_col daily "purchases" "checkouts";;
   let daily := setcol daily "Purchase_Rate" s in
   s <- Manual.pct_col daily "purchases" "clicks";;
   let daily := setcol daily "Overall_CVR" s in
   s <- Manual.ratio_col daily "spend" "clicks";;
   let daily := setcol daily "CPC" s in
   s <- Manual.ratio_col_noinf daily "spend" "purchases";;
   let daily := setcol daily "CPA" s in
   s <- Manual.ratio_col_noinf daily "revenue" "spend";;
   let daily := setcol daily "ROAS" s in
   s <- pct_col_noinf daily "spend" "revenue";;
   let daily := setcol daily "ACoS" s in
   s <- Manual.ratio_col daily "impressions" "clicks";;
   let daily := setcol daily "Frequency" s in
   Ok daily)%py.

Definition get_status_emoji (metric_name : string) (value : num) : string :=
  match lookup metric_name BENCHMARKS with
  | None => "⚪"
  | Some bench =>
      if String.eqb metric_name "ACoS" then
        if (value <=? max_ bench)%num then "✅"
        else if (value <=? ideal bench)%num then "⚠️"
        else "🚨"
      else
        if (value >=? ideal bench)%num then "✅"
        else if (value >=? min_ bench)%num then "⚠️"
        else "🚨"
  end.

Definition checkout_issue (current target : num) : Issue :=
  mkIssue CRITICAL "Checkout Rate" current target
    [ "Enable guest checkout to reduce friction";
      "Add multiple payment options (UPI, COD, Cards)";
      "Display shipping costs earlier in the funnel";
      "Simplify checkout to 1-2 steps maximum";
      "Add trust badges and security indicators" ].

Definition lp_issue (current target : num) : Issue :=
  mkIssue HIGH "Landing Page View Rate" current target
    [ "Improve page load speed (compress images, use CDN)";
      "Optimize for mobile devices";
      "Check for broken links or redirects";
      "Ensure landing page matches ad promise" ].

Definition ctr_issue (current target : num) : Issue :=
  mkIssue MEDIUM "Click-Through Rate" current target
    [ "Test different ad creatives and copy";
      "Improve ad targeting to reach more relevant audience";
      "Use more compelling calls-to-action";
      "A/B test different images and videos" ].

Definition roas_issue (current target : num) : Issue :=
  mkIssue CRITICAL "ROAS (Return on Ad Spend)" current target
    [ "Increase product prices or average order value";
      "Improve conversion rate throughout funnel";
      "Reduce ad spend on underperforming campaigns";
      "Focus on high-value customer segments";
      "Optimize product mix for profitability" ].

Definition acos_issue (current target : num) : Issue :=
  mkIssue HIGH "ACoS (Advertising Cost of Sales)" current target
    [ "Reduce cost per click through better targeting";
      "Improve conversion rate to lower CPA";
      "Pause underperforming ad sets";
      "Focus on audiences with lower CPAs";
      "Optimize bidding strategy" ].

Definition get_recommendations (metrics : Metrics) : result (list Issue) :=
  (let issues := [] in
   b <- getitem BENCHMARKS "Checkout_Rate";;
   let issues :=
     append_if (Checkout_Rate metrics <? min_ b)%num
       (checkout_issue (Checkout_Rate metrics) (ideal b)) issues in
   b <- getitem BENCHMARKS "LP_View_Rate";;
   let issues :=
     append_if (LP_View_Rate metrics <? min_ b)%num
       (lp_issue (LP_View_Rate metrics) (ideal b)) issues in
   b <- getitem BENCHMARKS "CTR";;
   let issues :=
     append_if (CTR metrics <? min_ b)%num
       (ctr_issue (CTR metrics) (ideal b)) issues in
   b <- getitem BENCHMARKS "ROAS";;
   let issues :=
     append_if (ROAS metrics <? min_ b)%num
       (roas_issue (ROAS metrics) (ideal b)) issues in
   b <- getitem BENCHMARKS "ACoS";;
   let issues :=
     append_if (ACoS metrics >? ideal b)%num
       (acos_issue (ACoS metrics) (ideal b)) issues in
   Ok (sort_issues issues))%py.

End Rev.

(** * appmanual.py: the spreadsheet normaliser

    A sheet read with [header=None] is a list of rows of cells.  The
    conversions of pandas that the code calls on single cells ([str],
    [pd.to_datetime], [pd.to_numeric]) are fixed here on empty, numeric and
    date cells as far as the code depends on them; what they do on free text
    and on the remaining cases is a parameter, the record [Pandas]. *)

Module Normalizer.

Inductive cell : Type :=
| CEmpty
| CNum (q : Q)
| CText (s : string)
| CDate (t : Z).

(** A column label of a frame read with a header row: the header cell as it
    is, text or not. *)
Inductive label : Type :=
| LStr (s : string)
| LNum (q : Q)
| LDate (t : Z).

Record Frame : Type := mkFrame {
  labels : list label;
  body : list (list cell)
}.

Record Pandas : Type := mkPandas {
  (** [str(x)] of a number and of a timestamp *)
  str_of_num : Q -> string;
  str_of_date : Z -> string;
  (** [pd.to_datetime(x)] of text and of a number: [None] when it raises,
      [Some None] for NaT *)
  datetime_of_text : string -> option (option Z);
  datetime_of_num : Q -> option (option Z);
  (** [pd.to_numeric(x, errors="coerce")] of text and of a timestamp *)
  numeric_of_text : string -> num;
  numeric_of_date : Z -> num
}.

Definition COLUMN_SYNONYMS : list (string * list string) :=
  [ ("date", ["day"; "date"]);
    ("impressions", ["impressions"]);
    ("clicks", ["clicks (all)"; "link clicks"; "clicks"]);
    ("lp_views", ["landing page views"; "landing page view"]);
    ("adds_to_cart", ["adds to cart"; "add to cart"]);
    ("checkouts", ["checkouts initiated"; "checkout"]);
    ("spend", ["amount spent"]);
    ("purchases", ["results"; "website purchase"]) ].

Definition required : list string :=
  [ "impressions"; "clicks"; "lp_views"; "adds_to_cart"; "checkouts";
    "spend"; "purchases" ].

Section WithPandas.
Variable pd : Pandas.

(** [str(x)], also what [astype(str)] gives for a cell. *)
Definition str (c : cell) : string :=
  match c with
  | CEmpty => "nan"
  | CNum q => str_of_num pd q
  | CText s => s
  | CDate t => str_of_date pd t
  end.

(** [row_str.str.contains(pat).any()] with
    [row_str = df.iloc[i].astype(str).str.lower()] *)
Definition row_contains (pat : string) (row : list cell) : bool :=
  existsb (fun c => contains pat (lower (str c))) row.

(** The loop of [detect_header_row] from index [i] on. *)
Fixpoint scan_header (i : nat) (rows : list (list cell)) : option nat :=
  match rows with
  | [] => None
  | row :: rest =>
      if row_contains "impression" row || row_contains "day" row
      then Some i
      else scan_header (S i) rest
  end.

Definition detect_header_row (df : list (list cell)) : nat :=
  match scan_header 0 (firstn (Nat.min 10 (length df)) df) with
  | Some i => i
  | None => 0
  end.

Definition decimal (n : nat) : string :=
  NilEmpty.string_of_uint (Nat.to_uint n).

(** The labels that [pd.read_excel] makes of a header row: an empty cell
    at position [i] is named ["Unnamed: i"], any other cell is the label
    as it is. *)
Fixpoint labels_from (i : nat) (header : list cell) : list label :=
  match header with
  | [] => []
  | c :: rest =>
      (match c with
       | CEmpty => LStr ("Unnamed: " ++ decimal i)%string
       | CNum q => LNum q
       | CText s => LStr s
       | CDate t => LDate t
       end) :: labels_from (S i) rest
  end.

(** [pd.read_excel(uploaded_file, sheet_name=sheet_name, header=h)] of
    the sheet that [raw_df] was read from. *)
Definition read_excel (raw_df : list (list cell)) (h : nat) : Frame :=
  match skipn h raw_df with
  | [] => mkFrame [] []
  | header :: rows => mkFrame (labels_from 0 header) rows
  end.

(** [{c.lower(): c for c in df.columns}]; [c.lower()] exists on [str]
    only. *)
Fixpoint lower_cols (cols : list label) (acc : list (string * string))
  : result (list (string * string)) :=
  match cols with
  | [] => Ok acc
  | LStr c :: rest => lower_cols rest (setitem (lower c) c acc)
  | _ :: _ => Raise (AttributeError "lower")
  end.

(** [for col in lower_cols: if syn in col: ...; break] *)
Fixpoint first_match (syn : string) (lc : list (string * string))
  : option string :=
  match lc with
  | [] => None
  | (col, c) :: rest =>
      if contains syn col then Some c else first_match syn rest
  end.

(** [for syn in synonyms: ...; if key in mapping: break] *)
Fixpoint resolve (synonyms : list string) (lc : list (string * string))
  : option string :=
  match synonyms with
  | [] => None
  | syn :: rest =>
      match first_match syn lc with
      | Some c => Some c
      | None => resolve rest lc
      end
  end.

Definition normalize_columns (df : Frame)
  : result (list (string * string)) :=
  (lc <- lower_cols (labels df) [];;
   Ok (fold_left
         (fun mapping ks =>
            match resolve (snd ks) lc with
            | Some c => setitem (fst ks) c mapping
            | None => mapping
            end)
         COLUMN_SYNONYMS []))%py.

Fixpoint col_index (name : string) (cols : list label) : option nat :=
  match cols with
  | [] => None
  | LStr c :: rest =>
      if String.eqb name c then Some 0%nat
      else option_map S (col_index name rest)
  | _ :: rest => option_map S (col_index name rest)
  end.

(** [row[col]] *)
Definition cell_of (df : Frame) (col : string) (row : list cell) : cell :=
  match col_index col (labels df) with
  | Some i => nth i row CEmpty
  | None => CEmpty
  end.

(** [pd.to_datetime(x)] of one cell: [None] when it raises. *)
Definition to_datetime (c : cell) : option (option Z) :=
  match c with
  | CEmpty => Some None
  | CNum q => datetime_of_num pd q
  | CText s => datetime_of_text pd s
  | CDate t => Some (Some t)
  end.

(** [pd.to_numeric(x, errors="coerce")] of one cell. *)
Definition to_numeric (c : cell) : num :=
  match c with
  | CEmpty => NaN
  | CNum q => Fin q
  | CText s => numeric_of_text pd s
  | CDate t => numeric_of_date pd t
  end.

(** The loop of [split_data_and_notes]. *)
Fixpoint split_rows (df : Frame) (date_col : string)
    (rows : list (list cell)) : list (list cell) * list string :=
  match rows with
  | [] => ([], [])
  | row :: rest =>
      let (data_rows, notes) := split_rows df date_col rest in
      match to_datetime (cell_of df date_col row) with
      | Some _ => (row :: data_rows, notes)
      | None =>
          let txt := strip (str (cell_of df date_col row)) in
          if negb (String.eqb txt "")
             && negb (String.eqb (lower txt) "nan")
             && negb (String.eqb (lower txt) "none")
          then (data_rows, txt :: notes)
          else (data_rows, notes)
      end
  end.

(** [pd.DataFrame(data_rows)] has the columns of the rows, and none when
    there is no row. *)
Definition split_data_and_notes (df : Frame) (date_col : string)
  : Frame * list string :=
  let (data_rows, notes) := split_rows df date_col (body df) in
  (mkFrame (match data_rows with [] => [] | _ => labels df end) data_rows,
   notes).

(** [df_data[name]] *)
Definition column_of (df : Frame) (name : string) : result (list cell) :=
  match col_index name (labels df) with
  | Some i => Ok (map (fun row => nth i row CEmpty) (body df))
  | None => Raise (KeyError name)
  end.

(** [pd.to_datetime(col, errors='coerce')], cell by cell. *)
Definition coerce_dates (col : list cell) : list (option Z) :=
  map (fun c => match to_datetime c with Some d => d | None => None end)
    col.

(** [pd.to_numeric(col, errors="coerce").fillna(0)] *)
Definition coerce_numbers (col : list cell) : list num :=
  fillna n0 (map to_numeric col).

Fixpoint keep {A : Type} (mask : list bool) (l : list A) : list A :=
  match mask, l with
  | b :: mask', x :: l' => if b then x :: keep mask' l' else keep mask' l'
  | _, _ => []
  end.

Definition notna (d : option Z) : bool :=
  match d with Some _ => true | None => false end.

Definition has_key {V : Type} (k : string) (d : list (string * V)) : bool :=
  match lookup k d with Some _ => true | None => false end.

Definition clean_sheet (raw_df : list (list cell)) (sheet_name : string)
  : result (option DataFrame * list string) :=
  (let header_row := detect_header_row raw_df in
   let df := read_excel raw_df header_row in
   col_map <- normalize_columns df;;
   match lookup "date" col_map with
   | None => Ok (None, [])
   | Some date_col =>
       let (df_data, notes) := split_data_and_notes df date_col in
       if negb (forallb (fun r => has_key r col_map) required)
       then Ok (None, notes)
       else
         date <- column_of df_data date_col;;
         let date := coerce_dates date in
         c <- getitem col_map "impressions";;
         impressions <- column_of df_data c;;
         c <- getitem col_map "clicks";;
         clicks <- column_of df_data c;;
         c <- getitem col_map "lp_views";;
         lp_views <- column_of df_data c;;
         c <- getitem col_map "adds_to_cart";;
         adds_to_cart <- column_of df_data c;;
         c <- getitem col_map "checkouts";;
         checkouts <- column_of df_data c;;
         c <- getitem col_map "purchases";;
         purchases <- column_of df_data c;;
         c <- getitem col_map "spend";;
         spend <- column_of df_data c;;
         let mask := map notna date in
         Ok (Some
               (mkDF (length (keep mask date))
                  [ ("date", DateCol (keep mask date));
                    ("impressions",
                      NumCol (keep mask (coerce_numbers impressions)));
                    ("clicks", NumCol (keep mask (coerce_numbers clicks)));
                    ("lp_views",
                      NumCol (keep mask (coerce_numbers lp_views)));
                    ("adds_to_cart",
                      NumCol (keep mask (coerce_numbers adds_to_cart)));
                    ("checkouts",
                      NumCol (keep mask (coerce_numbers checkouts)));
                    ("purchases",
                      NumCol (keep mask (coerce_numbers purchases)));
                    ("spend", NumCol (keep mask (coerce_numbers spend)));
                    ("product",
                      ObjCol (keep mask (map (fun _ => sheet_name) date)))
                  ]),
             notes)
   end)%py.

End WithPandas.

End Normalizer.

(** * appmanual.py over a store of objects

    The data frame that a function receives, the dict of metrics and the
    list of issues are mutable Python objects.  Here the functions are
    programs over a store: an argument is the location of its object,
    [df.copy()] and a dict or list display allocate a new object, and an
    assignment [daily[name] = ...], [issues.append] and [issues.sort] update
    the object at a location in place. *)

Module Store.

Inductive obj : Type :=
| OFrame (df : DataFrame)
| ODict (m : Metrics)
| OList (l : list Issue).

Definition loc : Type := nat.
Definition heap : Type := list obj.
Definition M (A : Type) : Type := heap -> result (A * heap).

Definition ret {A : Type} (a : A) : M A := fun h => Ok (a, h).

Definition bindM {A B : Type} (m : M A) (k : A -> M B) : M B :=
  fun h =>
    match m h with
    | Ok (a, h') => k a h'
    | Raise e => Raise e
    end.

Definition lift {A : Type} (r : result A) : M A :=
  fun h =>
    match r with
    | Ok a => Ok (a, h)
    | Raise e => Raise e
    end.

Declare Scope store_scope.
Delimit Scope store_scope with store.
Notation "x <- m ;; k" := (bindM m (fun x => k))
  (at level 61, m at next level, right associativity) : store_scope.
Notation "m ;;; k" := (bindM m (fun _ => k))
  (at level 61, right associativity) : store_scope.

Definition alloc (o : obj) : M loc := fun h => Ok (length h, h ++ [o]).

Fixpoint update (l : loc) (o : obj) (h : heap) : heap :=
  match h, l with
  | [], _ => []
  | _ :: h', O => o :: h'
  | x :: h', S l' => x :: update l' o h'
  end.

Definition load_frame (l : loc) : M DataFrame :=
  fun h =>
    match nth_error h l with
    | Some (OFrame df) => Ok (df, h)
    | _ => Raise (TypeError "DataFrame")
    end.

Definition load_dict (l : loc) : M Metrics :=
  fun h =>
    match nth_error h l with
    | Some (ODict m) => Ok (m, h)
    | _ => Raise (TypeError "dict")
    end.

Definition load_list (l : loc) : M (list Issue) :=
  fun h =>
    match nth_error h l with
    | Some (OList x) => Ok (x, h)
    | _ => Raise (TypeError "list")
    end.

Definition store (l : loc) (o : obj) : M unit :=
  fun h => Ok (tt, update l o h).

(** [df.copy()] *)
Definition df_copy (df : loc) : M loc :=
  (d <- load_frame df;; alloc (OFrame d))%store.

(** [daily[name] = s] *)
Definition df_setcol (daily : loc) (name : string) (s : Series) : M unit :=
  (d <- load_frame daily;; store daily (OFrame (setcol d name s)))%store.

(** [issues.append(x)] *)
Definition list_append (issues : loc) (x : Issue) : M unit :=
  (l <- load_list issues;; store issues (OList (l ++ [x])))%store.

(** [issues.sort(key=lambda x: priority_order[x['priority']])] *)
Definition list_sort (issues : loc) : M unit :=
  (l <- load_list issues;; store issues (OList (sort_issues l)))%store.

Definition when (cond : bool) (m : M unit) : M unit :=
  if cond then m else ret tt.

Definition calculate_metrics (df : loc) : M loc :=
  (d <- load_frame df;;
   metrics <- lift (Manual.calculate_metrics d);;
   alloc (ODict metrics))%store.

(** [daily[name] = f(daily, a, b)] for the three shapes of right-hand
    side. *)
Definition assign (daily : loc) (name : string)
    (rhs : DataFrame -> result Series) : M unit :=
  (d <- load_frame daily;;
   s <- lift (rhs d);;
   df_setcol daily name s)%store.

Definition calculate_daily_metrics (df : loc) : M loc :=
  (daily <- df_copy df;;
   assign daily "CTR"
     (fun d => Manual.pct_col d "clicks" "impressions");;;
   assign daily "LP_View_Rate"
     (fun d => Manual.pct_col d "lp_views" "clicks");;;
   assign daily "ATC_Rate"
     (fun d => Manual.pct_col d "adds_to_cart" "lp_views");;;
   assign daily "Checkout_Rate"
     (fun d => Manual.pct_col d "checkouts" "adds_to_cart");;;
   assign daily "Purchase_Rate"
     (fun d => Manual.pct_col d "purchases" "checkouts");;;
   assign daily "Overall_CVR"
     (fun d => Manual.pct_col d "purchases" "clicks");;;
   assign daily "CPC"
     (fun d => Manual.ratio_col d "spend" "clicks");;;
   assign daily "CPA"
     (fun d => Manual.ratio_col_noinf d "spend" "purchases");;;
   assign daily "Frequency"
     (fun d => Manual.ratio_col d "impressions" "clicks");;;
   ret daily)%store.

(** Strings and floats are immutable: [get_status] touches no object. *)
Definition get_status (metric_name : string) (value : num) : M string :=
  ret (Manual.get_status metric_name value).

Definition get_recommendations (metrics : loc) : M loc :=
  (issues <- alloc (OList []);;
   m <- load_dict metrics;;
   b <- lift (getitem Manual.BENCHMARKS "Checkout_Rate");;
   when (Checkout_Rate m <? min_ b)%num
     (list_append issues
        (Manual.checkout_issue (Checkout_Rate m) (ideal b)));;;
   m <- load_dict metrics;;
   b <- lift (getitem Manual.BENCHMARKS "LP_View_Rate");;
   when (LP_View_Rate m <? min_ b)%num
     (list_append issues (Manual.lp_issue (LP_View_Rate m) (ideal b)));;;
   m <- load_dict metrics;;
   b <- lift (getitem Manual.BENCHMARKS "Purchase_Rate");;
   when (Purchase_Rate m <? min_ b)%num
     (list_append issues
        (Manual.purchase_issue (Purchase_Rate m) (ideal b)));;;
   m <- load_dict metrics;;
   b <- lift (getitem Manual.BENCHMARKS "CTR");;
   when (CTR m <? min_ b)%num
     (list_append issues (Manual.ctr_issue (CTR m) (ideal b)));;;
   list_sort issues;;;
   ret issues)%store.

End Store.

(** ** Canonical row sets *)

(** A canonical numeric column: present, numeric, one finite value per
    row. *)
Definition numeric_column (df : DataFrame) (name : string) : bool :=
  match lookup name (columns df) with
  | Some (NumCol l) => (length l =? nrows df)%nat && forallb is_finite l
  | _ => false
  end.

Definition funnel_columns : list string :=
  [ "impressions"; "clicks"; "lp_views"; "adds_to_cart"; "checkouts";
    "purchases"; "spend" ].

(** The columns that [calculate_metrics] reads in each file. *)
Definition canonical_manual (df : DataFrame) : bool :=
  forallb (numeric_column df) funnel_columns.

Definition canonical_api (df : DataFrame) : bool :=
  forallb (numeric_column df) (funnel_columns ++ ["frequency"]).

Definition canonical_rev (df : DataFrame) : bool :=
  forallb (numeric_column df) (funnel_columns ++ ["frequency"; "revenue"]).

(** The values of a numeric column, [[]] when there is none. *)
Definition values (df : DataFrame) (name : string) : list num :=
  match lookup name (columns df) with
  | Some (NumCol l) => l
  | _ => []
  end.

(** Every value of a metric set is a finite number. *)
Definition totals_finite (t : Totals) : bool :=
  is_finite (t_impressions t) && is_finite (t_clicks t)
  && is_finite (t_lp_views t) && is_finite (t_adds_to_cart t)
  && is_finite (t_checkouts t) && is_finite (t_purchases t)
  && is_finite (t_spend t).

Definition metrics_finite (m : Metrics) : bool :=
  is_finite (CTR m) && is_finite (LP_View_Rate m) && is_finite (ATC_Rate m)
  && is_finite (Checkout_Rate m) && is_finite (Purchase_Rate m)
  && is_finite (Overall_CVR m) && is_finite (CPC m) && is_finite (CPA m)
  && is_finite (ROAS m) && is_finite (Frequency m)
  && totals_finite (totals m).

Definition is_zero (x : num) : bool := num_eqb x n0.

Definition totals_zero (t : Totals) : bool :=
  is_zero (t_impressions t) && is_zero (t_clicks t)
  && is_zero (t_lp_views t) && is_zero (t_adds_to_cart t)
  && is_zero (t_checkouts t) && is_zero (t_purchases t)
  && is_zero (t_spend t).

Definition metrics_zero (m : Metrics) : bool :=
  is_zero (CTR m) && is_zero (LP_View_Rate m) && is_zero (ATC_Rate m)
  && is_zero (Checkout_Rate m) && is_zero (Purchase_Rate m)
  && is_zero (Overall_CVR m) && is_zero (CPC m) && is_zero (CPA m)
  && is_zero (ROAS m) && is_zero (Frequency m)
  && totals_zero (totals m).

(** The two files whose [calculate_metrics] returns the same dict. *)
Inductive file : Type := appmanual_py | app_py.

Definition calculate_metrics_of (f : file) : DataFrame -> result Metrics :=
  match f with
  | appmanual_py => Manual.calculate_metrics
  | app_py => Api.calculate_metrics
  end.

Definition canonical_of (f : file) : DataFrame -> bool :=
  match f with
  | appmanual_py => canonical_manual
  | app_py => canonical_api
  end.

(** The sums of the funnel columns. *)
Definition column_totals (df : DataFrame) : Totals :=
  {| t_impressions := series_sum (values df "impressions");
     t_clicks := series_sum (values df "clicks");
     t_lp_views := series_sum (values df "lp_views");
     t_adds_to_cart := series_sum (values df "adds_to_cart");
     t_checkouts := series_sum (values df "checkouts");
     t_purchases := series_sum (values df "purchases");
     t_spend := series_sum (values df "spend") |}.

(** The denominator of [Frequency]: total clicks in [appmanual.py], the
    number of rows in [app.py]. *)
Definition frequency_denominator (f : file) (df : DataFrame) : num :=
  match f with
  | appmanual_py => series_sum (values df "clicks")
  | app_py => of_nat (nrows df)
  end.

(** The safe-division rule on a metric set [m] computed from [df]: a ratio
    whose denominator is at most 0 is 0. *)
Definition zero_when_denominator_nonpositive
    (f : file) (df : DataFrame) (m : Metrics) : Prop :=
  let t := column_totals df in
  ((t_impressions t <=? n0)%num = true -> CTR m = n0) /\
  ((t_clicks t <=? n0)%num = true -> LP_View_Rate m = n0) /\
  ((t_lp_views t <=? n0)%num = true -> ATC_Rate m = n0) /\
  ((t_adds_to_cart t <=? n0)%num = true -> Checkout_Rate m = n0) /\
  ((t_checkouts t <=? n0)%num = true -> Purchase_Rate m = n0) /\
  ((t_clicks t <=? n0)%num = true -> Overall_CVR m = n0) /\
  ((t_clicks t <=? n0)%num = true -> CPC m = n0) /\
  ((t_purchases t <=? n0)%num = true -> CPA m = n0) /\
  ((t_spend t <=? n0)%num = true -> ROAS m = n0) /\
  ((frequency_denominator f df <=? n0)%num = true -> Frequency m = n0).

(** The rational values of a list of finite numbers. *)
Fixpoint rationals (l : list num) : list Q :=
  match l with
  | [] => []
  | Fin q :: l' => q :: rationals l'
  | _ :: l' => rationals l'
  end.

Definition Qsum (l : list Q) : Q := fold_right Qplus 0%Q l.

(** ** Sample inputs *)

(** Two days of a campaign, as [app.py] builds the frame. *)
Definition two_days : DataFrame :=
  mkDF 2
    [ ("date", DateCol [Some 20240101%Z; Some 20240102%Z]);
      ("product", ObjCol ["Campaign A"; "Campaign A"]);
      ("impressions", NumCol [Fin 6000; Fin 4000]);
      ("clicks", NumCol [Fin 90; Fin 60]);
      ("spend", NumCol [Fin 900; Fin 600]);
      ("reach", NumCol [Fin 5000; Fin 3000]);
      ("frequency", NumCol [Fin (12 # 10); Fin (14 # 10)]);
      ("lp_views", NumCol [Fin 80; Fin 55]);
      ("adds_to_cart", NumCol [Fin 12; Fin 8]);
      ("checkouts", NumCol [Fin 8; Fin 6]);
      ("purchases", NumCol [Fin 5; Fin 3]) ].

(** A day with impressions and spend but no click. *)
Definition day_without_clicks : DataFrame :=
  mkDF 1
    [ ("date", DateCol [Some 20240101%Z]);
      ("impressions", NumCol [Fin 1000]);
      ("clicks", NumCol [Fin 0]);
      ("lp_views", NumCol [Fin 0]);
      ("adds_to_cart", NumCol [Fin 0]);
      ("checkouts", NumCol [Fin 0]);
      ("purchases", NumCol [Fin 0]);
      ("spend", NumCol [Fin 50]);
      ("product", ObjCol ["Sheet1"]) ].

(** The same day as [fetch_data] of [before_metrics_addition.py] builds
    it. *)
Definition day_without_clicks_rev : DataFrame :=
  mkDF 1
    [ ("date", DateCol [Some 20240101%Z]);
      ("campaign_name", ObjCol ["Campaign A"]);
      ("impressions", NumCol [Fin 1000]);
      ("clicks", NumCol [Fin 0]);
      ("spend", NumCol [Fin 50]);
      ("reach", NumCol [Fin 900]);
      ("frequency", NumCol [Fin (11 # 10)]);
      ("lp_views", NumCol [Fin 0]);
      ("adds_to_cart", NumCol [Fin 0]);
      ("checkouts", NumCol [Fin 0]);
      ("purchases", NumCol [Fin 0]);
      ("revenue", NumCol [Fin 0]) ].

(** Revenue 6000 on spend 1500. *)
Definition revenue_scenario : DataFrame :=
  mkDF 1
    [ ("date", DateCol [Some 20240101%Z]);
      ("impressions", NumCol [Fin 10000]);
      ("clicks", NumCol [Fin 150]);
      ("spend", NumCol [Fin 1500]);
      ("frequency", NumCol [Fin (12 # 10)]);
      ("lp_views", NumCol [Fin 135]);
      ("adds_to_cart", NumCol [Fin 20]);
      ("checkouts", NumCol [Fin 14]);
      ("purchases", NumCol [Fin 8]);
      ("revenue", NumCol [Fin 6000]) ].

(** ** The rule tables of the recommendation engine

    The rules in the order in which the specification declares them, each
    with its trigger on a metric set and the issue that it contributes. *)

Definition by_priority (p : Priority) (issues : list Issue) : list Issue :=
  filter (with_key (fun x => priority_order (priority x)) (priority_order p))
    issues.

(** The issues of the triggered rules, in the order of the table. *)
Fixpoint triggered (rules : list (bool * Issue)) : list Issue :=
  match rules with
  | [] => []
  | (true, x) :: rules' => x :: triggered rules'
  | (false, _) :: rules' => triggered rules'
  end.

(** Checkout rate, landing-page view rate, purchase rate, click-through
    rate. *)
Definition manual_rules (m : Metrics) : list (bool * Issue) :=
  [ ((Checkout_Rate m <? Fin 60)%num,
      Manual.checkout_issue (Checkout_Rate m) (Fin 75));
    ((LP_View_Rate m <? Fin 80)%num,
      Manual.lp_issue (LP_View_Rate m) (Fin 90));
    ((Purchase_Rate m <? Fin 50)%num,
      Manual.purchase_issue (Purchase_Rate m) (Fin 65));
    ((CTR m <? Fin (9 # 10))%num,
      Manual.ctr_issue (CTR m) (Fin (15 # 10))) ].

(** Checkout rate, landing-page view rate, click-through rate, then ROAS
    and ACoS. *)
Definition rev_rules (m : Rev.Metrics) : list (bool * Issue) :=
  [ ((Rev.Checkout_Rate m <? Fin 60)%num,
      Rev.checkout_issue (Rev.Checkout_Rate m) (Fin 75));
    ((Rev.LP_View_Rate m <? Fin 80)%num,
      Rev.lp_issue (Rev.LP_View_Rate m) (Fin 90));
    ((Rev.CTR m <? Fin (9 # 10))%num,
      Rev.ctr_issue (Rev.CTR m) (Fin (15 # 10)));
    ((Rev.ROAS m <? Fin 2)%num,
      Rev.roas_issue (Rev.ROAS m) (Fin 4));
    ((Rev.ACoS m >? Fin 25)%num,
      Rev.acos_issue (Rev.ACoS m) (Fin 25)) ].

(** The order by priority rank. *)
Definition rank_le (x y : Issue) : Prop :=
  (priority_order (priority x) <= priority_order (priority y))%nat.

(** What the specification asks of the output for a rule table: sorted by
    rank, and within each rank the triggered issues in the order of the
    table, each once. *)
Definition prioritized (rules : list (bool * Issue)) (out : list Issue)
  : Prop :=
  StronglySorted rank_le out /\
  Permutation out (triggered rules) /\
  (forall p, by_priority p out = by_priority p (triggered rules)) /\
  out = by_priority CRITICAL (triggered rules)
        ++ by_priority HIGH (triggered rules)
        ++ by_priority MEDIUM (triggered rules) /\
  (forallb (fun r => negb (fst r)) rules = true -> out = []).

(** Checkout rate, landing-page view rate, click-through rate. *)
Definition api_rules (m : Metrics) : list (bool * Issue) :=
  [ ((Checkout_Rate m <? Fin 60)%num,
      Api.checkout_issue (Checkout_Rate m) (Fin 75));
    ((LP_View_Rate m <? Fin 80)%num,
      Api.lp_issue (LP_View_Rate m) (Fin 90));
    ((CTR m <? Fin (9 # 10))%num,
      Api.ctr_issue (CTR m) (Fin (15 # 10))) ].

(** ** Calls that leave their arguments alone *)

(** The call [run] in the store [h] ends in the store [h']: it returns the
    location of a new object [o], and every object of [h] is in [h'] as it
    was. *)
Definition returns_fresh (run : Store.M Store.loc) (h : Store.heap)
    (o : Store.obj) (h' : Store.heap) : Prop :=
  run h = Ok (length h, h') /\
  nth_error h' (length h) = Some o /\
  forall l x, nth_error h l = Some x -> nth_error h' l = Some x.

(** Called twice in a row, [run] returns an equal new object each time and
    changes no object that was there. *)
Definition pure_call (run : Store.M Store.loc) (h : Store.heap)
    (o : Store.obj) : Prop :=
  exists h' h'', returns_fresh run h o h' /\ returns_fresh run h' o h''.

(** A metric set with a weak checkout rate, purchase rate and click-through
    rate. *)
Definition weak_metrics : Metrics :=
  {| CTR := Fin (8 # 10);
     LP_View_Rate := Fin 90;
     ATC_Rate := Fin 15;
     Checkout_Rate := Fin 55;
     Purchase_Rate := Fin 40;
     Overall_CVR := Fin 3;
     CPC := Fin 10;
     CPA := Fin 200;
     ROAS := Fin (5 # 2);
     Frequency := Fin 20;
     totals := mkTotals (Fin 10000) (Fin 80) (Fin 72) (Fin 11) (Fin 6)
                 (Fin 2) (Fin 800) |}.

(** A store that holds a frame and a metric set. *)
Definition sample_store : Store.heap :=
  [ Store.OFrame two_days; Store.ODict weak_metrics ].

(** ** The arithmetic mean and the last matching action *)


(** The four tests of the loop over [actions], each taken alone. *)
Definition is_lp_view (t : string) : bool := contains "landing_page_view" t.

Definition is_add_to_cart (t : string) : bool :=
  contains "add_to_cart" t
  || String.eqb t "offsite_conversion.fb_pixel_add_to_cart".

Definition is_checkout (t : string) : bool :=
  contains "initiate_checkout" t
  || String.eqb t "offsite_conversion.fb_pixel_initiate_checkout".

Definition is_purchase (t : string) : bool :=
  contains "purchase" t
  || String.eqb t "offsite_conversion.fb_pixel_purchase".

(** The value of the last entry of [actions] whose type passes [test], and
    0 when none does. *)
Definition last_value (test : string -> bool) (actions : list Action) : Z :=
  fold_left (fun acc a => if test (action_type a) then value a else acc)
    actions 0%Z.

(** The tests as the [if]/[elif] chain takes them: an entry goes to the
    first test that it passes. *)
Definition takes_add_to_cart (t : string) : bool :=
  negb (is_lp_view t) && is_add_to_cart t.

Definition takes_checkout (t : string) : bool :=
  negb (is_lp_view t) && negb (is_add_to_cart t) && is_checkout t.

Definition takes_purchase (t : string) : bool :=
  negb (is_lp_view t) && negb (is_add_to_cart t) && negb (is_checkout t)
  && is_purchase t.

(** Two entries that mention a purchase; the second one mentions the cart
    as well. *)
Definition mixed_actions : list Action :=
  [ mkAction "purchase" 4; mkAction "add_to_cart_purchase" 9 ].

(** ** Sample sheets *)

Definition digit (c : ascii) : option Z :=
  let n := nat_of_ascii c in
  if (48 <=? n)%nat && (n <=? 57)%nat then Some (Z.of_nat (n - 48)) else None.

Fixpoint digits (s : string) (acc : Z) : option Z :=
  match s with
  | EmptyString => Some acc
  | String c t =>
      match digit c with
      | Some d => digits t (10 * acc + d)%Z
      | None => None
      end
  end.

(** A date written [YYYY-MM-DD], as the integer [YYYYMMDD]. *)
Definition iso_date (s : string) : option Z :=
  if (String.length s =? 10)%nat
     && String.eqb (substring 4 1 s) "-"
     && String.eqb (substring 7 1 s) "-"
  then
    match digits (substring 0 4 s) 0, digits (substring 5 2 s) 0,
          digits (substring 8 2 s) 0 with
    | Some y, Some m, Some d => Some (y * 10000 + m * 100 + d)%Z
    | _, _, _ => None
    end
  else None.

Definition decimal_Z (z : Z) : string :=
  NilEmpty.string_of_int (Z.to_int z).

(** One instance of the conversions, for the examples: a timestamp is the
    integer [YYYYMMDD]; text is a date when it is written [YYYY-MM-DD] and a
    number when it is a row of digits; an integer prints in decimal. *)
Definition plain_pandas : Normalizer.Pandas :=
  {| Normalizer.str_of_num :=
       fun q =>
         match Qden q with
         | 1%positive => decimal_Z (Qnum q)
         | d => (decimal_Z (Qnum q) ++ "/" ++ decimal_Z (Zpos d))%string
         end;
     Normalizer.str_of_date := decimal_Z;
     Normalizer.datetime_of_text := fun s => option_map Some (iso_date s);
     Normalizer.datetime_of_num :=
       fun q => Some (Some (Qnum q / Zpos (Qden q))%Z);
     Normalizer.numeric_of_text :=
       fun s =>
         match s with
         | EmptyString => NaN
         | _ => match digits s 0 with
                | Some z => Fin (inject_Z z)
                | None => NaN
                end
         end;
     Normalizer.numeric_of_date := fun t => Fin (inject_Z t) |}.

(** The header row of the exports that the dashboard expects. *)
Definition export_header : list Normalizer.cell :=
  map Normalizer.CText
    [ "Day"; "Impressions"; "Link clicks"; "Landing page views";
      "Adds to cart"; "Checkouts initiated"; "Amount spent"; "Results" ].

(** The header row and one data row whose first cell is [day]. *)
Definition one_day_sheet (day : Normalizer.cell)
  : list (list Normalizer.cell) :=
  [ export_header;
    day :: map Normalizer.CNum [1000; 50; 45; 10; 7; 500; 4]%Q ].

(** A sheet with a day column, an impressions column and a column headed
    by the number 2024. *)
Definition sheet_with_number_header : list (list Normalizer.cell) :=
  [ [ Normalizer.CText "Day"; Normalizer.CText "Impressions";
      Normalizer.CNum 2024 ];
    [ Normalizer.CText "2024-01-01"; Normalizer.CNum 1000;
      Normalizer.CNum 3 ] ].

(** A sheet of another kind in the same workbook: no day column, a column
    headed by the number 2024. *)
Definition sheet_without_day : list (list Normalizer.cell) :=
  [ [ Normalizer.CText "Campaign"; Normalizer.CNum 2024 ];
    [ Normalizer.CText "Brand"; Normalizer.CNum 120 ] ].

(** A field resolves on a header row when a text cell of the row contains,
    in lower case, one of the synonyms of the field. *)
Definition resolves (key : string) (header : list Normalizer.cell) : bool :=
  match lookup key Normalizer.COLUMN_SYNONYMS with
  | Some synonyms =>
      existsb
        (fun syn =>
           existsb
             (fun c =>
                match c with
                | Normalizer.CText s => contains syn (lower s)
                | _ => false
                end)
             header)
        synonyms
  | None => false
  end.

Definition is_str (l : Normalizer.label) : bool :=
  match l with Normalizer.LStr _ => true | _ => false end.

(** ** Metric sets of before_metrics_addition.py *)

Definition rev_column_totals (df : DataFrame) : Rev.Totals :=
  {| Rev.t_impressions := series_sum (values df "impressions");
     Rev.t_clicks := series_sum (values df "clicks");
     Rev.t_lp_views := series_sum (values df "lp_views");
     Rev.t_adds_to_cart := series_sum (values df "adds_to_cart");
     Rev.t_checkouts := series_sum (values df "checkouts");
     Rev.t_purchases := series_sum (values df "purchases");
     Rev.t_spend := series_sum (values df "spend");
     Rev.t_revenue := series_sum (values df "revenue") |}.

Definition rev_metrics_finite (m : Rev.Metrics) : bool :=
  is_finite (Rev.CTR m) && is_finite (Rev.LP_View_Rate m)
  && is_finite (Rev.ATC_Rate m) && is_finite (Rev.Checkout_Rate m)
  && is_finite (Rev.Purchase_Rate m) && is_finite (Rev.Overall_CVR m)
  && is_finite (Rev.CPC m) && is_finite (Rev.CPA m)
  && is_finite (Rev.ROAS m) && is_finite (Rev.ACoS m)
  && is_finite (Rev.Frequency m).

(** The guards of the ratios of [before_metrics_addition.py]. *)
Definition rev_zero_when_denominator_nonpositive
    (df : DataFrame) (m : Rev.Metrics) : Prop :=
  let t := rev_column_totals df in
  ((Rev.t_impressions t <=? n0)%num = true -> Rev.CTR m = n0) /\
  ((Rev.t_clicks t <=? n0)%num = true ->
   Rev.LP_View_Rate m = n0 /\ Rev.Overall_CVR m = n0 /\ Rev.CPC m = n0) /\
  ((Rev.t_lp_views t <=? n0)%num = true -> Rev.ATC_Rate m = n0) /\
  ((Rev.t_adds_to_cart t <=? n0)%num = true -> Rev.Checkout_Rate m = n0) /\
  ((Rev.t_checkouts t <=? n0)%num = true -> Rev.Purchase_Rate m = n0) /\
  ((Rev.t_purchases t <=? n0)%num = true -> Rev.CPA m = n0) /\
  ((Rev.t_spend t <=? n0)%num = true -> Rev.ROAS m = n0) /\
  ((Rev.t_revenue t <=? n0)%num = true -> Rev.ACoS m = n0) /\
  (nrows df = 0%nat -> Rev.Frequency m = n0).

(** A numeric column without a negative value. *)
Definition nonnegative_column (df : DataFrame) (name : string) : bool :=
  forallb (fun x => (n0 <=? x)%num) (values df name).

Definition metrics_nonnegative (m : Metrics) : bool :=
  (n0 <=? CTR m)%num && (n0 <=? LP_View_Rate m)%num
  && (n0 <=? ATC_Rate m)%num && (n0 <=? Checkout_Rate m)%num
  && (n0 <=? Purchase_Rate m)%num && (n0 <=? Overall_CVR m)%num
  && (n0 <=? CPC m)%num && (n0 <=? CPA m)%num && (n0 <=? ROAS m)%num
  && (n0 <=? Frequency m)%num.

(** ** The assignments of calculate_daily_metrics *)

(** The three shapes of right-hand side: [(a / b * 100).fillna(0)],
    [(a / b).fillna(0)] and [(a / b).fillna(0).replace([inf], 0)]. *)
Inductive shape : Type := Pct | Ratio | RatioNoInf.

Definition daily_series (sh : shape) (x y : list num) : list num :=
  match sh with
  | Pct => fillna n0 (smul_scalar (sdiv x y) n100)
  | Ratio => fillna n0 (sdiv x y)
  | RatioNoInf => replace_inf n0 (fillna n0 (sdiv x y))
  end.

(** The ratio that [calculate_metrics] computes for the same metric. *)
Definition guarded (sh : shape) (x y : num) : num :=
  match sh with
  | Pct => pct x y
  | Ratio | RatioNoInf => ratio x y
  end.

(** The columns that [calculate_daily_metrics] of [appmanual.py] assigns,
    in order: name, shape, numerator column, denominator column. *)
Definition manual_daily_table : list (string * shape * string * string) :=
  [ ("CTR", Pct, "clicks", "impressions");
    ("LP_View_Rate", Pct, "lp_views", "clicks");
    ("ATC_Rate", Pct, "adds_to_cart", "lp_views");
    ("Checkout_Rate", Pct, "checkouts", "adds_to_cart");
    ("Purchase_Rate", Pct, "purchases", "checkouts");
    ("Overall_CVR", Pct, "purchases", "clicks");
    ("CPC", Ratio, "spend", "clicks");
    ("CPA", RatioNoInf, "spend", "purchases");
    ("Frequency", Ratio, "impressions", "clicks") ].

Definition assign_entry (df : DataFrame) (daily : DataFrame)
    (e : string * shape * string * string) : DataFrame :=
  match e with
  | (name, sh, a, b) =>
      setcol daily name (NumCol (daily_series sh (values df a) (values df b)))
  end.

Definition not_nan (x : num) : bool := negb (isna x).

Definition not_pinf (x : num) : bool :=
  match x with PInf => false | _ => true end.

(** One element of [daily_series]. *)
Definition daily_cell (sh : shape) (x y : num) : num :=
  let fill := fun v => if isna v then n0 else v in
  match sh with
  | Pct => fill (x / y * n100)%num
  | Ratio => fill (x / y)%num
  | RatioNoInf => match fill (x / y)%num with PInf => n0 | v => v end
  end.

(** A frame whose clicks are given twice, the plain column first. *)
Definition frame_with_two_click_columns : Normalizer.Frame :=
  Normalizer.mkFrame
    [ Normalizer.LStr "Day"; Normalizer.LStr "Clicks";
      Normalizer.LStr "Link clicks" ]
    [].

(** ** The rows of a sheet *)

(** The date cell of the row converts: [pd.to_datetime] does not raise. *)
Definition converts (pd : Normalizer.Pandas) (df : Normalizer.Frame)
    (date_col : string) (row : list Normalizer.cell) : bool :=
  match Normalizer.to_datetime pd (Normalizer.cell_of df date_col row) with
  | Some _ => true
  | None => false
  end.

(** The date cell of the row converts to a timestamp, not to NaT. *)
Definition has_timestamp (pd : Normalizer.Pandas) (df : Normalizer.Frame)
    (date_col : string) (row : list Normalizer.cell) : bool :=
  match Normalizer.to_datetime pd (Normalizer.cell_of df date_col row) with
  | Some (Some _) => true
  | _ => false
  end.

(** The text of the date cell, stripped. *)
Definition note_of (pd : Normalizer.Pandas) (df : Normalizer.Frame)
    (date_col : string) (row : list Normalizer.cell) : string :=
  strip (Normalizer.str pd (Normalizer.cell_of df date_col row)).

(** A text that is kept as a note: not empty, not "nan", not "none". *)
Definition is_note (txt : string) : bool :=
  negb (String.eqb txt "")
  && negb (String.eqb (lower txt) "nan")
  && negb (String.eqb (lower txt) "none").

(** The export header and a row of free text under it. *)
Definition sheet_of_notes : list (list Normalizer.cell) :=
  [ export_header;
    [ Normalizer.CText "Note: paused campaign due to inventory" ] ].

(** What [pd.to_datetime(..., errors='coerce')] makes of the date cell of
    a row: [None] is NaT. *)
Definition timestamp_of (pd : Normalizer.Pandas) (df : Normalizer.Frame)
    (date_col : string) (row : list Normalizer.cell) : option Z :=
  match Normalizer.to_datetime pd (Normalizer.cell_of df date_col row) with
  | Some d => d
  | None => None
  end.

(** What [pd.to_numeric(..., errors="coerce").fillna(0)] makes of the cell
    of a row in column [col]. *)
Definition value_of (pd : Normalizer.Pandas) (df : Normalizer.Frame)
    (col : string) (row : list Normalizer.cell) : num :=
  let v := Normalizer.to_numeric pd (Normalizer.cell_of df col row) in
  if isna v then n0 else v.

(** A sheet with the export header, a dated row, a row whose day cell is
    empty and a row of free text. *)
Definition sheet_with_gap : list (list Normalizer.cell) :=
  [ export_header;
    Normalizer.CText "2024-01-01"
      :: map Normalizer.CNum [1000; 50; 45; 10; 7; 500; 4]%Q;
    Normalizer.CEmpty
      :: map Normalizer.CNum [900; 40; 30; 9; 6; 400; 3]%Q;
    [ Normalizer.CText "Total" ] ].

(** The test of [detect_header_row] on one row of the raw sheet. *)
Definition mentions (pd : Normalizer.Pandas) (row : list Normalizer.cell)
  : bool :=
  Normalizer.row_contains pd "impression" row
  || Normalizer.row_contains pd "day" row.

(** ** Gauges *)

(** [s.replace(a, b)] for one-character strings [a] and [b]. *)
Fixpoint replace_char (a b : ascii) (s : string) : string :=
  match s with
  | EmptyString => EmptyString
  | String c rest =>
      String (if Ascii.eqb c a then b else c) (replace_char a b rest)
  end.

(** The arguments of [go.Indicator] that depend on the metric and its
    value; the constant ones (mode, domain, threshold line, layout) are left
    out. *)
Record Gauge : Type := mkGauge {
  g_value : num;
  g_title : string;
  g_reference : num;
  g_increasing : string;
  g_axis_max : num;
  g_bar_color : string;
  g_steps : list (num * num * string);
  g_threshold : num
}.

(** The traces and titles of the figure of
    [create_actual_vs_ideal_chart]; colours, widths and the layout constants
    are left out. *)
Record Chart : Type := mkChart {
  c_x : Series;
  c_actual : Series;
  c_ideal : list num;
  c_minimum : list num;
  c_title : string;
  c_yaxis_title : string
}.

Module ManualCharts.

(** [create_actual_vs_ideal_chart] of [appmanual.py]: the daily table is
    computed before the benchmark is looked up. *)
Definition create_actual_vs_ideal_chart (df : DataFrame) (metric : string)
  : result (option Chart) :=
  (daily <- Manual.calculate_daily_metrics df;;
   match lookup metric Manual.BENCHMARKS with
   | None => Ok None
   | Some bench =>
       x <- getcol daily "date";;
       y <- getcol daily metric;;
       Ok (Some
             {| c_x := x;
                c_actual := y;
                c_ideal := repeat (ideal bench) (nrows daily);
                c_minimum := repeat (min_ bench) (nrows daily);
                c_title :=
                  (replace_char "_" " " metric
                   ++ " - Actual vs Benchmarks")%string;
                c_yaxis_title :=
                  ("Value (" ++ unit_ bench ++ ")")%string |})
   end)%py.

(** [create_performance_gauge] of [appmanual.py]; a benchmark entry is a
    non-empty dict, so [not bench] holds only for an absent metric. *)
Definition create_performance_gauge (actual : num) (metric : string)
  : option Gauge :=
  match lookup metric Manual.BENCHMARKS with
  | None => None
  | Some bench =>
      let color :=
        if (actual >=? ideal bench)%num then "#10b981"
        else if (actual >=? min_ bench)%num then "#f59e0b"
        else "#ef4444" in
      Some {| g_value := actual;
              g_title := replace_char "_" " " metric;
              g_reference := ideal bench;
              g_increasing := "green";
              g_axis_max := max_ bench;
              g_bar_color := color;
              g_steps :=
                [ (n0, min_ bench, "#fee2e2");
                  (min_ bench, ideal bench, "#fef3c7");
                  (ideal bench, max_ bench, "#dcfce7") ];
              g_threshold := ideal bench |}
  end.

End ManualCharts.

Module RevCharts.

(** [create_performance_gauge] of [before_metrics_addition.py]. *)
Definition create_performance_gauge (actual : num) (metric : string)
  : option Gauge :=
  match lookup metric Rev.BENCHMARKS with
  | None => None
  | Some bench =>
      let acos := String.eqb metric "ACoS" in
      let color :=
        if acos then
          if (actual <=? max_ bench)%num then "#10b981"
          else if (actual <=? ideal bench)%num then "#f59e0b"
          else "#ef4444"
        else
          if (actual >=? ideal bench)%num then "#10b981"
          else if (actual >=? min_ bench)%num then "#f59e0b"
          else "#ef4444" in
      Some {| g_value := actual;
              g_title := replace_char "_" " " metric;
              g_reference := ideal bench;
              g_increasing := if negb acos then "green" else "red";
              g_axis_max := if negb acos then max_ bench else min_ bench;
              g_bar_color := color;
              g_steps :=
                [ (n0, if negb acos then min_ bench else max_ bench,
                   "#fee2e2");
                  (if negb acos then min_ bench else ideal bench,
                   if negb acos then ideal bench else min_ bench,
                   "#fef3c7");
                  (if negb acos then ideal bench else n0,
                   if negb acos then max_ bench else ideal bench,
                   "#dcfce7") ];
              g_threshold := ideal bench |}
  end.

End RevCharts.

(** The colour of the bar of a gauge, as a status. *)
Definition status_of_color (color : string) : string :=
  if String.eqb color "#10b981" then "excellent"
  else if String.eqb color "#f59e0b" then "good"
  else "critical".

(** The emoji of a status, as [get_status_emoji] of [appmanual.py] maps
    it. *)
Definition emoji_of (status : string) : string :=
  if String.eqb status "excellent" then "✅"
  else if String.eqb status "good" then "⚠️"
  else "🚨".

(** ** The sheets of a workbook *)

(** The loop over [excel_file.sheet_names] in [main] of [appmanual.py]:
    [sheets] pairs each sheet name with the sheet read without a header.
    An exception of [clean_sheet] leaves the loop. *)
Fixpoint collect_sheets (pd : Normalizer.Pandas)
    (sheets : list (string * list (list Normalizer.cell)))
    (all_data : list DataFrame)
    (product_notes : list (string * list string))
  : result (list DataFrame * list (string * list string)) :=
  match sheets with
  | [] => Ok (all_data, product_notes)
  | (sheet_name, raw_df) :: rest =>
      (r <- Normalizer.clean_sheet pd raw_df sheet_name;;
       let (cleaned_df, notes) := r in
       match cleaned_df with
       | Some table =>
           if (0 <? nrows table)%nat
           then collect_sheets pd rest (all_data ++ [table])
                  (setitem sheet_name notes product_notes)
           else collect_sheets pd rest all_data product_notes
       | None => collect_sheets pd rest all_data product_notes
       end)%py
  end.

(** What the loop keeps of one sheet: its table and notes, when
    [clean_sheet] returns a table with at least one row. *)
Definition kept (pd : Normalizer.Pandas)
    (sheet : string * list (list Normalizer.cell))
  : option (DataFrame * list string) :=
  match Normalizer.clean_sheet pd (snd sheet) (fst sheet) with
  | Ok (Some table, notes) =>
      if (0 <? nrows table)%nat then Some (table, notes) else None
  | _ => None
  end.

Definition kept_tables (pd : Normalizer.Pandas)
    (sheets : list (string * list (list Normalizer.cell)))
  : list DataFrame :=
  flat_map
    (fun sheet =>
       match kept pd sheet with Some (table, _) => [table] | None => [] end)
    sheets.

Definition kept_notes (pd : Normalizer.Pandas)
    (sheets : list (string * list (list Normalizer.cell)))
  : list (string * list string) :=
  flat_map
    (fun sheet =>
       match kept pd sheet with
       | Some (_, notes) => [(fst sheet, notes)]
       | None => []
       end)
    sheets.

Definition returns (pd : Normalizer.Pandas)
    (sheet : string * list (list Normalizer.cell)) : Prop :=
  exists r, Normalizer.clean_sheet pd (snd sheet) (fst sheet) = Ok r.

(** A workbook of three sheets: one with a dated row, one of free text
    under a header without the required columns, and one whose day cells
    are all empty. *)
Definition workbook : list (string * list (list Normalizer.cell)) :=
  [ ("Product A", sheet_with_gap);
    ("Readme",
      [ [ Normalizer.CText "Day"; Normalizer.CText "Remark" ];
        [ Normalizer.CText "see the other sheets"; Normalizer.CEmpty ] ]);
    ("Product B",
      [ export_header;
        Normalizer.CEmpty
          :: map Normalizer.CNum [900; 40; 30; 9; 6; 400; 3]%Q ]) ].

(** The same workbook with a sheet whose header holds a number put
    first. *)
Definition workbook_with_number_header
  : list (string * list (list Normalizer.cell)) :=
  ("Summary", sheet_without_day) :: workbook.

(** * Machine arithmetic *)

(** The numbers above are exact.  This part follows [calculate_metrics]
    once more with the two effects of machine arithmetic that change what
    it answers: an int64 (or uint64) sum or product wraps around modulo
    2^64, and a float64 result beyond the largest double is an infinity.
    The rounding of a float64 result to 53 bits is not modelled, and the
    additions of a float64 sum are taken in row order. *)

Definition wrap_int64 (z : Z) : Z := ((z + 2 ^ 63) mod 2 ^ 64 - 2 ^ 63)%Z.

Definition wrap_uint64 (z : Z) : Z := (z mod 2 ^ 64)%Z.

(** The largest double, [(2 - 2^-52) * 2^1023]. *)
Definition max_float : Q := inject_Z (2 ^ 1024 - 2 ^ 971).

(** The result of a float64 operation whose exact value is [x]. *)
Definition overflow (x : num) : num :=
  match x with
  | Fin q =>
      if Qltb max_float q then PInf
      else if Qltb q (- max_float) then NInf
      else Fin q
  | _ => x
  end.

Module Machine.

(** A column with its dtype: int64 (values from -2^63 to 2^63 - 1), uint64
    (values from 0 to 2^64 - 1), or one of the series above, where a numeric
    series is float64. *)
Inductive Column : Type :=
| Int64Col (l : list Z)
| UInt64Col (l : list Z)
| Col (s : Series).

Record Frame : Type := mkFrame {
  nrows : nat;
  columns : list (string * Column)
}.

(** The frame without the dtypes. *)
Definition untyped_column (c : Column) : Series :=
  match c with
  | Int64Col l | UInt64Col l => NumCol (map of_Z l)
  | Col s => s
  end.

Definition untyped (df : Frame) : DataFrame :=
  mkDF (nrows df)
    (map (fun kc => (fst kc, untyped_column (snd kc))) (columns df)).

(** A numpy scalar: [np.int64], [np.uint64] or [np.float64]. *)
Inductive scalar : Type :=
| SInt (z : Z)
| SUInt (z : Z)
| SFloat (x : num).

Definition to_num (s : scalar) : num :=
  match s with
  | SInt z | SUInt z => of_Z z
  | SFloat x => x
  end.

Definition Zsum (l : list Z) : Z := fold_right Z.add 0%Z l.

(** The sum of a float64 column, NaN skipped. *)
Definition float_sum (l : list num) : num :=
  fold_left (fun acc x => if isna x then acc else overflow (acc + x)%num)
    l n0.

(** The sum of one column, [None] for a column that is not numeric. *)
Definition column_sum (c : Column) : option scalar :=
  match c with
  | Int64Col l => Some (SInt (wrap_int64 (Zsum l)))
  | UInt64Col l => Some (SUInt (wrap_uint64 (Zsum l)))
  | Col (NumCol l) => Some (SFloat (float_sum l))
  | Col _ => None
  end.

Fixpoint numeric_only (cols : list (string * Column))
  : list (string * scalar) :=
  match cols with
  | [] => []
  | (k, c) :: cols' =>
      match column_sum c with
      | Some s => (k, s) :: numeric_only cols'
      | None => numeric_only cols'
      end
  end.

Definition same_dtype (a b : scalar) : bool :=
  match a, b with
  | SInt _, SInt _ | SUInt _, SUInt _ | SFloat _, SFloat _ => true
  | _, _ => false
  end.

(** The sums are returned as one Series: when the columns do not all have
    the same dtype, every sum is converted to float64. *)
Definition upcast (sums : list (string * scalar))
  : list (string * scalar) :=
  match sums with
  | [] => []
  | (_, s) :: rest =>
      if forallb (fun e => same_dtype s (snd e)) rest then sums
      else map (fun e => (fst e, SFloat (to_num (snd e)))) sums
  end.

(** [df.sum(numeric_only=True)] *)
Definition df_sum (df : Frame) : list (string * scalar) :=
  upcast (numeric_only (columns df)).

(** [totals.name] *)
Definition attr (totals : list (string * scalar)) (name : string)
  : result scalar :=
  match lookup name totals with
  | Some v => Ok v
  | None => Raise (AttributeError name)
  end.

(** [x * k] for a Python integer [k]. *)
Definition times (x : scalar) (k : Z) : scalar :=
  match x with
  | SInt z => SInt (wrap_int64 (z * k))
  | SUInt z => SUInt (wrap_uint64 (z * k))
  | SFloat v => SFloat (overflow (v * of_Z k)%num)
  end.

(** [a / b]: true division, float64 whatever the operands are. *)
Definition fdiv (a b : num) : num := overflow (a / b)%num.

(** [pct] of [calculate_metrics] *)
Definition pct (a b : scalar) : num :=
  if (to_num b >? n0)%num
  then overflow (fdiv (to_num a) (to_num b) * n100)%num
  else n0.

(** [a / b if b > 0 else 0] *)
Definition ratio (a b : scalar) : num :=
  if (to_num b >? n0)%num then fdiv (to_num a) (to_num b) else n0.

End Machine.

Module MachineManual.

(** [calculate_metrics] of [appmanual.py] *)
Definition calculate_metrics (df : Machine.Frame) : result Metrics :=
  (let totals := Machine.df_sum df in
   clicks <- Machine.attr totals "clicks";;
   impressions <- Machine.attr totals "impressions";;
   lp_views <- Machine.attr totals "lp_views";;
   adds_to_cart <- Machine.attr totals "adds_to_cart";;
   checkouts <- Machine.attr totals "checkouts";;
   purchases <- Machine.attr totals "purchases";;
   spend <- Machine.attr totals "spend";;
   Ok {| CTR := Machine.pct clicks impressions;
         LP_View_Rate := Machine.pct lp_views clicks;
         ATC_Rate := Machine.pct adds_to_cart lp_views;
         Checkout_Rate := Machine.pct checkouts adds_to_cart;
         Purchase_Rate := Machine.pct purchases checkouts;
         Overall_CVR := Machine.pct purchases clicks;
         CPC := Machine.ratio spend clicks;
         CPA := Machine.ratio spend purchases;
         ROAS := Machine.ratio (Machine.times purchases 500) spend;
         Frequency := Machine.ratio impressions clicks;
         totals := {| t_impressions := Machine.to_num impressions;
                      t_clicks := Machine.to_num clicks;
                      t_lp_views := Machine.to_num lp_views;
                      t_adds_to_cart := Machine.to_num adds_to_cart;
                      t_checkouts := Machine.to_num checkouts;
                      t_purchases := Machine.to_num purchases;
                      t_spend := Machine.to_num spend |} |})%py.

End MachineManual.

Module MachineApi.

(** [calculate_metrics] of [app.py] *)
Definition calculate_metrics (df : Machine.Frame) : result Metrics :=
  (let totals := Machine.df_sum df in
   clicks <- Machine.attr totals "clicks";;
   impressions <- Machine.attr totals "impressions";;
   lp_views <- Machine.attr totals "lp_views";;
   adds_to_cart <- Machine.attr totals "adds_to_cart";;
   checkouts <- Machine.attr totals "checkouts";;
   purchases <- Machine.attr totals "purchases";;
   spend <- Machine.attr totals "spend";;
   freq <- (if (0 <? Machine.nrows df)%nat
            then (f <- Machine.attr totals "frequency";;
                  Ok (Machine.fdiv (Machine.to_num f)
                        (of_nat (Machine.nrows df))))
            else Ok n0);;
   Ok {| CTR := Machine.pct clicks impressions;
         LP_View_Rate := Machine.pct lp_views clicks;
         ATC_Rate := Machine.pct adds_to_cart lp_views;
         Checkout_Rate := Machine.pct checkouts adds_to_cart;
         Purchase_Rate := Machine.pct purchases checkouts;
         Overall_CVR := Machine.pct purchases clicks;
         CPC := Machine.ratio spend clicks;
         CPA := Machine.ratio spend purchases;
         ROAS := Machine.ratio (Machine.times purchases 500) spend;
         Frequency := freq;
         totals := {| t_impressions := Machine.to_num impressions;
                      t_clicks := Machine.to_num clicks;
                      t_lp_views := Machine.to_num lp_views;
                      t_adds_to_cart := Machine.to_num adds_to_cart;
                      t_checkouts := Machine.to_num checkouts;
                      t_purchases := Machine.to_num purchases;
                      t_spend := Machine.to_num spend |} |})%py.

End MachineApi.

Module MachineRev.

(** [calculate_metrics] of [before_metrics_addition.py] *)
Definition calculate_metrics (df : Machine.Frame) : result Rev.Metrics :=
  (let totals := Machine.df_sum df in
   spend <- Machine.attr totals "spend";;
   revenue <- Machine.attr totals "revenue";;
   let roas := Machine.ratio revenue spend in
   let acos := Machine.pct spend revenue in
   clicks <- Machine.attr totals "clicks";;
   impressions <- Machine.attr totals "impressions";;
   lp_views <- Machine.attr totals "lp_views";;
   adds_to_cart <- Machine.attr totals "adds_to_cart";;
   checkouts <- Machine.attr totals "checkouts";;
   purchases <- Machine.attr totals "purchases";;
   freq <- (if (0 <? Machine.nrows df)%nat
            then (f <- Machine.attr totals "frequency";;
                  Ok (Machine.fdiv (Machine.to_num f)
                        (of_nat (Machine.nrows df))))
            else Ok n0);;
   Ok {| Rev.CTR := Machine.pct clicks impressions;
         Rev.LP_View_Rate := Machine.pct lp_views clicks;
         Rev.ATC_Rate := Machine.pct adds_to_cart lp_views;
         Rev.Checkout_Rate := Machine.pct checkouts adds_to_cart;
         Rev.Purchase_Rate := Machine.pct purchases checkouts;
         Rev.Overall_CVR := Machine.pct purchases clicks;
         Rev.CPC := Machine.ratio spend clicks;
         Rev.CPA := Machine.ratio spend purchases;
         Rev.ROAS := roas;
         Rev.ACoS := acos;
         Rev.Frequency := freq;
         Rev.totals :=
           {| Rev.t_impressions := Machine.to_num impressions;
              Rev.t_clicks := Machine.to_num clicks;
              Rev.t_lp_views := Machine.to_num lp_views;
              Rev.t_adds_to_cart := Machine.to_num adds_to_cart;
              Rev.t_checkouts := Machine.to_num checkouts;
              Rev.t_purchases := Machine.to_num purchases;
              Rev.t_spend := Machine.to_num spend;
              Rev.t_revenue := Machine.to_num revenue |} |})%py.

End MachineRev.

Definition machine_calculate_metrics_of (f : file)
  : Machine.Frame -> result Metrics :=
  match f with
  | appmanual_py => MachineManual.calculate_metrics
  | app_py => MachineApi.calculate_metrics
  end.

(** ** The range of the values *)

(** The least non-zero value and the largest column total for which
    nothing wraps around or overflows. *)
Definition tiny : Q := 1 # (2 ^ 53).

Definition huge : Q := inject_Z (2 ^ 53).

(** A value that is 0 or at least [tiny]. *)
Definition in_range_value (x : num) : bool :=
  match x with
  | Fin q => Qeq_bool q 0 || Qle_bool tiny q
  | _ => false
  end.

(** A numeric column of such values whose sum is at most [huge]. *)
Definition in_range_column (df : DataFrame) (name : string) : bool :=
  match lookup name (columns df) with
  | Some (NumCol l) =>
      forallb in_range_value l && (series_sum l <=? Fin huge)%num
  | _ => false
  end.

(** The largest numerator of a ratio: a total, or a total times 500. *)
Definition numerator_bound : Q := huge * 500.

(** The columns that [calculate_metrics] reads are in range. *)
Definition in_range (f : file) (df : DataFrame) : bool :=
  forallb (in_range_column df)
    (funnel_columns
     ++ match f with appmanual_py => [] | app_py => ["frequency"] end).

Definition in_range_rev (df : DataFrame) : bool :=
  forallb (in_range_column df) (funnel_columns ++ ["frequency"; "revenue"]).

(** ** Sample frames with their dtypes *)

(** [two_days] as [pd.DataFrame] types its columns. *)
Definition two_days_typed : Machine.Frame :=
  Machine.mkFrame 2
    [ ("date", Machine.Col (DateCol [Some 20240101%Z; Some 20240102%Z]));
      ("product", Machine.Col (ObjCol ["Campaign A"; "Campaign A"]));
      ("impressions", Machine.Int64Col [6000; 4000]%Z);
      ("clicks", Machine.Int64Col [90; 60]%Z);
      ("spend", Machine.Col (NumCol [Fin 900; Fin 600]));
      ("reach", Machine.Int64Col [5000; 3000]%Z);
      ("frequency", Machine.Col (NumCol [Fin (12 # 10); Fin (14 # 10)]));
      ("lp_views", Machine.Int64Col [80; 55]%Z);
      ("adds_to_cart", Machine.Int64Col [12; 8]%Z);
      ("checkouts", Machine.Int64Col [8; 6]%Z);
      ("purchases", Machine.Int64Col [5; 3]%Z) ].

(** Two days whose amounts spent are 2^1023 each: their sum is beyond the
    largest double. *)
Definition two_large_amounts : Machine.Frame :=
  Machine.mkFrame 2
    [ ("date", Machine.Col (DateCol [Some 20240101%Z; Some 20240102%Z]));
      ("impressions", Machine.Int64Col [6000; 4000]%Z);
      ("clicks", Machine.Int64Col [90; 60]%Z);
      ("lp_views", Machine.Int64Col [80; 55]%Z);
      ("adds_to_cart", Machine.Int64Col [12; 8]%Z);
      ("checkouts", Machine.Int64Col [8; 6]%Z);
      ("purchases", Machine.Int64Col [5; 3]%Z);
      ("spend",
        Machine.Col
          (NumCol [Fin (inject_Z (2 ^ 1023)); Fin (inject_Z (2 ^ 1023))]));
      ("product", Machine.Col (ObjCol ["Sheet1"; "Sheet1"])) ].

(** A day whose amount spent is the least positive double, 2^-1074. *)
Definition day_of_tiny_amount : Machine.Frame :=
  Machine.mkFrame 1
    [ ("date", Machine.Col (DateCol [Some 20240101%Z]));
      ("impressions", Machine.Int64Col [1000]%Z);
      ("clicks", Machine.Int64Col [50]%Z);
      ("lp_views", Machine.Int64Col [45]%Z);
      ("adds_to_cart", Machine.Int64Col [10]%Z);
      ("checkouts", Machine.Int64Col [7]%Z);
      ("purchases", Machine.Int64Col [4]%Z);
      ("spend", Machine.Col (NumCol [Fin (1 # (2 ^ 1074))]));
      ("product", Machine.Col (ObjCol ["Sheet1"])) ].

(** [revenue_scenario] with its dtypes. *)
Definition revenue_scenario_typed : Machine.Frame :=
  Machine.mkFrame 1
    [ ("date", Machine.Col (DateCol [Some 20240101%Z]));
      ("impressions", Machine.Int64Col [10000]%Z);
      ("clicks", Machine.Int64Col [150]%Z);
      ("spend", Machine.Col (NumCol [Fin 1500]));
      ("frequency", Machine.Col (NumCol [Fin (12 # 10)]));
      ("lp_views", Machine.Int64Col [135]%Z);
      ("adds_to_cart", Machine.Int64Col [20]%Z);
      ("checkouts", Machine.Int64Col [14]%Z);
      ("purchases", Machine.Int64Col [8]%Z);
      ("revenue", Machine.Col (NumCol [Fin 6000])) ].

(** ** The frame of app.py's fetch *)

Definition in_int64 (z : Z) : bool :=
  ((- 2 ^ 63 <=? z) && (z <? 2 ^ 63))%Z.

Definition in_uint64 (z : Z) : bool := ((0 <=? z) && (z <? 2 ^ 64))%Z.

(** The column that [pd.DataFrame] makes of Python integers: int64 when
    every value fits, uint64 when every value is non-negative and below
    2^64, and a column of objects otherwise. *)
Definition int_column (l : list Z) : Machine.Column :=
  if forallb in_int64 l then Machine.Int64Col l
  else if forallb in_uint64 l then Machine.UInt64Col l
  else Machine.Col (ObjCol (map decimal_Z l)).

(** The column of the results of [float(...)]. *)
Definition float_column (l : list Q) : Machine.Column :=
  Machine.Col (NumCol (map (fun q => overflow (Fin q)) l)).

(** [pd.DataFrame(data_list)] for the row dicts of [fetch_campaign_data]:
    one column per key, in the order of the keys of the dict. *)
Definition frame_of_rows (data_list : list Api.Row) : Machine.Frame :=
  let ints := fun f => int_column (map f data_list) in
  let floats := fun f => float_column (map f data_list) in
  Machine.mkFrame (length data_list)
    [ ("date",
        Machine.Col (DateCol (map (fun r => Some (Api.date r)) data_list)));
      ("product", Machine.Col (ObjCol (map Api.product data_list)));
      ("impressions", ints Api.impressions);
      ("clicks", ints Api.clicks);
      ("spend", floats Api.spend);
      ("reach", ints Api.reach);
      ("frequency", floats Api.frequency);
      ("cpc", floats Api.cpc);
      ("ctr", floats Api.ctr);
      ("lp_views", ints (fun r => lp_views (Api.funnel r)));
      ("adds_to_cart", ints (fun r => adds_to_cart (Api.funnel r)));
      ("checkouts", ints (fun r => checkouts (Api.funnel r)));
      ("purchases", ints (fun r => purchases (Api.funnel r))) ].

(** [fetch_campaign_data] of [app.py] from the answer of
    [ad_account.get_insights] on: the loop over the insights and the
    returned pair [(df, error)].  The request itself and the [except]
    branch, which turns any exception into [(None, str(e))], are not part
    of the model. *)
Definition fetch_campaign_data (insights : list Insight)
  : option Machine.Frame * option string :=
  let data_list := map Api.row_of_insight insights in
  match data_list with
  | [] => (None, Some "No data found for selected campaigns and date range")
  | _ :: _ => (Some (frame_of_rows data_list), None)
  end.

(** Two days of insights; the second day reports no action. *)
Definition two_insights : list Insight :=
  [ mkInsight 20240101 "Campaign A" 6000 90 900 5000 (12 # 10) 10 (15 # 10)
      [ mkAction "landing_page_view" 80; mkAction "add_to_cart" 20;
        mkAction "initiate_checkout" 12; mkAction "purchase" 6 ]
      [];
    mkInsight 20240102 "Campaign A" 4000 60 600 3000 (11 # 10) 10 (15 # 10)
      [] [] ].

(** One day whose impressions are 2^64. *)
Definition day_of_many_impressions : list Insight :=
  [ mkInsight 20240101 "Campaign A" (2 ^ 64) 90 900 5000 (12 # 10) 10
      (15 # 10) [] [] ].

(** ** Date cells *)

(** The date cell of the row is a date or empty, or it does not convert:
    no text and no number is read as a date. *)
Definition plain_date_cell (pd : Normalizer.Pandas) (df : Normalizer.Frame)
    (date_col : string) (row : list Normalizer.cell) : bool :=
  match Normalizer.cell_of df date_col row with
  | Normalizer.CDate _ | Normalizer.CEmpty => true
  | _ => negb (converts pd df date_col row)
  end.

(** [sheet_with_gap] with a date cell in place of the text of the day. *)
Definition sheet_with_date_cells : list (list Normalizer.cell) :=
  [ export_header;
    Normalizer.CDate 20240101
      :: map Normalizer.CNum [1000; 50; 45; 10; 7; 500; 4]%Q;
    Normalizer.CEmpty
      :: map Normalizer.CNum [900; 40; 30; 9; 6; 400; 3]%Q;
    [ Normalizer.CText "Total" ] ].

(** * Properties *)

(** ** Numbers *)

Lemma Qltb_lt (a b : Q) : Qltb a b = true <-> (a < b)%Q.
Proof.
  unfold Qltb. rewrite negb_true_iff.
  split; intro H.
  - apply Qnot_le_lt. intro Hle. apply Qle_bool_iff in Hle. congruence.
  - destruct (Qle_bool b a) eqn:E; [| reflexivity].
    apply Qle_bool_iff in E. exfalso. exact (Qlt_not_le _ _ H E).
Qed.

Lemma nle_not_gt (x y : num) : (x <=? y)%num = true -> (x >? y)%num = false.
Proof.
  unfold ngt.
  destruct x as [a | | |], y as [b | | |]; simpl; try congruence.
  unfold Qltb. intros ->. reflexivity.
Qed.

Lemma pos_not_zero (b : Q) : (Fin b >? n0)%num = true -> Qeq_bool b 0 = false.
Proof.
  unfold ngt, n0. simpl. rewrite Qltb_lt. intro H.
  destruct (Qeq_bool b 0) eqn:E; [| reflexivity].
  apply Qeq_bool_iff in E. rewrite E in H. exfalso. exact (Qlt_irrefl _ H).
Qed.

Lemma ratio_finite (a b : Q) : exists q, ratio (Fin a) (Fin b) = Fin q.
Proof.
  unfold ratio. destruct (Fin b >? n0)%num eqn:E.
  - simpl. rewrite (pos_not_zero _ E). eauto.
  - unfold n0. eauto.
Qed.

Lemma pct_finite (a b : Q) : exists q, pct (Fin a) (Fin b) = Fin q.
Proof.
  unfold pct. destruct (Fin b >? n0)%num eqn:E.
  - simpl. rewrite (pos_not_zero _ E). simpl. eauto.
  - unfold n0. eauto.
Qed.

Lemma pct_zero (a b : num) : (b <=? n0)%num = true -> pct a b = n0.
Proof. intro H. unfold pct. rewrite (nle_not_gt _ _ H). reflexivity. Qed.

Lemma ratio_zero (a b : num) : (b <=? n0)%num = true -> ratio a b = n0.
Proof. intro H. unfold ratio. rewrite (nle_not_gt _ _ H). reflexivity. Qed.

Lemma of_nat_pos (n : nat) :
  (0 < n)%nat -> Qeq_bool (inject_Z (Z.of_nat n)) 0 = false.
Proof.
  intro H. destruct (Qeq_bool _ 0) eqn:E; [| reflexivity].
  apply Qeq_bool_iff in E. unfold Qeq in E. simpl in E. lia.
Qed.

(** ** Column sums *)

Lemma series_sum_finite (l : list num) :
  forallb is_finite l = true -> series_sum l = Fin (Qsum (rationals l)).
Proof.
  induction l as [| x l IH]; simpl; [reflexivity |].
  destruct x; simpl; try discriminate.
  intro H. rewrite (IH H). reflexivity.
Qed.

Lemma lookup_numeric_only (name : string) (cols : list (string * Series))
    (l : list num) :
  lookup name cols = Some (NumCol l) ->
  lookup name (numeric_only cols) = Some (series_sum l).
Proof.
  induction cols as [| [k s] cols IH]; simpl; [discriminate |].
  destruct (String.eqb name k) eqn:E.
  - intros [= ->]. simpl. rewrite E. reflexivity.
  - intro H. destruct s; simpl; rewrite ?E; auto.
Qed.

Lemma numeric_column_total (df : DataFrame) (name : string) :
  numeric_column df name = true ->
  exists l,
    lookup name (columns df) = Some (NumCol l) /\
    length l = nrows df /\
    forallb is_finite l = true /\
    attr (df_sum df) name = Ok (Fin (Qsum (rationals l))).
Proof.
  unfold numeric_column, attr, df_sum.
  destruct (lookup name (columns df)) as [[l | |] |] eqn:E; try discriminate.
  rewrite andb_true_iff, Nat.eqb_eq. intros [Hlen Hfin].
  exists l. repeat split; try assumption.
  rewrite (lookup_numeric_only _ _ E), (series_sum_finite _ Hfin).
  reflexivity.
Qed.

Lemma values_total (df : DataFrame) (name : string) (l : list num) :
  lookup name (columns df) = Some (NumCol l) ->
  forallb is_finite l = true ->
  series_sum (values df name) = Fin (Qsum (rationals l)).
Proof.
  intros E Hfin. unfold values. rewrite E. now apply series_sum_finite.
Qed.

(** ** calculate_metrics *)

Ltac take_columns H :=
  repeat match type of H with
    | (_ && _ = true) =>
        let H1 := fresh "Hcol" in
        apply andb_true_iff in H; destruct H as [H1 H];
        apply numeric_column_total in H1;
        destruct H1 as (? & ? & ? & ? & ?)
    end.

Ltac finite_value :=
  match goal with
  | |- is_finite (pct (Fin ?a) (Fin ?b)) = true =>
      destruct (pct_finite a b) as [? ->]; reflexivity
  | |- is_finite (ratio (Fin ?a) (Fin ?b)) = true =>
      destruct (ratio_finite a b) as [? ->]; reflexivity
  | |- is_finite _ = true => reflexivity
  end.

Lemma empty_column (l : list num) (n : nat) :
  length l = n -> n = 0%nat -> l = [].
Proof. intros H ->. now destruct l. Qed.

Lemma manual_metrics_safe (df : DataFrame) :
  canonical_manual df = true ->
  exists m,
    Manual.calculate_metrics df = Ok m /\
    totals m = column_totals df /\
    metrics_finite m = true /\
    zero_when_denominator_nonpositive appmanual_py df m /\
    (nrows df = 0%nat -> metrics_zero m = true).
Proof.
  unfold canonical_manual, funnel_columns. intro H. simpl in H.
  take_columns H. clear H.
  unfold Manual.calculate_metrics.
  repeat match goal with
    | E : attr (df_sum df) _ = Ok _ |- _ => rewrite E; clear E
    end.
  cbn [bind].
  eexists. split; [reflexivity |].
  assert (Ht : forall name l,
             lookup name (columns df) = Some (NumCol l) ->
             forallb is_finite l = true ->
             series_sum (values df name) = Fin (Qsum (rationals l)))
    by (intros; now apply values_total).
  unfold zero_when_denominator_nonpositive, column_totals,
    frequency_denominator, metrics_finite, totals_finite.
  cbn [CTR LP_View_Rate ATC_Rate Checkout_Rate Purchase_Rate Overall_CVR
       CPC CPA ROAS Frequency totals t_impressions t_clicks t_lp_views
       t_adds_to_cart t_checkouts t_purchases t_spend].
  repeat match goal with
    | E : lookup ?name (columns df) = Some (NumCol ?l),
      F : forallb is_finite ?l = true |- _ =>
        rewrite (Ht name l E F); revert E
    end.
  intros.
  split; [reflexivity |].
  split.
  { cbn [nmul]. repeat (apply andb_true_iff; split); finite_value. }
  split.
  { repeat split; intro Hle;
      first [ now apply pct_zero | now apply ratio_zero ]. }
  intro Hn.
  repeat match goal with
    | E : length ?l = nrows df |- _ =>
        pose proof (empty_column l E Hn); clear E; subst l
    end.
  reflexivity.
Qed.

Lemma of_nat_nonpositive (n : nat) :
  (of_nat n <=? n0)%num = true -> n = 0%nat.
Proof.
  unfold of_nat, of_Z, n0. simpl. intro H.
  apply Qle_bool_iff in H. unfold Qle in H. simpl in H. lia.
Qed.

Lemma mean_finite (q : Q) (n : nat) :
  (0 <? n)%nat = true ->
  (Fin q / of_nat n)%num = Fin (q / inject_Z (Z.of_nat n)).
Proof.
  intro H. apply Nat.ltb_lt in H.
  unfold of_nat, of_Z. simpl. now rewrite (of_nat_pos H).
Qed.

Lemma api_metrics_safe (df : DataFrame) :
  canonical_api df = true ->
  exists m,
    Api.calculate_metrics df = Ok m /\
    totals m = column_totals df /\
    metrics_finite m = true /\
    zero_when_denominator_nonpositive app_py df m /\
    (nrows df = 0%nat -> metrics_zero m = true).
Proof.
  unfold canonical_api, funnel_columns. intro H. simpl in H.
  take_columns H. clear H.
  unfold Api.calculate_metrics.
  repeat match goal with
    | E : attr (df_sum df) _ = Ok _ |- _ => rewrite E; clear E
    end.
  assert (Ht : forall name l,
             lookup name (columns df) = Some (NumCol l) ->
             forallb is_finite l = true ->
             series_sum (values df name) = Fin (Qsum (rationals l)))
    by (intros; now apply values_total).
  destruct (0 <? nrows df)%nat eqn:En; cbn [bind];
    rewrite ?(mean_finite _ _ En);
    (eexists; split; [reflexivity |]);
    unfold zero_when_denominator_nonpositive, column_totals,
      frequency_denominator, metrics_finite, totals_finite;
    cbn [CTR LP_View_Rate ATC_Rate Checkout_Rate Purchase_Rate Overall_CVR
         CPC CPA ROAS Frequency totals t_impressions t_clicks t_lp_views
         t_adds_to_cart t_checkouts t_purchases t_spend];
    repeat match goal with
      | E : lookup ?name (columns df) = Some (NumCol ?l),
        F : forallb is_finite ?l = true |- _ =>
          rewrite ?(Ht name l E F); revert E
      end;
    intros;
    (split; [reflexivity |]);
    (split;
     [ cbn [nmul]; repeat (apply andb_true_iff; split); finite_value |]);
    (split;
     [ repeat split; intro Hle;
       first [ now apply pct_zero | now apply ratio_zero
             | reflexivity
             | apply of_nat_nonpositive in Hle; rewrite Hle in En;
               discriminate ] |]).
  - intro Hn. rewrite Hn in En. discriminate.
  - intro Hn.
    repeat match goal with
      | E : length ?l = nrows df |- _ =>
          pose proof (empty_column l E Hn); clear E; subst l
      end.
    reflexivity.
Qed.

(** ** Machine arithmetic within the range *)

Lemma wrap_int64_small (z : Z) :
  (- 2 ^ 63 <= z < 2 ^ 63)%Z -> wrap_int64 z = z.
Proof.
  intro H. unfold wrap_int64. rewrite Z.mod_small; lia.
Qed.

Lemma wrap_uint64_small (z : Z) :
  (0 <= z < 2 ^ 64)%Z -> wrap_uint64 z = z.
Proof. intro H. unfold wrap_uint64. now apply Z.mod_small. Qed.

Lemma overflow_small (q : Q) :
  (0 <= q)%Q -> (q <= max_float)%Q -> overflow (Fin q) = Fin q.
Proof.
  intros H0 H1. unfold overflow.
  destruct (Qltb max_float q) eqn:E1.
  - apply Qltb_lt in E1. exfalso. exact (Qlt_not_le _ _ E1 H1).
  - destruct (Qltb q (- max_float)) eqn:E2; [| reflexivity].
    apply Qltb_lt in E2. exfalso.
    apply (Qlt_not_le _ _ E2). eapply Qle_trans; [| exact H0].
    discriminate.
Qed.

Lemma Qplus_assoc_eq (a b c : Q) : (a + b + c = a + (b + c))%Q.
Proof.
  destruct a as [an ad], b as [bn bd], c as [cn cd].
  unfold Qplus. cbn [Qnum Qden]. f_equal.
  - rewrite !Pos2Z.inj_mul. ring.
  - symmetry. apply Pos.mul_assoc.
Qed.

Lemma Qplus_0_l_eq (a : Q) : (0 + a = a)%Q.
Proof.
  destruct a as [an ad]. unfold Qplus. cbn [Qnum Qden].
  f_equal. lia.
Qed.

Lemma Qplus_0_r_eq (a : Q) : (a + 0 = a)%Q.
Proof.
  destruct a as [an ad]. unfold Qplus. cbn [Qnum Qden].
  f_equal; [lia | apply Pos.mul_1_r].
Qed.

Lemma int_sum_exact (l : list Z) :
  series_sum (map of_Z l) = of_Z (Machine.Zsum l).
Proof.
  induction l as [| z l IH]; [reflexivity |].
  cbn [map series_sum Machine.Zsum fold_right]. cbn [of_Z isna].
  fold (Machine.Zsum l). rewrite IH. unfold of_Z, nadd, inject_Z, Qplus.
  cbn [Qnum Qden]. f_equal. f_equal. lia.
Qed.

(** The sum of values that are 0 or at least [tiny]. *)
Lemma in_range_total (l : list num) :
  forallb in_range_value l = true ->
  exists s,
    series_sum l = Fin s /\ (0 <= s)%Q /\ (s == 0 \/ tiny <= s)%Q.
Proof.
  induction l as [| x l IH]; intro H.
  - exists 0%Q. repeat split; [apply Qle_refl | left; reflexivity].
  - cbn [forallb] in H. apply andb_true_iff in H. destruct H as [Hx Hl].
    destruct (IH Hl) as (s & Hs & H0 & Ht).
    destruct x as [q | | |]; try discriminate.
    cbn [series_sum isna]. rewrite Hs. cbn [nadd].
    exists (q + s)%Q. split; [reflexivity |].
    cbn [in_range_value] in Hx. apply orb_true_iff in Hx.
    assert (Htiny : (0 < tiny)%Q) by reflexivity.
    destruct Hx as [Hq | Hq].
    + apply Qeq_bool_iff in Hq. split.
      * rewrite Hq, Qplus_0_l. exact H0.
      * rewrite Hq, Qplus_0_l. exact Ht.
    + apply Qle_bool_iff in Hq.
      assert (Hq0 : (0 <= q)%Q)
        by (eapply Qle_trans; [apply Qlt_le_weak, Htiny | exact Hq]).
      split.
      * rewrite <- (Qplus_0_r 0). now apply Qplus_le_compat.
      * right. rewrite <- (Qplus_0_r tiny). now apply Qplus_le_compat.
Qed.

Lemma in_range_values_finite (l : list num) :
  forallb in_range_value l = true -> forallb is_finite l = true.
Proof.
  induction l as [| [q | | |] l IH]; simpl; try discriminate; auto.
  intro H. apply andb_true_iff in H. now apply IH.
Qed.

(** A float64 sum of such values that stays below the largest double is
    the exact sum. *)
Lemma float_sum_from (l : list num) (a s : Q) :
  forallb in_range_value l = true ->
  series_sum l = Fin s ->
  (0 <= a)%Q -> (a + s <= max_float)%Q ->
  fold_left (fun acc x => if isna x then acc else overflow (acc + x)%num)
    l (Fin a)
  = Fin (a + s).
Proof.
  revert a s. induction l as [| x l IH]; intros a s H Hs Ha Hmax.
  - cbn in Hs. injection Hs as <-. cbn. now rewrite Qplus_0_r_eq.
  - cbn [forallb] in H. apply andb_true_iff in H. destruct H as [Hx Hl].
    destruct (@in_range_total l Hl) as (s' & Hs' & Hs0 & _).
    destruct (@in_range_total [x]) as (q' & Hq' & Hq0 & _);
      [cbn; now rewrite Hx |].
    destruct x as [q | | |]; try discriminate.
    cbn in Hq'. injection Hq' as <-. rewrite Qplus_0_r in Hq0.
    cbn [series_sum isna] in Hs. rewrite Hs' in Hs. cbn in Hs.
    injection Hs as <-.
    cbn [fold_left isna nadd].
    rewrite overflow_small.
    + rewrite (IH (a + q)%Q s' Hl Hs').
      * now rewrite Qplus_assoc_eq.
      * rewrite <- (Qplus_0_r 0). now apply Qplus_le_compat.
      * now rewrite Qplus_assoc_eq.
    + rewrite <- (Qplus_0_r 0). now apply Qplus_le_compat.
    + eapply Qle_trans; [| exact Hmax].
      apply Qplus_le_compat; [apply Qle_refl |].
      rewrite <- (Qplus_0_r q) at 1.
      apply Qplus_le_compat; [apply Qle_refl | exact Hs0].
Qed.

Lemma huge_below_max_float : (huge <= max_float)%Q.
Proof. apply Qle_bool_iff. vm_compute. reflexivity. Qed.

Lemma float_sum_exact (l : list num) (s : Q) :
  forallb in_range_value l = true ->
  series_sum l = Fin s -> (s <= huge)%Q ->
  Machine.float_sum l = Fin s.
Proof.
  intros H Hs Hh. unfold Machine.float_sum, n0.
  rewrite (@float_sum_from l 0%Q s H Hs).
  - now rewrite Qplus_0_l_eq.
  - apply Qle_refl.
  - rewrite Qplus_0_l. eapply Qle_trans; [exact Hh |].
    apply huge_below_max_float.
Qed.

(** ** The sums of a typed frame *)

Lemma lookup_untyped (name : string) (cols : list (string * Machine.Column)) :
  lookup name
    (map (fun kc => (fst kc, Machine.untyped_column (snd kc))) cols)
  = option_map Machine.untyped_column (lookup name cols).
Proof.
  induction cols as [| [k c] cols IH]; [reflexivity |].
  cbn [map lookup fst snd]. destruct (String.eqb name k); [reflexivity |].
  exact IH.
Qed.

Lemma lookup_machine_numeric_only (name : string)
    (cols : list (string * Machine.Column)) (c : Machine.Column)
    (s : Machine.scalar) :
  lookup name cols = Some c ->
  Machine.column_sum c = Some s ->
  lookup name (Machine.numeric_only cols) = Some s.
Proof.
  induction cols as [| [k c'] cols IH]; [discriminate |].
  cbn [lookup Machine.numeric_only].
  destruct (String.eqb name k) eqn:E.
  - intros [= ->] Hs. rewrite Hs. cbn [lookup]. now rewrite E.
  - intros Hc Hs. destruct (Machine.column_sum c'); [| now apply IH].
    cbn [lookup]. rewrite E. now apply IH.
Qed.

Lemma lookup_map_snd (A B : Type) (f : A -> B) (name : string)
    (l : list (string * A)) :
  lookup name (map (fun e => (fst e, f (snd e))) l)
  = option_map f (lookup name l).
Proof.
  induction l as [| [k a] l IH]; [reflexivity |].
  cbn [map lookup fst snd]. destruct (String.eqb name k); [reflexivity |].
  exact IH.
Qed.

Lemma lookup_upcast (name : string) (sums : list (string * Machine.scalar))
    (s : Machine.scalar) :
  lookup name sums = Some s ->
  exists s',
    lookup name (Machine.upcast sums) = Some s' /\
    Machine.to_num s' = Machine.to_num s.
Proof.
  intro H. unfold Machine.upcast.
  destruct sums as [| [k0 s0] rest]; [discriminate |].
  destruct (forallb _ rest).
  - exists s. now split.
  - rewrite (lookup_map_snd (fun x => Machine.SFloat (Machine.to_num x))).
    rewrite H. cbn. eauto.
Qed.

Lemma inject_Z_range (z : Z) :
  (0 <= inject_Z z)%Q -> (inject_Z z <= huge)%Q -> (0 <= z <= 2 ^ 53)%Z.
Proof.
  unfold huge. rewrite <- !Zle_Qle. intros H0 H1.
  change 0%Q with (inject_Z 0) in H0. rewrite <- Zle_Qle in H0. lia.
Qed.

Lemma column_sum_exact (c : Machine.Column) (l : list num) (s : Q) :
  Machine.untyped_column c = NumCol l ->
  forallb in_range_value l = true ->
  series_sum l = Fin s ->
  (0 <= s)%Q -> (s <= huge)%Q ->
  exists sc,
    Machine.column_sum c = Some sc /\ Machine.to_num sc = Fin s.
Proof.
  intros Hc Hl Hs H0 Hh.
  destruct c as [zs | zs | [l' | d | o]]; cbn in Hc; try discriminate;
    injection Hc as <-.
  - rewrite int_sum_exact in Hs. injection Hs as <-.
    destruct (@inject_Z_range _ H0 Hh) as [Hz0 Hz1].
    eexists. split; [reflexivity |]. cbn [Machine.to_num].
    rewrite wrap_int64_small; [reflexivity | lia].
  - rewrite int_sum_exact in Hs. injection Hs as <-.
    destruct (@inject_Z_range _ H0 Hh) as [Hz0 Hz1].
    eexists. split; [reflexivity |]. cbn [Machine.to_num].
    rewrite wrap_uint64_small; [reflexivity | lia].
  - eexists. split; [reflexivity |]. cbn [Machine.to_num].
    now apply float_sum_exact.
Qed.

(** A canonical column in range: its machine total is the exact sum, and
    the sum is 0 or between [tiny] and [huge]. *)
Lemma machine_total (df : Machine.Frame) (name : string) :
  numeric_column (Machine.untyped df) name = true ->
  in_range_column (Machine.untyped df) name = true ->
  exists sc s,
    Machine.attr (Machine.df_sum df) name = Ok sc /\
    Machine.to_num sc = Fin s /\
    attr (df_sum (Machine.untyped df)) name = Ok (Fin s) /\
    series_sum (values (Machine.untyped df) name) = Fin s /\
    (0 <= s)%Q /\ (s <= huge)%Q /\ (s == 0 \/ tiny <= s)%Q.
Proof.
  intros Hn Hr. unfold in_range_column in Hr. unfold values.
  destruct (lookup name (columns (Machine.untyped df)))
    as [[l | |] |] eqn:E; try discriminate.
  apply andb_true_iff in Hr. destruct Hr as [Hv Hle].
  destruct (@in_range_total _ Hv) as (s & Hs & H0 & Ht).
  rewrite Hs in Hle. cbn in Hle. apply Qle_bool_iff in Hle.
  cbn [Machine.untyped columns] in E. rewrite lookup_untyped in E.
  destruct (lookup name (Machine.columns df)) as [c |] eqn:Ec;
    [| discriminate].
  cbn in E. injection E as E.
  destruct (@column_sum_exact c l s E Hv Hs H0 Hle) as (sc & Hsc & Hto).
  pose proof (@lookup_machine_numeric_only name _ c sc Ec Hsc) as Hlk.
  destruct (@lookup_upcast name _ sc Hlk) as (sc' & Hlk' & Hto').
  exists sc', s. repeat split; try assumption.
  - unfold Machine.attr, Machine.df_sum. now rewrite Hlk'.
  - congruence.
  - unfold attr, df_sum. cbn [Machine.untyped columns].
    assert (El : lookup name
                   (map (fun kc => (fst kc, Machine.untyped_column (snd kc)))
                      (Machine.columns df)) = Some (NumCol l))
      by (rewrite lookup_untyped, Ec; cbn; now rewrite E).
    rewrite (@lookup_numeric_only name _ l El), Hs. reflexivity.
Qed.

(** ** The ratios within the range *)

Lemma tiny_positive (b : Q) : (tiny <= b)%Q -> (0 < b)%Q.
Proof. intro H. eapply Qlt_le_trans; [| exact H]. reflexivity. Qed.

Lemma Qdiv_bound (a b A : Q) :
  (0 <= a)%Q -> (a <= A)%Q -> (tiny <= b)%Q ->
  (0 <= a / b)%Q /\ (a / b <= A * huge)%Q.
Proof.
  intros H0 HA Hb. pose proof (tiny_positive Hb) as Hpos.
  split.
  - unfold Qdiv. apply Qmult_le_0_compat; [exact H0 |].
    apply Qlt_le_weak. now apply Qinv_lt_0_compat.
  - apply Qle_shift_div_r; [exact Hpos |].
    assert (HA0 : (0 <= A)%Q) by (eapply Qle_trans; eassumption).
    assert (H1 : (1 <= huge * b)%Q).
    { setoid_replace 1%Q with (huge * tiny)%Q by reflexivity.
      apply Qmult_le_l; [reflexivity | exact Hb]. }
    eapply Qle_trans; [exact HA |].
    rewrite <- Qmult_assoc.
    rewrite <- (Qmult_1_r A) at 1.
    destruct (Qeq_dec A 0) as [E | E].
    + rewrite E, !Qmult_0_l. apply Qle_refl.
    + apply Qmult_le_l; [| exact H1].
      destruct (Qle_lt_or_eq _ _ HA0) as [Hlt | Heq]; [exact Hlt |].
      exfalso. apply E. now symmetry.
Qed.

Lemma positive_not_zero (b : Q) : (0 < b)%Q -> Qeq_bool b 0 = false.
Proof.
  intro H. destruct (Qeq_bool b 0) eqn:E; [| reflexivity].
  apply Qeq_bool_iff in E. rewrite E in H. now apply Qlt_irrefl in H.
Qed.

Lemma positive_gt (b : Q) : (0 < b)%Q -> (Fin b >? n0)%num = true.
Proof. intro H. unfold ngt, n0. cbn. now apply Qltb_lt. Qed.

Lemma zero_not_gt (b : Q) : (b == 0)%Q -> (Fin b >? n0)%num = false.
Proof.
  intro H. unfold ngt, n0. cbn. unfold Qltb.
  apply negb_false_iff, Qle_bool_iff. rewrite H. apply Qle_refl.
Qed.

Lemma quotient_below_max_float :
  (numerator_bound * huge * 100 <= max_float)%Q.
Proof. apply Qle_bool_iff. vm_compute. reflexivity. Qed.

Lemma fdiv_in_range (a b : Q) :
  (0 <= a)%Q -> (a <= numerator_bound)%Q -> (tiny <= b)%Q ->
  Machine.fdiv (Fin a) (Fin b) = Fin (a / b) /\
  (0 <= a / b)%Q /\ (a / b <= numerator_bound * huge)%Q.
Proof.
  intros H0 HA Hb. destruct (Qdiv_bound H0 HA Hb) as [Hq0 Hq1].
  split; [| now split].
  unfold Machine.fdiv. cbn [ndiv].
  rewrite (positive_not_zero (tiny_positive Hb)).
  apply overflow_small; [exact Hq0 |].
  eapply Qle_trans; [exact Hq1 |].
  eapply Qle_trans; [| apply quotient_below_max_float].
  rewrite <- (Qmult_1_r (numerator_bound * huge)) at 1.
  apply Qmult_le_l; [reflexivity | discriminate].
Qed.

Lemma ratio_machine_exact (sa sb : Machine.scalar) (a b : Q) :
  Machine.to_num sa = Fin a -> Machine.to_num sb = Fin b ->
  (0 <= a)%Q -> (a <= numerator_bound)%Q -> (b == 0 \/ tiny <= b)%Q ->
  Machine.ratio sa sb = ratio (Fin a) (Fin b).
Proof.
  intros Ea Eb H0 HA [Hb | Hb]; unfold Machine.ratio, ratio;
    rewrite Ea, Eb.
  - now rewrite (zero_not_gt Hb).
  - rewrite (positive_gt (tiny_positive Hb)).
    destruct (fdiv_in_range H0 HA Hb) as [-> _].
    cbn [ndiv]. now rewrite (positive_not_zero (tiny_positive Hb)).
Qed.

Lemma pct_machine_exact (sa sb : Machine.scalar) (a b : Q) :
  Machine.to_num sa = Fin a -> Machine.to_num sb = Fin b ->
  (0 <= a)%Q -> (a <= numerator_bound)%Q -> (b == 0 \/ tiny <= b)%Q ->
  Machine.pct sa sb = pct (Fin a) (Fin b).
Proof.
  intros Ea Eb H0 HA [Hb | Hb]; unfold Machine.pct, pct;
    rewrite Ea, Eb.
  - now rewrite (zero_not_gt Hb).
  - rewrite (positive_gt (tiny_positive Hb)).
    destruct (fdiv_in_range H0 HA Hb) as (-> & Hq0 & Hq1).
    cbn [ndiv]. rewrite (positive_not_zero (tiny_positive Hb)).
    cbn [nmul n100]. apply overflow_small.
    + apply Qmult_le_0_compat; [exact Hq0 | discriminate].
    + eapply Qle_trans; [| apply quotient_below_max_float].
      apply Qmult_le_compat_r; [exact Hq1 | discriminate].
Qed.

Lemma huge_le_numerator_bound (a : Q) :
  (a <= huge)%Q -> (a <= numerator_bound)%Q.
Proof.
  intro H. eapply Qle_trans; [exact H |].
  apply Qle_bool_iff. vm_compute. reflexivity.
Qed.

Lemma times_machine_exact (sp : Machine.scalar) (p : Q) :
  Machine.to_num sp = Fin p -> (0 <= p)%Q -> (p <= huge)%Q ->
  Machine.to_num (Machine.times sp 500) = Fin (p * 500) /\
  (0 <= p * 500)%Q /\ (p * 500 <= numerator_bound)%Q.
Proof.
  intros E H0 Hh.
  assert (Hb : (0 <= p * 500)%Q /\ (p * 500 <= numerator_bound)%Q).
  { split.
    - apply Qmult_le_0_compat; [exact H0 | discriminate].
    - unfold numerator_bound.
      apply Qmult_le_compat_r; [exact Hh | discriminate]. }
  split; [| exact Hb].
  destruct sp as [z | z | x]; cbn [Machine.to_num Machine.times] in *.
  - injection E as <-. destruct (@inject_Z_range z H0 Hh) as [Hz0 Hz1].
    rewrite wrap_int64_small; [reflexivity | lia].
  - injection E as <-. destruct (@inject_Z_range z H0 Hh) as [Hz0 Hz1].
    rewrite wrap_uint64_small; [reflexivity | lia].
  - subst x. cbn [nmul of_Z].
    change (inject_Z 500) with 500%Q.
    apply overflow_small; [apply Hb |].
    eapply Qle_trans; [apply Hb |].
    apply Qle_bool_iff. vm_compute. reflexivity.
Qed.

Lemma mean_machine_exact (sf : Machine.scalar) (q : Q) (n : nat) :
  Machine.to_num sf = Fin q -> (0 <= q)%Q -> (q <= huge)%Q ->
  (0 < n)%nat ->
  Machine.fdiv (Machine.to_num sf) (of_nat n) = (Fin q / of_nat n)%num.
Proof.
  intros E H0 Hh Hn. rewrite E. unfold of_nat, of_Z.
  assert (Hb : (tiny <= inject_Z (Z.of_nat n))%Q).
  { eapply Qle_trans with (y := 1%Q); [discriminate |].
    change 1%Q with (inject_Z 1). rewrite <- Zle_Qle. lia. }
  destruct (fdiv_in_range H0 (huge_le_numerator_bound Hh) Hb) as [-> _].
  cbn [ndiv]. now rewrite (positive_not_zero (tiny_positive Hb)).
Qed.

(** ** calculate_metrics within the range *)

Ltac machine_columns Hc Hr :=
  repeat match type of Hc with
  | (_ && _ = true) =>
      let H1 := fresh "Hcol" in
      let H2 := fresh "Hran" in
      apply andb_true_iff in Hc; destruct Hc as [H1 Hc];
      apply andb_true_iff in Hr; destruct Hr as [H2 Hr];
      destruct (machine_total _ _ H1 H2)
        as (? & ? & ? & ? & ? & _ & ? & ? & ?);
      clear H1 H2
  end.

Ltac machine_field :=
  first
    [ erewrite pct_machine_exact by
        first [eassumption | apply huge_le_numerator_bound; eassumption]
    | erewrite ratio_machine_exact by
        first [eassumption | apply huge_le_numerator_bound; eassumption] ].

Lemma machine_manual_exact (df : Machine.Frame) :
  canonical_manual (Machine.untyped df) = true ->
  in_range appmanual_py (Machine.untyped df) = true ->
  MachineManual.calculate_metrics df
  = Manual.calculate_metrics (Machine.untyped df).
Proof.
  unfold canonical_manual, in_range, funnel_columns. intros Hc Hr.
  cbn [List.app forallb] in Hc, Hr.
  machine_columns Hc Hr. clear Hc Hr.
  unfold MachineManual.calculate_metrics, Manual.calculate_metrics.
  repeat match goal with
  | E : Machine.attr _ _ = Ok _ |- _ => rewrite E; clear E
  | E : attr _ _ = Ok _ |- _ => rewrite E; clear E
  end.
  cbn [bind].
  match goal with
  | E : Machine.to_num ?sp = Fin ?p |-
      context [Machine.times ?sp 500] =>
      destruct (@times_machine_exact sp p E) as (Et & Et0 & Et1);
      [assumption | assumption |]
  end.
  cbn [nmul].
  repeat machine_field.
  repeat match goal with
  | E : Machine.to_num _ = Fin _ |- _ => rewrite E; clear E
  end.
  reflexivity.
Qed.

Lemma machine_api_exact (df : Machine.Frame) :
  canonical_api (Machine.untyped df) = true ->
  in_range app_py (Machine.untyped df) = true ->
  MachineApi.calculate_metrics df
  = Api.calculate_metrics (Machine.untyped df).
Proof.
  unfold canonical_api, in_range, funnel_columns. intros Hc Hr.
  cbn [List.app forallb] in Hc, Hr.
  machine_columns Hc Hr. clear Hc Hr.
  unfold MachineApi.calculate_metrics, Api.calculate_metrics.
  change (nrows (Machine.untyped df)) with (Machine.nrows df).
  repeat match goal with
  | E : Machine.attr _ _ = Ok _ |- _ => rewrite E; clear E
  | E : attr _ _ = Ok _ |- _ => rewrite E; clear E
  end.
  cbn [bind].
  match goal with
  | E : Machine.to_num ?sp = Fin ?p |-
      context [Machine.times ?sp 500] =>
      destruct (@times_machine_exact sp p E) as (Et & Et0 & Et1);
      [assumption | assumption |]
  end.
  cbn [nmul].
  repeat machine_field.
  destruct (0 <? Machine.nrows df)%nat eqn:En; cbn [bind].
  - apply Nat.ltb_lt in En.
    erewrite mean_machine_exact by eassumption.
    repeat match goal with
    | E : Machine.to_num _ = Fin _ |- _ => rewrite E; clear E
    end.
    reflexivity.
  - repeat match goal with
    | E : Machine.to_num _ = Fin _ |- _ => rewrite E; clear E
    end.
    reflexivity.
Qed.

Lemma machine_rev_exact (df : Machine.Frame) :
  canonical_rev (Machine.untyped df) = true ->
  in_range_rev (Machine.untyped df) = true ->
  MachineRev.calculate_metrics df
  = Rev.calculate_metrics (Machine.untyped df).
Proof.
  unfold canonical_rev, in_range_rev, funnel_columns. intros Hc Hr.
  cbn [List.app forallb] in Hc, Hr.
  machine_columns Hc Hr. clear Hc Hr.
  unfold MachineRev.calculate_metrics, Rev.calculate_metrics.
  change (nrows (Machine.untyped df)) with (Machine.nrows df).
  repeat match goal with
  | E : Machine.attr _ _ = Ok _ |- _ => rewrite E; clear E
  | E : attr _ _ = Ok _ |- _ => rewrite E; clear E
  end.
  cbn [bind]. cbv zeta.
  repeat machine_field.
  destruct (0 <? Machine.nrows df)%nat eqn:En; cbn [bind].
  - apply Nat.ltb_lt in En.
    erewrite mean_machine_exact by eassumption.
    repeat match goal with
    | E : Machine.to_num _ = Fin _ |- _ => rewrite E; clear E
    end.
    reflexivity.
  - repeat match goal with
    | E : Machine.to_num _ = Fin _ |- _ => rewrite E; clear E
    end.
    reflexivity.
Qed.

Lemma machine_exact (f : file) (df : Machine.Frame) :
  canonical_of f (Machine.untyped df) = true ->
  in_range f (Machine.untyped df) = true ->
  machine_calculate_metrics_of f df
  = calculate_metrics_of f (Machine.untyped df).
Proof.
  destruct f; cbn [canonical_of machine_calculate_metrics_of
                   calculate_metrics_of].
  - apply machine_manual_exact.
  - apply machine_api_exact.
Qed.

(** C1.  On every canonical row set whose values are in range (each value
    of a column that is read is 0 or at least 2^-53, and each such column
    adds up to at most 2^53), the empty one included, [calculate_metrics] of
    [appmanual.py] and of [app.py], with int64 sums that wrap around and
    float64 results that overflow, returns a metric set (it does not
    raise); every value in it is a finite number; each ratio whose
    denominator is at most 0 is 0; and on the empty row set every total and
    every metric is 0. *)
Theorem calculate_metrics_safe_division (f : file) (df : Machine.Frame) :
  canonical_of f (Machine.untyped df) = true ->
  in_range f (Machine.untyped df) = true ->
  exists m,
    machine_calculate_metrics_of f df = Ok m /\
    metrics_finite m = true /\
    zero_when_denominator_nonpositive f (Machine.untyped df) m /\
    (Machine.nrows df = 0%nat -> metrics_zero m = true).
Proof.
  intros Hc Hr. rewrite (@machine_exact f df Hc Hr).
  destruct f; cbn [canonical_of calculate_metrics_of] in *.
  - destruct (@manual_metrics_safe _ Hc) as (m & Hm & _ & Hf & Hz & He).
    exists m. split; [exact Hm | split; [exact Hf | split; [exact Hz |]]].
    exact He.
  - destruct (@api_metrics_safe _ Hc) as (m & Hm & _ & Hf & Hz & He).
    exists m. split; [exact Hm | split; [exact Hf | split; [exact Hz |]]].
    exact He.
Qed.

Lemma calculate_metrics_safe_division_witness :
  canonical_of app_py (Machine.untyped two_days_typed) = true /\
  in_range app_py (Machine.untyped two_days_typed) = true /\
  exists m,
    machine_calculate_metrics_of app_py two_days_typed = Ok m /\
    metrics_finite m = true /\
    zero_when_denominator_nonpositive app_py
      (Machine.untyped two_days_typed) m /\
    (Machine.nrows two_days_typed = 0%nat -> metrics_zero m = true).
Proof.
  split; [reflexivity |]. split; [reflexivity |].
  apply (@calculate_metrics_safe_division app_py two_days_typed);
    reflexivity.
Defined.

(** C1, without the range: two amounts of 2^1023 add up to more than the
    largest double, so the total spend, CPC and CPA are [+Infinity]; and
    500 times the purchases over an amount of 2^-1074 is more than the
    largest double, so ROAS is [+Infinity]. *)
Lemma large_amounts_are_not_safe :
  canonical_of appmanual_py (Machine.untyped two_large_amounts) = true /\
  (exists m,
      machine_calculate_metrics_of appmanual_py two_large_amounts = Ok m /\
      t_spend (totals m) = PInf /\ CPC m = PInf /\ CPA m = PInf /\
      metrics_finite m = false) /\
  canonical_of appmanual_py (Machine.untyped day_of_tiny_amount) = true /\
  (exists m,
      machine_calculate_metrics_of appmanual_py day_of_tiny_amount = Ok m /\
      ROAS m = PInf /\ metrics_finite m = false).
Proof.
  split; [reflexivity |].
  split; [eexists; split; [vm_compute; reflexivity |]; repeat split |].
  split; [reflexivity |].
  eexists. split; [vm_compute; reflexivity |]. repeat split.
Qed.

(** ** calculate_daily_metrics *)

(** C2.  The daily table of a day with impressions and spend but no click:
    [calculate_daily_metrics] of [appmanual.py] and of
    [before_metrics_addition.py] returns [CPC] and [Frequency] equal to
    [+Infinity] on that row, whose click count, their denominator, is 0.
    [fillna(0)] replaces the NaN of [0 / 0] only; the infinity of [x / 0] is
    replaced in the [CPA] column alone (and in [ROAS] and [ACoS]), where the
    code adds [.replace([float('inf')], 0)]. *)
Theorem daily_metrics_infinite_without_clicks :
  canonical_manual day_without_clicks = true /\
  values day_without_clicks "clicks" = [Fin 0] /\
  (exists daily,
      Manual.calculate_daily_metrics day_without_clicks = Ok daily /\
      values daily "CPC" = [PInf] /\
      values daily "Frequency" = [PInf] /\
      values daily "CPA" = [Fin 0]) /\
  canonical_rev day_without_clicks_rev = true /\
  values day_without_clicks_rev "clicks" = [Fin 0] /\
  (exists daily,
      Rev.calculate_daily_metrics day_without_clicks_rev = Ok daily /\
      values daily "CPC" = [PInf] /\
      values daily "Frequency" = [PInf] /\
      values daily "CPA" = [Fin 0]).
Proof.
  repeat split; try reflexivity.
  - eexists. split; [vm_compute; reflexivity |]. repeat split.
  - eexists. split; [vm_compute; reflexivity |]. repeat split.
Qed.

(** ** The benchmark classifier *)

Section Bands.
Variable A : Type.
Variables e g c : A.
Hypothesis eg : e <> g.
Hypothesis ec : e <> c.
Hypothesis gc : g <> c.

(** Three bands cut at [lo < hi], read from the top. *)
Lemma bands_from_top (lo hi : Q) (v : num) :
  (lo < hi)%Q -> isna v = false ->
  let s := if (v >=? Fin hi)%num then e
           else if (v >=? Fin lo)%num then g else c in
  (s = e <-> (v >=? Fin hi)%num = true) /\
  (s = g <-> (v >=? Fin lo)%num = true /\ (v <? Fin hi)%num = true) /\
  (s = c <-> (v <? Fin lo)%num = true).
Proof.
  intros Hlt Hv. unfold nge.
  destruct v as [q | | |]; try discriminate; simpl.
  - unfold Qltb.
    destruct (Qle_bool hi q) eqn:Ehi.
    + assert (Elo : Qle_bool lo q = true).
      { apply Qle_bool_iff. apply Qle_bool_iff in Ehi.
        apply Qlt_le_weak. eapply Qlt_le_trans; eassumption. }
      rewrite Elo. simpl. intuition congruence.
    + destruct (Qle_bool lo q); simpl; intuition congruence.
  - intuition congruence.
  - intuition congruence.
Qed.

(** Three bands cut at [lo < hi], read from the bottom. *)
Lemma bands_from_bottom (lo hi : Q) (v : num) :
  (lo < hi)%Q -> isna v = false ->
  let s := if (v <=? Fin lo)%num then e
           else if (v <=? Fin hi)%num then g else c in
  (s = e <-> (v <=? Fin lo)%num = true) /\
  (s = g <-> (v >? Fin lo)%num = true /\ (v <=? Fin hi)%num = true) /\
  (s = c <-> (v >? Fin hi)%num = true).
Proof.
  intros Hlt Hv. unfold ngt.
  destruct v as [q | | |]; try discriminate; simpl.
  - unfold Qltb.
    destruct (Qle_bool q lo) eqn:Elo.
    + assert (Ehi : Qle_bool q hi = true).
      { apply Qle_bool_iff. apply Qle_bool_iff in Elo.
        apply Qlt_le_weak. eapply Qle_lt_trans; eassumption. }
      rewrite Ehi. simpl. intuition congruence.
    + destruct (Qle_bool q hi); simpl; intuition congruence.
  - intuition congruence.
  - intuition congruence.
Qed.
End Bands.

(** Every entry of the table of [appmanual.py] and [app.py] has finite
    bounds with [min < ideal]. *)
Lemma benchmarks_ordered (name : string) (bench : Bench) :
  lookup name Manual.BENCHMARKS = Some bench ->
  exists lo hi, min_ bench = Fin lo /\ ideal bench = Fin hi /\ (lo < hi)%Q.
Proof.
  unfold Manual.BENCHMARKS. cbn [lookup].
  repeat match goal with
    | |- context [String.eqb name ?k] => destruct (String.eqb name k)
    end;
    intros [= <-]; do 2 eexists; repeat split; reflexivity.
Qed.

Lemma one_below (lo : Q) : ((Fin lo + Fin (-1)) <? Fin lo)%num = true.
Proof.
  simpl. apply Qltb_lt.
  rewrite <- (Qplus_0_r lo) at 2. apply Qplus_lt_r. reflexivity.
Qed.

(** C3.  For a metric [name] of the benchmark table and a number [v],
    [get_status] of [appmanual.py] and [get_status_emoji] of [app.py] answer
    excellent exactly when [v >= ideal], good exactly when
    [min <= v < ideal] and critical exactly when [v < min]; [ideal] itself
    is excellent, [min] itself is good, [min - 1] is critical.  A metric
    [other] that the table does not hold is neutral, whatever the value. *)
Theorem classifier_bands (name other : string) (bench : Bench) (v w : num) :
  lookup name Manual.BENCHMARKS = Some bench ->
  isna v = false ->
  lookup other Manual.BENCHMARKS = None ->
  ((Manual.get_status name v = "excellent" <->
      (v >=? ideal bench)%num = true) /\
   (Manual.get_status name v = "good" <->
      (v >=? min_ bench)%num = true /\ (v <? ideal bench)%num = true) /\
   (Manual.get_status name v = "critical" <->
      (v <? min_ bench)%num = true)) /\
  ((Api.get_status_emoji name v = "✅" <->
      (v >=? ideal bench)%num = true) /\
   (Api.get_status_emoji name v = "⚠️" <->
      (v >=? min_ bench)%num = true /\ (v <? ideal bench)%num = true) /\
   (Api.get_status_emoji name v = "🚨" <->
      (v <? min_ bench)%num = true)) /\
  (Manual.get_status name (ideal bench) = "excellent" /\
   Manual.get_status name (min_ bench) = "good" /\
   Manual.get_status name (min_ bench + Fin (-1))%num = "critical") /\
  (Api.get_status_emoji name (ideal bench) = "✅" /\
   Api.get_status_emoji name (min_ bench) = "⚠️" /\
   Api.get_status_emoji name (min_ bench + Fin (-1))%num = "🚨") /\
  Manual.get_status other w = "neutral" /\
  Api.get_status_emoji other w = "⚪".
Proof.
  intros Hb Hv Ho.
  destruct (benchmarks_ordered _ Hb) as (lo & hi & Hlo & Hhi & Hlt).
  unfold Manual.get_status, Api.get_status_emoji, Api.BENCHMARKS.
  rewrite Hb, Ho, Hlo, Hhi.
  assert (S1 : "excellent" <> "good") by discriminate.
  assert (S2 : "excellent" <> "critical") by discriminate.
  assert (S3 : "good" <> "critical") by discriminate.
  assert (E1 : "✅" <> "⚠️") by discriminate.
  assert (E2 : "✅" <> "🚨") by discriminate.
  assert (E3 : "⚠️" <> "🚨") by discriminate.
  pose proof (bands_from_top S1 S2 S3 v Hlt Hv) as Bs.
  pose proof (bands_from_top E1 E2 E3 v Hlt Hv) as Be.
  pose proof (fun x H => bands_from_top S1 S2 S3 x Hlt H) as Ps.
  pose proof (fun x H => bands_from_top E1 E2 E3 x Hlt H) as Pe.
  assert (Hhh : (Fin hi >=? Fin hi)%num = true)
    by (apply Qle_bool_iff, Qle_refl).
  assert (Hll : (Fin lo >=? Fin lo)%num = true)
    by (apply Qle_bool_iff, Qle_refl).
  assert (Hlh : (Fin lo <? Fin hi)%num = true) by now apply Qltb_lt.
  pose proof (one_below lo) as Hbelow.
  cbv zeta in *.
  repeat split;
    try (apply Bs; auto; fail); try (apply Be; auto; fail);
    try (apply (Ps (Fin hi) eq_refl); auto; fail);
    try (apply (Ps (Fin lo) eq_refl); auto; fail);
    try (apply (Ps (Fin lo + Fin (-1))%num eq_refl); auto; fail);
    try (apply (Pe (Fin hi) eq_refl); auto; fail);
    try (apply (Pe (Fin lo) eq_refl); auto; fail);
    try (apply (Pe (Fin lo + Fin (-1))%num eq_refl); auto; fail).
Qed.

Lemma classifier_bands_witness :
  lookup "CTR" Manual.BENCHMARKS
    = Some (mkBench (Fin (9 # 10)) (Fin (15 # 10)) (Fin 3) "%") /\
  isna (Fin 1) = false /\
  lookup "ACoS" Manual.BENCHMARKS = None /\
  (Manual.get_status "CTR" (Fin 1) = "good" <->
     (Fin 1 >=? Fin (9 # 10))%num = true /\
     (Fin 1 <? Fin (15 # 10))%num = true) /\
  Manual.get_status "ACoS" (Fin 30) = "neutral".
Proof.
  pose proof
    (@classifier_bands "CTR" "ACoS"
       (mkBench (Fin (9 # 10)) (Fin (15 # 10)) (Fin 3) "%")
       (Fin 1) (Fin 30) eq_refl eq_refl eq_refl) as H.
  repeat split; try reflexivity; apply H.
Defined.

(** C3, without the hypothesis that [v] is a number: NaN is below no bound
    and above none, so it falls through to the last branch and is answered
    critical, although it is not below the minimum 0.9 of CTR. *)
Lemma nan_is_classified_critical :
  lookup "CTR" Manual.BENCHMARKS
    = Some (mkBench (Fin (9 # 10)) (Fin (15 # 10)) (Fin 3) "%") /\
  Manual.get_status "CTR" NaN = "critical" /\
  Api.get_status_emoji "CTR" NaN = "🚨" /\
  (NaN <? Fin (9 # 10))%num = false.
Proof. repeat split. Qed.

(** C4.  For ACoS, lower is better: [get_status_emoji] of
    [before_metrics_addition.py] answers excellent exactly when [v <= 15],
    good exactly when [15 < v <= 25], critical exactly when [v > 25].  With
    revenue 6000 on spend 1500, [calculate_metrics] gives ACoS 25, which is
    good, and ROAS 4, which is excellent. *)
Theorem acos_bands (v : num) :
  isna v = false ->
  lookup "ACoS" Rev.BENCHMARKS
    = Some (mkBench (Fin 40) (Fin 25) (Fin 15) "%") /\
  (Rev.get_status_emoji "ACoS" v = "✅" <-> (v <=? Fin 15)%num = true) /\
  (Rev.get_status_emoji "ACoS" v = "⚠️" <->
     (v >? Fin 15)%num = true /\ (v <=? Fin 25)%num = true) /\
  (Rev.get_status_emoji "ACoS" v = "🚨" <-> (v >? Fin 25)%num = true) /\
  exists m,
    Rev.calculate_metrics revenue_scenario = Ok m /\
    Rev.t_revenue (Rev.totals m) =n= Fin 6000 /\
    Rev.t_spend (Rev.totals m) =n= Fin 1500 /\
    Rev.ACoS m =n= Fin 25 /\
    Rev.ROAS m =n= Fin 4 /\
    Rev.get_status_emoji "ACoS" (Rev.ACoS m) = "⚠️" /\
    Rev.get_status_emoji "ROAS" (Rev.ROAS m) = "✅".
Proof.
  intro Hv.
  assert (E1 : "✅" <> "⚠️") by discriminate.
  assert (E2 : "✅" <> "🚨") by discriminate.
  assert (E3 : "⚠️" <> "🚨") by discriminate.
  assert (Hlt : (15 < 25)%Q) by reflexivity.
  pose proof (bands_from_bottom E1 E2 E3 v Hlt Hv) as B. cbv zeta in B.
  split; [reflexivity |].
  change (Rev.get_status_emoji "ACoS" v)
    with (if (v <=? Fin 15)%num then "✅"
          else if (v <=? Fin 25)%num then "⚠️" else "🚨").
  repeat (split; [apply B |]).
  eexists. split; [vm_compute; reflexivity |].
  repeat split.
Qed.

Lemma acos_bands_witness :
  isna (Fin 25) = false /\
  (Rev.get_status_emoji "ACoS" (Fin 25) = "⚠️" <->
     (Fin 25 >? Fin 15)%num = true /\ (Fin 25 <=? Fin 25)%num = true).
Proof.
  split; [reflexivity |].
  apply (@acos_bands (Fin 25) eq_refl).
Defined.

(** C4, without the hypothesis that [v] is a number: for ACoS too NaN falls
    through to the last branch and is answered critical, although it is not
    above the ideal bound 25. *)
Lemma nan_acos_is_classified_critical :
  Rev.get_status_emoji "ACoS" NaN = "🚨" /\
  (NaN >? Fin 25)%num = false.
Proof. split; reflexivity. Qed.

(** ** The stable sort *)

Section SortFacts.
Variable A : Type.
Variable key : A -> nat.

Let le (x y : A) : Prop := (key x <= key y)%nat.

Lemma insert_by_perm (x : A) (l : list A) :
  Permutation (insert_by key x l) (x :: l).
Proof.
  induction l as [| y l IH]; simpl; [apply Permutation_refl |].
  destruct (key x <=? key y)%nat.
  - apply Permutation_refl.
  - eapply Permutation_trans; [apply perm_skip, IH | apply perm_swap].
Qed.

Lemma sort_by_perm (l : list A) : Permutation (sort_by key l) l.
Proof.
  induction l as [| x l IH]; simpl; [constructor |].
  eapply Permutation_trans; [apply insert_by_perm |].
  now apply perm_skip.
Qed.

Lemma insert_by_sorted (x : A) (l : list A) :
  StronglySorted le l -> StronglySorted le (insert_by key x l).
Proof.
  induction 1 as [| y l Hs IH Hall]; simpl.
  - repeat constructor.
  - destruct (key x <=? key y)%nat eqn:E.
    + apply Nat.leb_le in E. constructor.
      * now constructor.
      * constructor; [exact E |].
        eapply Forall_impl; [| exact Hall].
        intros z Hz. unfold le in *. lia.
    + apply Nat.leb_gt in E. constructor; [exact IH |].
      eapply Permutation_Forall;
        [apply Permutation_sym, insert_by_perm |].
      constructor; [unfold le; lia | exact Hall].
Qed.

Lemma sort_by_sorted (l : list A) : StronglySorted le (sort_by key l).
Proof.
  induction l as [| x l IH]; simpl; [constructor |].
  now apply insert_by_sorted.
Qed.

(** Insertion puts [x] before the elements of its own key. *)
Lemma filter_insert_by (k : nat) (x : A) (l : list A) :
  filter (with_key key k) (insert_by key x l)
  = filter (with_key key k) (x :: l).
Proof.
  induction l as [| y l IH]; [reflexivity |].
  cbn [insert_by]. destruct (key x <=? key y)%nat eqn:E; [reflexivity |].
  apply Nat.leb_gt in E.
  cbn [filter] in *. rewrite IH. unfold with_key.
  destruct (key x =? k)%nat eqn:Ex, (key y =? k)%nat eqn:Ey;
    try reflexivity.
  apply Nat.eqb_eq in Ex, Ey. lia.
Qed.

(** The sort is stable: the elements of one key keep their order. *)
Lemma sort_by_stable (k : nat) (l : list A) :
  filter (with_key key k) (sort_by key l) = filter (with_key key k) l.
Proof.
  induction l as [| x l IH]; [reflexivity |].
  cbn [sort_by fold_right]. rewrite filter_insert_by.
  cbn [filter]. fold (sort_by key l). now rewrite IH.
Qed.

(** A list sorted on keys below 3 is its three buckets in a row. *)
Lemma sorted_buckets (l : list A) :
  StronglySorted le l -> Forall (fun x => key x < 3)%nat l ->
  l = filter (with_key key 0) l ++ filter (with_key key 1) l
      ++ filter (with_key key 2) l.
Proof.
  induction 1 as [| x l Hs IH Hall]; [reflexivity |].
  intro Hk. inversion Hk as [| ? ? Hx Hl]; subst.
  specialize (IH Hl).
  assert (Hlow : forall k, (k < key x)%nat -> filter (with_key key k) l = []).
  { intros k Hlt. clear - Hall Hlt.
    induction Hall as [| y l' Hy _ IH']; [reflexivity |].
    cbn [filter]. unfold with_key at 1.
    replace (key y =? k)%nat with false
      by (symmetry; apply Nat.eqb_neq; unfold le in Hy; lia).
    exact IH'. }
  assert (Hc : forall k,
             filter (with_key key k) (x :: l)
             = if (key x =? k)%nat then x :: filter (with_key key k) l
               else filter (with_key key k) l) by reflexivity.
  rewrite !Hc. clear Hc.
  destruct (key x) as [| [| [| n]]] eqn:Ek; [| | | lia]; cbn [Nat.eqb].
  - cbn [List.app]. f_equal. exact IH.
  - rewrite (Hlow 0%nat) in IH |- * by lia.
    cbn [List.app] in IH |- *. f_equal. exact IH.
  - rewrite (Hlow 0%nat), (Hlow 1%nat) in IH |- * by lia.
    cbn [List.app] in IH |- *. f_equal. exact IH.
Qed.
End SortFacts.

(** ** get_recommendations *)

Lemma rank_below_3 (l : list Issue) :
  Forall (fun x => priority_order (priority x) < 3)%nat l.
Proof.
  apply Forall_forall. intros x _. destruct (priority x); simpl; lia.
Qed.

Lemma triggered_none (rules : list (bool * Issue)) :
  forallb (fun r => negb (fst r)) rules = true -> triggered rules = [].
Proof.
  induction rules as [| [[|] x] rules IH]; simpl; auto; discriminate.
Qed.

Lemma sort_issues_prioritized (rules : list (bool * Issue)) :
  prioritized rules (sort_issues (triggered rules)).
Proof.
  unfold prioritized, sort_issues, by_priority.
  set (key := fun x : Issue => priority_order (priority x)).
  assert (Hs : StronglySorted rank_le (sort_by key (triggered rules)))
    by apply (sort_by_sorted key).
  repeat split.
  - exact Hs.
  - apply sort_by_perm.
  - intro p. apply sort_by_stable.
  - etransitivity.
    + apply (sorted_buckets key); [exact Hs | apply rank_below_3].
    + now rewrite !(sort_by_stable key).
  - intro H. now rewrite (triggered_none _ H).
Qed.

Lemma manual_recommendations (m : Metrics) :
  Manual.get_recommendations m
  = Ok (sort_issues (triggered (manual_rules m))).
Proof.
  unfold Manual.get_recommendations, manual_rules.
  change (getitem Manual.BENCHMARKS "Checkout_Rate")
    with (Ok (mkBench (Fin 60) (Fin 75) (Fin 85) "%")).
  change (getitem Manual.BENCHMARKS "LP_View_Rate")
    with (Ok (mkBench (Fin 80) (Fin 90) (Fin 100) "%")).
  change (getitem Manual.BENCHMARKS "Purchase_Rate")
    with (Ok (mkBench (Fin 50) (Fin 65) (Fin 80) "%")).
  change (getitem Manual.BENCHMARKS "CTR")
    with (Ok (mkBench (Fin (9 # 10)) (Fin (15 # 10)) (Fin 3) "%")).
  cbn [bind min_ ideal triggered]. do 2 f_equal.
  destruct (Checkout_Rate m <? Fin 60)%num,
    (LP_View_Rate m <? Fin 80)%num,
    (Purchase_Rate m <? Fin 50)%num,
    (CTR m <? Fin (9 # 10))%num; reflexivity.
Qed.

Lemma api_recommendations (m : Metrics) :
  Api.get_recommendations m = Ok (sort_issues (triggered (api_rules m))).
Proof.
  unfold Api.get_recommendations, api_rules.
  change (getitem Api.BENCHMARKS "Checkout_Rate")
    with (Ok (mkBench (Fin 60) (Fin 75) (Fin 85) "%")).
  change (getitem Api.BENCHMARKS "LP_View_Rate")
    with (Ok (mkBench (Fin 80) (Fin 90) (Fin 100) "%")).
  change (getitem Api.BENCHMARKS "CTR")
    with (Ok (mkBench (Fin (9 # 10)) (Fin (15 # 10)) (Fin 3) "%")).
  cbn [bind min_ ideal triggered]. do 2 f_equal.
  destruct (Checkout_Rate m <? Fin 60)%num,
    (LP_View_Rate m <? Fin 80)%num,
    (CTR m <? Fin (9 # 10))%num; reflexivity.
Qed.

Lemma rev_recommendations (m : Rev.Metrics) :
  Rev.get_recommendations m = Ok (sort_issues (triggered (rev_rules m))).
Proof.
  unfold Rev.get_recommendations, rev_rules.
  change (getitem Rev.BENCHMARKS "Checkout_Rate")
    with (Ok (mkBench (Fin 60) (Fin 75) (Fin 85) "%")).
  change (getitem Rev.BENCHMARKS "LP_View_Rate")
    with (Ok (mkBench (Fin 80) (Fin 90) (Fin 100) "%")).
  change (getitem Rev.BENCHMARKS "CTR")
    with (Ok (mkBench (Fin (9 # 10)) (Fin (15 # 10)) (Fin 3) "%")).
  change (getitem Rev.BENCHMARKS "ROAS")
    with (Ok (mkBench (Fin 2) (Fin 4) (Fin 6) "x")).
  change (getitem Rev.BENCHMARKS "ACoS")
    with (Ok (mkBench (Fin 40) (Fin 25) (Fin 15) "%")).
  cbn [bind min_ ideal triggered]. do 2 f_equal.
  destruct (Rev.Checkout_Rate m <? Fin 60)%num,
    (Rev.LP_View_Rate m <? Fin 80)%num,
    (Rev.CTR m <? Fin (9 # 10))%num,
    (Rev.ROAS m <? Fin 2)%num,
    (Rev.ACoS m >? Fin 25)%num; reflexivity.
Qed.

(** ** The store *)

Import Store.

Lemma nth_error_last (h : heap) (o : obj) :
  nth_error (h ++ [o]) (length h) = Some o.
Proof.
  rewrite nth_error_app2 by lia. now rewrite Nat.sub_diag.
Qed.

Lemma nth_error_old (h : heap) (o x : obj) (l : loc) :
  nth_error h l = Some x -> nth_error (h ++ [o]) l = Some x.
Proof.
  intro H. rewrite nth_error_app1; [exact H |].
  apply nth_error_Some. congruence.
Qed.

Lemma update_last (h : heap) (o o' : obj) :
  update (length h) o' (h ++ [o]) = h ++ [o'].
Proof. induction h as [| x h IH]; simpl; congruence. Qed.

Lemma bindM_ok (A B : Type) (m : M A) (k : A -> M B) (h h' : heap) (a : A) :
  m h = Ok (a, h') -> bindM m k h = k a h'.
Proof. unfold bindM. now intros ->. Qed.

Lemma bindM_raise (A B : Type) (m : M A) (k : A -> M B) (h : heap) (e : exn) :
  m h = Raise e -> bindM m k h = Raise e.
Proof. unfold bindM. now intros ->. Qed.

(** An assignment to a column of the newest object. *)
Lemma assign_fresh (h : heap) (d : DataFrame) (name : string)
    (rhs : DataFrame -> result Series) :
  assign (length h) name rhs (h ++ [OFrame d])
  = match rhs d with
    | Ok s => Ok (tt, h ++ [OFrame (setcol d name s)])
    | Raise e => Raise e
    end.
Proof.
  unfold assign, df_setcol, store, bindM, load_frame, lift.
  rewrite nth_error_last. destruct (rhs d) as [s | e]; [| reflexivity].
  rewrite nth_error_last, update_last. reflexivity.
Qed.

Ltac step_assign :=
  match goal with
  | |- bindM (assign (length ?h) ?name ?rhs) _ (?h ++ [OFrame ?d]) = _ =>
      let E := fresh "E" in
      pose proof (assign_fresh h d name rhs) as E;
      cbv beta in E;
      match type of E with
      | context [match ?r with Ok _ => _ | Raise _ => _ end] =>
          let R := fresh "R" in
          destruct r eqn:R;
          [ rewrite (@bindM_ok _ _ _ _ _ _ _ E); clear E
          | rewrite (@bindM_raise _ _ _ _ _ _ E); reflexivity ]
      end
  end.

(** The copy is a new object; the assignments that follow update the copy
    and nothing else. *)
Lemma store_calculate_daily_metrics (h : heap) (df : loc) (d : DataFrame) :
  nth_error h df = Some (OFrame d) ->
  Store.calculate_daily_metrics df h
  = match Manual.calculate_daily_metrics d with
    | Ok daily => Ok (length h, h ++ [OFrame daily])
    | Raise e => Raise e
    end.
Proof.
  intro H. unfold Store.calculate_daily_metrics.
  rewrite (@bindM_ok _ _ _ _ h (h ++ [OFrame d]) (length h))
    by (unfold df_copy, bindM, load_frame, alloc; now rewrite H).
  unfold Manual.calculate_daily_metrics. cbv beta zeta.
  repeat (step_assign; cbn [bind]; cbv beta).
  reflexivity.
Qed.

Lemma store_calculate_metrics (h : heap) (df : loc) (d : DataFrame) :
  nth_error h df = Some (OFrame d) ->
  Store.calculate_metrics df h
  = match Manual.calculate_metrics d with
    | Ok m => Ok (length h, h ++ [ODict m])
    | Raise e => Raise e
    end.
Proof.
  intro H. unfold Store.calculate_metrics, bindM, load_frame, lift, alloc.
  rewrite H. now destruct (Manual.calculate_metrics d).
Qed.

Lemma load_dict_old (h : heap) (o : obj) (l : loc) (m : Metrics) :
  nth_error h l = Some (ODict m) ->
  load_dict l (h ++ [o]) = Ok (m, h ++ [o]).
Proof.
  intro H. unfold load_dict. now rewrite (@nth_error_old h o _ l H).
Qed.

Lemma when_append (h : heap) (cur : list Issue) (c : bool) (x : Issue) :
  when c (list_append (length h) x) (h ++ [OList cur])
  = Ok (tt, h ++ [OList (append_if c x cur)]).
Proof.
  destruct c; [| reflexivity].
  unfold when, list_append, store, bindM, load_list.
  now rewrite nth_error_last, update_last.
Qed.

Lemma list_sort_fresh (h : heap) (cur : list Issue) :
  list_sort (length h) (h ++ [OList cur])
  = Ok (tt, h ++ [OList (sort_issues cur)]).
Proof.
  unfold list_sort, store, bindM, load_list.
  now rewrite nth_error_last, update_last.
Qed.

(** The list of issues is a new object; the dict of metrics is read
    only. *)
Lemma store_get_recommendations (h : heap) (metrics : loc) (m : Metrics) :
  nth_error h metrics = Some (ODict m) ->
  Store.get_recommendations metrics h
  = match Manual.get_recommendations m with
    | Ok issues => Ok (length h, h ++ [OList issues])
    | Raise e => Raise e
    end.
Proof.
  intro H.
  unfold Store.get_recommendations, Manual.get_recommendations.
  change (getitem Manual.BENCHMARKS "Checkout_Rate")
    with (Ok (mkBench (Fin 60) (Fin 75) (Fin 85) "%")).
  change (getitem Manual.BENCHMARKS "LP_View_Rate")
    with (Ok (mkBench (Fin 80) (Fin 90) (Fin 100) "%")).
  change (getitem Manual.BENCHMARKS "Purchase_Rate")
    with (Ok (mkBench (Fin 50) (Fin 65) (Fin 80) "%")).
  change (getitem Manual.BENCHMARKS "CTR")
    with (Ok (mkBench (Fin (9 # 10)) (Fin (15 # 10)) (Fin 3) "%")).
  cbn [bind]. cbv zeta.
  rewrite (@bindM_ok _ _ (alloc (OList [])) _ h (h ++ [OList []]) (length h))
    by reflexivity.
  cbv beta.
  repeat
    (rewrite (@bindM_ok _ _ _ _ _ _ _ (@load_dict_old h _ _ _ H)); cbv beta;
     unfold lift at 1; unfold bindM at 1;
     rewrite (@bindM_ok _ _ _ _ _ _ _ (when_append _ _ _ _)); cbv beta).
  rewrite (@bindM_ok _ _ _ _ _ _ _ (list_sort_fresh _ _)).
  reflexivity.
Qed.

(** On a canonical frame every step of [calculate_daily_metrics] finds its
    columns: the function returns a table. *)
Lemma lookup_setitem_other (V : Type) (k k' : string) (v : V)
    (d : list (string * V)) :
  String.eqb k k' = false -> lookup k (setitem k' v d) = lookup k d.
Proof.
  intro E. induction d as [| [k0 v0] d IH]; simpl.
  - now rewrite E.
  - destruct (String.eqb k' k0) eqn:E0; simpl.
    + apply String.eqb_eq in E0. subst k0. now rewrite E.
    + now rewrite IH.
Qed.

Lemma manual_daily_metrics_total (d : DataFrame) :
  canonical_manual d = true ->
  exists daily, Manual.calculate_daily_metrics d = Ok daily.
Proof.
  unfold canonical_manual, funnel_columns. intro H. simpl in H.
  take_columns H. clear H.
  unfold Manual.calculate_daily_metrics, Manual.pct_col, Manual.ratio_col,
    Manual.ratio_col_noinf, getnum, setcol.
  repeat
    (cbn [bind columns];
     first [ rewrite lookup_setitem_other by reflexivity
           | match goal with
             | E : lookup _ (columns d) = Some _ |- _ => rewrite E
             end ]).
  cbn [bind]. eexists. reflexivity.
Qed.

Lemma pure_call_intro (run : M loc) (h : heap) (o : obj) :
  (forall h0, (forall l x, nth_error h l = Some x -> nth_error h0 l = Some x) ->
              run h0 = Ok (length h0, h0 ++ [o])) ->
  pure_call run h o.
Proof.
  intro H. exists (h ++ [o]), ((h ++ [o]) ++ [o]).
  split; (split; [| split]).
  - apply H. auto.
  - apply nth_error_last.
  - intros l x. apply nth_error_old.
  - apply H. intros l x. apply nth_error_old.
  - apply nth_error_last.
  - intros l x. apply nth_error_old.
Qed.

(** C9.  In a store [h] that holds a canonical frame at [df] and a metric
    set at [metrics], each of [calculate_metrics], [calculate_daily_metrics]
    and [get_recommendations] of [appmanual.py] returns a new object and
    leaves every object of the store, its argument included, as it was; run
    again on the same argument it returns an equal object.  The table of
    [calculate_daily_metrics] is the copy, not the frame it was given.
    [get_status] touches no object and its answer depends on its arguments
    only. *)
Theorem core_operations_pure (h : heap) (df metrics : loc) (d : DataFrame)
    (m : Metrics) (metric_name : string) (value : num) :
  nth_error h df = Some (OFrame d) ->
  canonical_manual d = true ->
  nth_error h metrics = Some (ODict m) ->
  (exists r,
      Manual.calculate_metrics d = Ok r /\
      pure_call (Store.calculate_metrics df) h (ODict r)) /\
  (exists daily,
      Manual.calculate_daily_metrics d = Ok daily /\
      pure_call (Store.calculate_daily_metrics df) h (OFrame daily)) /\
  Store.get_status metric_name value h
    = Ok (Manual.get_status metric_name value, h) /\
  (exists issues,
      Manual.get_recommendations m = Ok issues /\
      pure_call (Store.get_recommendations metrics) h (OList issues)).
Proof.
  intros Hdf Hcan Hm.
  destruct (manual_metrics_safe d Hcan) as (r & Hr & _).
  destruct (manual_daily_metrics_total d Hcan) as (daily & Hdaily).
  repeat split.
  - exists r. split; [exact Hr |].
    apply pure_call_intro. intros h0 Hold.
    rewrite (store_calculate_metrics h0 df (Hold _ _ Hdf)), Hr. reflexivity.
  - exists daily. split; [exact Hdaily |].
    apply pure_call_intro. intros h0 Hold.
    rewrite (store_calculate_daily_metrics h0 df (Hold _ _ Hdf)), Hdaily.
    reflexivity.
  - exists (sort_issues (triggered (manual_rules m))).
    split; [apply manual_recommendations |].
    apply pure_call_intro. intros h0 Hold.
    rewrite (store_get_recommendations h0 metrics (Hold _ _ Hm)),
      manual_recommendations.
    reflexivity.
Qed.

Lemma core_operations_pure_witness :
  nth_error sample_store 0%nat = Some (OFrame two_days) /\
  canonical_manual two_days = true /\
  nth_error sample_store 1%nat = Some (ODict weak_metrics) /\
  exists daily,
    Manual.calculate_daily_metrics two_days = Ok daily /\
    pure_call (Store.calculate_daily_metrics 0%nat) sample_store
      (OFrame daily).
Proof.
  split; [reflexivity |]. split; [reflexivity |]. split; [reflexivity |].
  exact (proj1 (proj2
           (@core_operations_pure sample_store 0%nat 1%nat two_days
              weak_metrics "CTR" (Fin 1) eq_refl eq_refl eq_refl))).
Defined.

(** C5.  For every metric set, [get_recommendations] of each of the three
    files returns its issues sorted by priority rank (CRITICAL 0, HIGH 1,
    MEDIUM 2); the issues of one rank stand in the order in which the rules
    are declared, so the output is the CRITICAL issues, then the HIGH ones,
    then the MEDIUM ones, each group in declaration order; every triggered
    rule contributes its one issue; when no rule is triggered the output is
    the empty list, returned as a result.  The output is a function of the
    metric set, and a second call on the same dict in a store returns an
    equal list. *)
Theorem recommendations_prioritized (m : Metrics) (r : Rev.Metrics) :
  (exists out,
      Manual.get_recommendations m = Ok out /\
      prioritized (manual_rules m) out /\
      forall h metrics,
        nth_error h metrics = Some (ODict m) ->
        pure_call (Store.get_recommendations metrics) h (OList out)) /\
  (exists out,
      Api.get_recommendations m = Ok out /\ prioritized (api_rules m) out) /\
  (exists out,
      Rev.get_recommendations r = Ok out /\ prioritized (rev_rules r) out).
Proof.
  repeat split.
  - eexists. split; [apply manual_recommendations |].
    split; [apply sort_issues_prioritized |].
    intros h metrics Hm. apply pure_call_intro. intros h0 Hold.
    rewrite (store_get_recommendations h0 metrics (Hold _ _ Hm)),
      manual_recommendations.
    reflexivity.
  - eexists. split;
      [apply api_recommendations | apply sort_issues_prioritized].
  - eexists. split;
      [apply rev_recommendations | apply sort_issues_prioritized].
Qed.

(** The order of the revenue-aware file when every rule is triggered:
    checkout rate and ROAS (CRITICAL), landing-page views and ACoS (HIGH),
    click-through rate (MEDIUM). *)
Example all_rules_triggered :
  option_map (map metric)
    (match Rev.get_recommendations
             (Rev.mkMetrics (Fin 0) (Fin 0) (Fin 0) (Fin 0) (Fin 0) (Fin 0)
                (Fin 0) (Fin 0) (Fin 0) (Fin 30) (Fin 0)
                (Rev.mkTotals (Fin 0) (Fin 0) (Fin 0) (Fin 0) (Fin 0)
                   (Fin 0) (Fin 0) (Fin 0)))
     with Ok out => Some out | Raise _ => None end)
  = Some [ "Checkout Rate"; "ROAS (Return on Ad Spend)";
           "Landing Page View Rate"; "ACoS (Advertising Cost of Sales)";
           "Click-Through Rate" ].
Proof. reflexivity. Qed.

(** ** Frequency *)






(** ** The loop over actions *)

(** The loop from any row: each field is overwritten by the entries that
    the chain sends to it. *)
Lemma fold_action_step (actions : list Action) (row : Funnel) :
  fold_left action_step actions row
  = mkFunnel
      (fold_left
         (fun acc a => if is_lp_view (action_type a) then value a else acc)
         actions (lp_views row))
      (fold_left
         (fun acc a =>
            if takes_add_to_cart (action_type a) then value a else acc)
         actions (adds_to_cart row))
      (fold_left
         (fun acc a =>
            if takes_checkout (action_type a) then value a else acc)
         actions (checkouts row))
      (fold_left
         (fun acc a =>
            if takes_purchase (action_type a) then value a else acc)
         actions (purchases row)).
Proof.
  revert row. induction actions as [| a actions IH]; intro row.
  - now destruct row.
  - cbn [fold_left]. rewrite IH. unfold action_step.
    unfold takes_add_to_cart, takes_checkout, takes_purchase,
      is_lp_view, is_add_to_cart, is_checkout, is_purchase.
    destruct (contains "landing_page_view" (action_type a));
      [reflexivity |].
    destruct (contains "add_to_cart" (action_type a)
              || String.eqb (action_type a)
                   "offsite_conversion.fb_pixel_add_to_cart");
      [reflexivity |].
    destruct (contains "initiate_checkout" (action_type a)
              || String.eqb (action_type a)
                   "offsite_conversion.fb_pixel_initiate_checkout");
      [reflexivity |].
    destruct (contains "purchase" (action_type a)
              || String.eqb (action_type a)
                   "offsite_conversion.fb_pixel_purchase");
      reflexivity.
Qed.

Lemma last_value_snoc (test : string -> bool) (actions : list Action)
    (a : Action) :
  last_value test (actions ++ [a])
  = if test (action_type a) then value a else last_value test actions.
Proof. unfold last_value. now rewrite fold_left_app. Qed.

(** C10, as the code has it.  In the row of an insight record each funnel
    field is the value of the last entry of [actions] that the [if]/[elif]
    chain sends to that field, and 0 when there is none: an entry goes to
    the first of the tests landing-page view, add to cart, initiate
    checkout, purchase that its type passes.  A later entry of a field
    replaces the earlier one; nothing is added up.  An entry whose type
    contains ["purchase"] and passes none of the three earlier tests sets
    [purchases]. *)
Theorem funnel_fields_last_taken (actions : list Action) :
  let row := extract_actions actions in
  lp_views row = last_value is_lp_view actions /\
  adds_to_cart row = last_value takes_add_to_cart actions /\
  checkouts row = last_value takes_checkout actions /\
  purchases row = last_value takes_purchase actions /\
  (forall a,
      contains "purchase" (action_type a) = true ->
      is_lp_view (action_type a) = false ->
      is_add_to_cart (action_type a) = false ->
      is_checkout (action_type a) = false ->
      purchases (extract_actions (actions ++ [a])) = value a) /\
  (forall a b,
      takes_purchase (action_type a) = true ->
      takes_purchase (action_type b) = true ->
      purchases (extract_actions (actions ++ [a; b])) = value b).
Proof.
  cbv zeta. unfold extract_actions.
  repeat split; try (rewrite fold_action_step; reflexivity).
  - intros a Hp Hl Ha Hc.
    rewrite fold_action_step. cbn [purchases].
    change (last_value takes_purchase (actions ++ [a]) = value a).
    rewrite last_value_snoc. unfold takes_purchase, is_purchase.
    now rewrite Hl, Ha, Hc, Hp.
  - intros a b Ha Hb.
    rewrite fold_action_step. cbn [purchases].
    change (last_value takes_purchase (actions ++ [a; b]) = value b).
    change [a; b] with ([a] ++ [b]).
    rewrite app_assoc, last_value_snoc. now rewrite Hb.
Qed.

(** C10, as it is stated, fails: of two entries that contain ["purchase"],
    the last one also contains ["add_to_cart"]; the chain sends it to
    [adds_to_cart], and [purchases] keeps the value of the first. *)
Lemma purchase_substring_not_enough :
  contains "purchase" "add_to_cart_purchase" = true /\
  last_value is_purchase mixed_actions = 9%Z /\
  purchases (extract_actions mixed_actions) = 4%Z /\
  adds_to_cart (extract_actions mixed_actions) = 9%Z.
Proof. repeat split. Qed.

(** The action types of the code's own vocabulary go where the claim says:
    the tests do not overlap on them. *)
Example vocabulary_actions :
  extract_actions
    [ mkAction "landing_page_view" 45;
      mkAction "omni_purchase" 3;
      mkAction "offsite_conversion.fb_pixel_add_to_cart" 10;
      mkAction "initiate_checkout" 7;
      mkAction "link_click" 50;
      mkAction "purchase" 4 ]
  = mkFunnel 45 10 7 4.
Proof. reflexivity. Qed.

(** ** The spreadsheet normaliser *)

Import Normalizer.

Lemma lower_cols_text (cols : list label) (acc : list (string * string)) :
  forallb is_str cols = true -> exists lc, lower_cols cols acc = Ok lc.
Proof.
  revert acc. induction cols as [| [s | q | t] cols IH]; intros acc H;
    simpl in *; try discriminate; eauto.
Qed.

(** On a header row of text, a sheet whose date column does not resolve is
    answered [(None, [])], and a sheet whose date column resolves while a
    required field does not is answered [None] with the notes of the
    sheet. *)
Lemma clean_sheet_rejects_unresolved (pd : Pandas)
    (raw_df : list (list cell)) (sheet_name : string) :
  let df := read_excel raw_df (detect_header_row pd raw_df) in
  forallb is_str (labels df) = true ->
  exists col_map,
    normalize_columns df = Ok col_map /\
    (lookup "date" col_map = None ->
     clean_sheet pd raw_df sheet_name = Ok (None, [])) /\
    (forall date_col,
        lookup "date" col_map = Some date_col ->
        forallb (fun r => has_key r col_map) required = false ->
        clean_sheet pd raw_df sheet_name
        = Ok (None, snd (split_data_and_notes pd df date_col))).
Proof.
  intros df Hs.
  destruct (lower_cols_text (labels df) [] Hs) as [lc Hlc].
  unfold normalize_columns. rewrite Hlc. cbn [bind].
  eexists. split; [reflexivity |].
  unfold clean_sheet. fold df. unfold normalize_columns.
  rewrite Hlc. cbn [bind].
  split.
  - intros ->. reflexivity.
  - intros date_col -> Hreq.
    destruct (split_data_and_notes pd df date_col) as [df_data notes].
    now rewrite Hreq.
Qed.

(** C7.  A sheet whose header row holds a number raises in
    [normalize_columns], at [c.lower()], whatever the conversions of pandas
    are: [clean_sheet] returns nothing, although the date column resolves
    on that sheet and the required field [clicks] does not, the case in
    which the sheet is to be rejected with its notes.  The same happens on a
    sheet on which no date column resolves.  [detect_header_row] and
    [split_data_and_notes] convert a cell with [str] before they treat it as
    text; [normalize_columns] does not. *)
Theorem number_in_header_raises (pd : Pandas) (sheet_name : string) :
  resolves "date" (hd [] sheet_with_number_header) = true /\
  resolves "clicks" (hd [] sheet_with_number_header) = false /\
  clean_sheet pd sheet_with_number_header sheet_name
    = Raise (AttributeError "lower") /\
  resolves "date" (hd [] sheet_without_day) = false /\
  clean_sheet plain_pandas sheet_without_day sheet_name
    = Raise (AttributeError "lower").
Proof. repeat split. Qed.

(** C8.  The sheet with the header row "Day, Impressions, Link clicks,
    Landing page views, Adds to cart, Checkouts initiated, Amount spent,
    Results" and the one data row (2024-01-01, 1000, 50, 45, 10, 7, 500, 4),
    whose first cell [day] pandas reads as the date [t]: [clean_sheet]
    returns a table of exactly one row, with impressions 1000, clicks 50,
    lp_views 45, adds_to_cart 10, checkouts 7, spend 500 and purchases 4,
    and an empty list of notes. *)
Theorem one_day_sheet_round_trip (pd : Pandas) (day : cell) (t : Z)
    (sheet_name : string) :
  to_datetime pd day = Some (Some t) ->
  detect_header_row pd (one_day_sheet day) = 0%nat /\
  normalize_columns (read_excel (one_day_sheet day) 0)
  = Ok [ ("date", "Day"); ("impressions", "Impressions");
         ("clicks", "Link clicks"); ("lp_views", "Landing page views");
         ("adds_to_cart", "Adds to cart");
         ("checkouts", "Checkouts initiated"); ("spend", "Amount spent");
         ("purchases", "Results") ] /\
  clean_sheet pd (one_day_sheet day) sheet_name
  = Ok (Some
          (mkDF 1
             [ ("date", DateCol [Some t]);
               ("impressions", NumCol [Fin 1000]);
               ("clicks", NumCol [Fin 50]);
               ("lp_views", NumCol [Fin 45]);
               ("adds_to_cart", NumCol [Fin 10]);
               ("checkouts", NumCol [Fin 7]);
               ("purchases", NumCol [Fin 4]);
               ("spend", NumCol [Fin 500]);
               ("product", ObjCol [sheet_name]) ]),
        []).
Proof.
  intro Hday.
  assert (Hh : detect_header_row pd (one_day_sheet day) = 0%nat)
    by reflexivity.
  split; [exact Hh |]. split; [reflexivity |].
  unfold clean_sheet. rewrite Hh.
  change (normalize_columns (read_excel (one_day_sheet day) 0))
    with (Ok [ ("date", "Day"); ("impressions", "Impressions");
               ("clicks", "Link clicks");
               ("lp_views", "Landing page views");
               ("adds_to_cart", "Adds to cart");
               ("checkouts", "Checkouts initiated");
               ("spend", "Amount spent"); ("purchases", "Results") ]).
  cbn [bind].
  change (lookup "date" _) with (Some "Day").
  cbv iota beta.
  assert (Hsplit :
            split_data_and_notes pd (read_excel (one_day_sheet day) 0) "Day"
            = (mkFrame (labels (read_excel (one_day_sheet day) 0))
                 [ day :: map CNum [1000; 50; 45; 10; 7; 500; 4]%Q ], [])).
  { unfold split_data_and_notes.
    change (body (read_excel (one_day_sheet day) 0))
      with [ day :: map CNum [1000; 50; 45; 10; 7; 500; 4]%Q ].
    cbn [split_rows].
    change (cell_of (read_excel (one_day_sheet day) 0) "Day"
              (day :: map CNum [1000; 50; 45; 10; 7; 500; 4]%Q))
      with day.
    rewrite Hday. reflexivity. }
  rewrite Hsplit.
  change (forallb _ required) with true.
  cbv iota beta. cbn [negb].
  change (column_of _ "Day") with (Ok [day]).
  cbn [bind]. unfold coerce_dates. cbn [map]. rewrite Hday.
  reflexivity.
Qed.

Lemma one_day_sheet_round_trip_witness :
  to_datetime plain_pandas (CText "2024-01-01") = Some (Some 20240101%Z) /\
  clean_sheet plain_pandas (one_day_sheet (CText "2024-01-01")) "Product A"
  = Ok (Some
          (mkDF 1
             [ ("date", DateCol [Some 20240101%Z]);
               ("impressions", NumCol [Fin 1000]);
               ("clicks", NumCol [Fin 50]);
               ("lp_views", NumCol [Fin 45]);
               ("adds_to_cart", NumCol [Fin 10]);
               ("checkouts", NumCol [Fin 7]);
               ("purchases", NumCol [Fin 4]);
               ("spend", NumCol [Fin 500]);
               ("product", ObjCol ["Product A"]) ]),
        []).
Proof.
  split; [reflexivity |].
  exact (proj2 (proj2
           (@one_day_sheet_round_trip plain_pandas (CText "2024-01-01")
              20240101%Z "Product A" eq_refl))).
Defined.

(** * Further properties *)

(** ** calculate_metrics of before_metrics_addition.py *)

(** What [calculate_metrics] of [before_metrics_addition.py] computes on a
    canonical frame, in terms of the column sums. *)
Lemma rev_metrics_formulas (df : DataFrame) :
  canonical_rev df = true ->
  exists i c l a k p s r f : Q,
    rev_column_totals df
    = Rev.mkTotals (Fin i) (Fin c) (Fin l) (Fin a) (Fin k) (Fin p) (Fin s)
        (Fin r) /\
    series_sum (values df "frequency") = Fin f /\
    Rev.calculate_metrics df
    = Ok (Rev.mkMetrics
            (pct (Fin c) (Fin i)) (pct (Fin l) (Fin c))
            (pct (Fin a) (Fin l)) (pct (Fin k) (Fin a))
            (pct (Fin p) (Fin k)) (pct (Fin p) (Fin c))
            (ratio (Fin s) (Fin c)) (ratio (Fin s) (Fin p))
            (ratio (Fin r) (Fin s)) (pct (Fin s) (Fin r))
            (if (0 <? nrows df)%nat
             then Fin (f / inject_Z (Z.of_nat (nrows df))) else n0)
            (Rev.mkTotals (Fin i) (Fin c) (Fin l) (Fin a) (Fin k) (Fin p)
               (Fin s) (Fin r))).
Proof.
  unfold canonical_rev, funnel_columns. intro H. simpl in H.
  take_columns H. clear H.
  assert (Ht : forall name l,
             lookup name (columns df) = Some (NumCol l) ->
             forallb is_finite l = true ->
             series_sum (values df name) = Fin (Qsum (rationals l)))
    by (intros; now apply values_total).
  unfold Rev.calculate_metrics, rev_column_totals.
  repeat match goal with
    | E : attr (df_sum df) _ = Ok _ |- _ => rewrite E; clear E
    end.
  repeat match goal with
    | E : lookup ?name (columns df) = Some (NumCol ?l),
      F : forallb is_finite ?l = true |- _ =>
        rewrite ?(Ht name l E F); revert E
    end.
  intros.
  do 9 eexists. split; [reflexivity |]. split; [reflexivity |].
  destruct (0 <? nrows df)%nat eqn:En; cbn [bind];
    rewrite ?(mean_finite _ _ En); reflexivity.
Qed.

Lemma ratio_pos (a b : Q) :
  (Fin b >? n0)%num = true -> ratio (Fin a) (Fin b) = Fin (a / b).
Proof.
  intro H. unfold ratio. rewrite H. simpl. now rewrite (pos_not_zero _ H).
Qed.

Lemma pct_pos (a b : Q) :
  (Fin b >? n0)%num = true -> pct (Fin a) (Fin b) = Fin (a / b * 100).
Proof.
  intro H. unfold pct. rewrite H. simpl. now rewrite (pos_not_zero _ H).
Qed.

Lemma pos_lt (b : Q) : (Fin b >? n0)%num = true -> (0 < b)%Q.
Proof. unfold ngt, n0. simpl. now rewrite Qltb_lt. Qed.

Lemma rev_exact_metrics_safe (df : DataFrame) :
  canonical_rev df = true ->
  exists m,
    Rev.calculate_metrics df = Ok m /\
    Rev.totals m = rev_column_totals df /\
    rev_metrics_finite m = true /\
    rev_zero_when_denominator_nonpositive df m.
Proof.
  intro H.
  destruct (rev_metrics_formulas df H)
    as (i & c & l & a & k & p & s & r & f & Ht & _ & Hm).
  eexists. split; [exact Hm |].
  unfold rev_zero_when_denominator_nonpositive, rev_metrics_finite.
  rewrite Ht.
  cbn [Rev.totals Rev.CTR Rev.LP_View_Rate Rev.ATC_Rate Rev.Checkout_Rate
       Rev.Purchase_Rate Rev.Overall_CVR Rev.CPC Rev.CPA Rev.ROAS Rev.ACoS
       Rev.Frequency Rev.t_impressions Rev.t_clicks Rev.t_lp_views
       Rev.t_adds_to_cart Rev.t_checkouts Rev.t_purchases Rev.t_spend
       Rev.t_revenue].
  split; [reflexivity |].
  split.
  { repeat (apply andb_true_iff; split); try finite_value.
    destruct (0 <? nrows df)%nat; reflexivity. }
  repeat split; try intro Hle;
    first [ now apply pct_zero | now apply ratio_zero | idtac ].
  rewrite Hle. reflexivity.
Qed.

(** X1.  On every canonical frame of [before_metrics_addition.py] whose
    values are in range (each value of a column that is read, revenue
    included, is 0 or at least 2^-53, and each such column adds up to at
    most 2^53), the empty frame included, [calculate_metrics], with int64
    sums that wrap around and float64 results that overflow, returns a
    metric set whose values are all finite; a ratio whose denominator is at
    most 0 is 0, ROAS on spend and ACoS on revenue included. *)
Theorem rev_metrics_safe (df : Machine.Frame) :
  canonical_rev (Machine.untyped df) = true ->
  in_range_rev (Machine.untyped df) = true ->
  exists m,
    MachineRev.calculate_metrics df = Ok m /\
    rev_metrics_finite m = true /\
    rev_zero_when_denominator_nonpositive (Machine.untyped df) m.
Proof.
  intros Hc Hr. rewrite (@machine_rev_exact df Hc Hr).
  destruct (@rev_exact_metrics_safe _ Hc) as (m & Hm & _ & Hf & Hz).
  exists m. split; [exact Hm | split; [exact Hf | exact Hz]].
Qed.

Lemma rev_metrics_safe_witness :
  canonical_rev (Machine.untyped revenue_scenario_typed) = true /\
  in_range_rev (Machine.untyped revenue_scenario_typed) = true /\
  exists m,
    MachineRev.calculate_metrics revenue_scenario_typed = Ok m /\
    rev_metrics_finite m = true /\
    rev_zero_when_denominator_nonpositive
      (Machine.untyped revenue_scenario_typed) m.
Proof.
  split; [reflexivity |]. split; [reflexivity |].
  exact (@rev_metrics_safe revenue_scenario_typed eq_refl eq_refl).
Defined.

(** ** calculate_metrics of appmanual.py and app.py: formulas *)

(** What the two files compute on a canonical frame, in terms of the
    column sums; they differ in [Frequency]. *)
Lemma metrics_formulas (f : file) (df : DataFrame) :
  canonical_of f df = true ->
  exists (i c l a k p s : Q) (fr : num),
    column_totals df
    = mkTotals (Fin i) (Fin c) (Fin l) (Fin a) (Fin k) (Fin p) (Fin s) /\
    calculate_metrics_of f df
    = Ok (mkMetrics
            (pct (Fin c) (Fin i)) (pct (Fin l) (Fin c))
            (pct (Fin a) (Fin l)) (pct (Fin k) (Fin a))
            (pct (Fin p) (Fin k)) (pct (Fin p) (Fin c))
            (ratio (Fin s) (Fin c)) (ratio (Fin s) (Fin p))
            (ratio (Fin (p * 500)) (Fin s)) fr
            (mkTotals (Fin i) (Fin c) (Fin l) (Fin a) (Fin k) (Fin p)
               (Fin s))) /\
    match f with
    | appmanual_py => fr = ratio (Fin i) (Fin c)
    | app_py =>
        exists q,
          series_sum (values df "frequency") = Fin q /\
          fr = if (0 <? nrows df)%nat
               then Fin (q / inject_Z (Z.of_nat (nrows df))) else n0
    end.
Proof.
  assert (Ht : forall name l,
             lookup name (columns df) = Some (NumCol l) ->
             forallb is_finite l = true ->
             series_sum (values df name) = Fin (Qsum (rationals l)))
    by (intros; now apply values_total).
  destruct f; simpl canonical_of; simpl calculate_metrics_of;
    unfold canonical_manual, canonical_api, funnel_columns; intro H;
    simpl in H; take_columns H; clear H;
    unfold Manual.calculate_metrics, Api.calculate_metrics, column_totals;
    repeat match goal with
      | E : attr (df_sum df) _ = Ok _ |- _ => rewrite E; clear E
      end;
    repeat match goal with
      | E : lookup ?name (columns df) = Some (NumCol ?l),
        F : forallb is_finite ?l = true |- _ =>
          rewrite ?(Ht name l E F); revert E
      end;
    intros.
  - do 8 eexists. split; [reflexivity |]. split; reflexivity.
  - do 8 eexists. split; [reflexivity |].
    split; [| eexists; split; reflexivity].
    destruct (0 <? nrows df)%nat eqn:En; cbn [bind];
      rewrite ?(mean_finite _ _ En); reflexivity.
Qed.

Lemma series_sum_nonnegative (l : list num) (q : Q) :
  forallb (fun x => (n0 <=? x)%num) l = true ->
  series_sum l = Fin q -> (0 <= q)%Q.
Proof.
  revert q. induction l as [| x l IH]; simpl; intros q H E.
  - injection E as <-. apply Qle_refl.
  - apply andb_true_iff in H. destruct H as [Hx Hl].
    destruct x as [a | | |]; simpl in *; try discriminate.
    + destruct (series_sum l) as [s | | |]; simpl in E; try discriminate.
      injection E as <-. apply Qle_bool_iff in Hx.
      specialize (IH s Hl eq_refl).
      rewrite <- (Qplus_0_r 0). now apply Qplus_le_compat.
    + destruct (series_sum l); simpl in E; discriminate.
Qed.

Lemma Qdiv_nonnegative (a b : Q) : (0 <= a)%Q -> (0 < b)%Q -> (0 <= a / b)%Q.
Proof.
  intros Ha Hb. unfold Qdiv. apply Qmult_le_0_compat; [exact Ha |].
  apply Qlt_le_weak. now apply Qinv_lt_0_compat.
Qed.

Lemma pct_nonnegative (a b : Q) :
  (0 <= a)%Q -> (n0 <=? pct (Fin a) (Fin b))%num = true.
Proof.
  intro Ha. unfold pct. destruct (Fin b >? n0)%num eqn:E; [| reflexivity].
  change (pct (Fin a) (Fin b)) with (pct (Fin a) (Fin b)).
  simpl. rewrite (pos_not_zero _ E). simpl. apply Qle_bool_iff.
  apply Qmult_le_0_compat; [| discriminate].
  apply Qdiv_nonnegative; [exact Ha | now apply pos_lt].
Qed.

Lemma ratio_nonnegative (a b : Q) :
  (0 <= a)%Q -> (n0 <=? ratio (Fin a) (Fin b))%num = true.
Proof.
  intro Ha. unfold ratio. destruct (Fin b >? n0)%num eqn:E; [| reflexivity].
  simpl. rewrite (pos_not_zero _ E). simpl. apply Qle_bool_iff.
  apply Qdiv_nonnegative; [exact Ha | now apply pos_lt].
Qed.

Lemma in_range_nonnegative (df : DataFrame) (name : string) :
  in_range_column df name = true -> nonnegative_column df name = true.
Proof.
  unfold in_range_column, nonnegative_column, values.
  destruct (lookup name (columns df)) as [[l | |] |]; try discriminate.
  intro H. apply andb_true_iff in H. destruct H as [H _].
  induction l as [| x l IH]; [reflexivity |].
  cbn [forallb] in *. apply andb_true_iff in H. destruct H as [Hx Hl].
  rewrite (IH Hl), andb_true_r.
  destruct x as [q | | |]; try discriminate.
  cbn [in_range_value] in Hx. apply orb_true_iff in Hx.
  unfold nle, n0. apply Qle_bool_iff.
  destruct Hx as [Hq | Hq].
  - apply Qeq_bool_iff in Hq. rewrite Hq. apply Qle_refl.
  - apply Qle_bool_iff in Hq. apply Qlt_le_weak. now apply tiny_positive.
Qed.

Lemma exact_ratios_nonnegative (f : file) (df : DataFrame) :
  canonical_of f df = true ->
  forallb (nonnegative_column df)
    (funnel_columns
     ++ match f with appmanual_py => [] | app_py => ["frequency"] end)
  = true ->
  exists m,
    calculate_metrics_of f df = Ok m /\ metrics_nonnegative m = true.
Proof.
  intros H Hn.
  destruct (metrics_formulas f df H)
    as (i & c & l & a & k & p & s & fr & Ht & Hm & Hfr).
  eexists. split; [exact Hm |].
  unfold column_totals in Ht. injection Ht as Hi Hc Hl Ha Hk Hp Hs.
  assert (Hfn : match f with
                | appmanual_py => True
                | app_py =>
                    forallb (fun x => (n0 <=? x)%num)
                      (values df "frequency") = true
                end).
  { destruct f; [exact I |].
    unfold funnel_columns in Hn. cbn [List.app forallb] in Hn.
    repeat (apply andb_true_iff in Hn; destruct Hn as [? Hn]).
    assumption. }
  assert (Hn' : forallb (nonnegative_column df) funnel_columns = true).
  { rewrite forallb_app in Hn. apply andb_true_iff in Hn. apply Hn. }
  clear Hn. unfold funnel_columns in Hn'. cbn [forallb] in Hn'.
  repeat (apply andb_true_iff in Hn'; destruct Hn' as [? Hn']).
  unfold nonnegative_column in *.
  repeat match goal with
    | Hnn : forallb _ (values df ?n) = true,
      Hsum : series_sum (values df ?n) = Fin ?q |- _ =>
        pose proof (@series_sum_nonnegative _ _ Hnn Hsum); clear Hsum
    end.
  unfold metrics_nonnegative.
  cbn [CTR LP_View_Rate ATC_Rate Checkout_Rate Purchase_Rate Overall_CVR
       CPC CPA ROAS Frequency].
  repeat (apply andb_true_iff; split);
    try (apply pct_nonnegative; assumption);
    try (apply ratio_nonnegative; assumption).
  - apply ratio_nonnegative.
    apply Qmult_le_0_compat; [assumption | discriminate].
  - destruct f.
    + subst fr. now apply ratio_nonnegative.
    + destruct Hfr as (q & Hq & ->). cbv beta iota in Hfn.
      destruct (0 <? nrows df)%nat eqn:En; [| reflexivity].
      simpl. apply Qle_bool_iff. apply Qdiv_nonnegative.
      * exact (@series_sum_nonnegative _ _ Hfn Hq).
      * apply Nat.ltb_lt in En. unfold Qlt. simpl. lia.
Qed.

(** X5.  On a canonical frame whose values are in range (each value of a
    column that is read is 0 or at least 2^-53, and each such column adds up
    to at most 2^53), no ratio that [calculate_metrics] of [appmanual.py]
    or of [app.py] returns is negative.  Nothing bounds a rate by 100. *)
Theorem ratios_nonnegative (f : file) (df : Machine.Frame) :
  canonical_of f (Machine.untyped df) = true ->
  in_range f (Machine.untyped df) = true ->
  exists m,
    machine_calculate_metrics_of f df = Ok m /\
    metrics_nonnegative m = true.
Proof.
  intros Hc Hr. rewrite (@machine_exact f df Hc Hr).
  apply exact_ratios_nonnegative; [exact Hc |].
  unfold in_range in Hr. rewrite forallb_forall in *.
  intros name Hin. apply in_range_nonnegative. now apply Hr.
Qed.

Lemma ratios_nonnegative_witness :
  canonical_of app_py (Machine.untyped two_days_typed) = true /\
  in_range app_py (Machine.untyped two_days_typed) = true /\
  exists m,
    machine_calculate_metrics_of app_py two_days_typed = Ok m /\
    metrics_nonnegative m = true.
Proof.
  split; [reflexivity |]. split; [reflexivity |].
  exact (@ratios_nonnegative app_py two_days_typed eq_refl eq_refl).
Defined.

(** ** calculate_daily_metrics: the table it returns *)

Lemma lookup_setitem_same (V : Type) (k : string) (v : V)
    (d : list (string * V)) :
  lookup k (setitem k v d) = Some v.
Proof.
  induction d as [| [k0 v0] d IH]; simpl.
  - now rewrite String.eqb_refl.
  - destruct (String.eqb k k0) eqn:E; simpl; now rewrite E.
Qed.

(** On a canonical frame the table is the frame with the nine columns
    assigned in order, each computed from the columns of the frame. *)
Lemma manual_daily_metrics_explicit (df : DataFrame) :
  canonical_manual df = true ->
  Manual.calculate_daily_metrics df
  = Ok (fold_left (assign_entry df) manual_daily_table df).
Proof.
  unfold canonical_manual, funnel_columns. intro H. simpl in H.
  take_columns H. clear H.
  unfold Manual.calculate_daily_metrics, Manual.pct_col, Manual.ratio_col,
    Manual.ratio_col_noinf, getnum, setcol.
  cbn [fold_left manual_daily_table assign_entry daily_series].
  unfold setcol, values.
  repeat
    (cbn [bind columns];
     first [ rewrite lookup_setitem_other by reflexivity
           | match goal with
             | E : lookup _ (columns df) = Some _ |- _ => rewrite E
             end ]).
  reflexivity.
Qed.

Lemma zip_with_length (f : num -> num -> num) (x y : list num) (n : nat) :
  length x = n -> length y = n -> length (zip_with f x y) = n.
Proof.
  revert y n. induction x as [| a x IH]; intros [| b y] n Hx Hy;
    simpl in *; try congruence.
  destruct n; [discriminate |]. f_equal. apply IH; congruence.
Qed.

Lemma zip_with_nth (f : num -> num -> num) (x y : list num) (i : nat)
    (d : num) :
  (i < length x)%nat -> (i < length y)%nat ->
  nth i (zip_with f x y) d = f (nth i x n0) (nth i y n0).
Proof.
  revert y i. induction x as [| a x IH]; intros [| b y] [| i] Hx Hy;
    simpl in *; try lia; [reflexivity |].
  apply IH; lia.
Qed.

Lemma map_nth_in (f : num -> num) (l : list num) (i : nat) (d d' : num) :
  (i < length l)%nat -> nth i (map f l) d = f (nth i l d').
Proof.
  revert i. induction l as [| a l IH]; intros [| i] H; simpl in *;
    try lia; [reflexivity |].
  apply IH. lia.
Qed.

Lemma daily_series_length (sh : shape) (x y : list num) (n : nat) :
  length x = n -> length y = n -> length (daily_series sh x y) = n.
Proof.
  intros Hx Hy.
  destruct sh; unfold daily_series, fillna, replace_inf, smul_scalar, sdiv;
    rewrite ?length_map; now apply zip_with_length.
Qed.

Lemma fillna_not_nan (l : list num) : forallb not_nan (fillna n0 l) = true.
Proof.
  induction l as [| [q | | |] l IH]; simpl; auto.
Qed.

Lemma replace_inf_not_nan (l : list num) :
  forallb not_nan l = true -> forallb not_nan (replace_inf n0 l) = true.
Proof.
  induction l as [| [q | | |] l IH]; simpl; auto; discriminate.
Qed.

Lemma replace_inf_not_pinf (l : list num) :
  forallb not_pinf (replace_inf n0 l) = true.
Proof.
  induction l as [| [q | | |] l IH]; simpl; auto.
Qed.

Lemma daily_series_not_nan (sh : shape) (x y : list num) :
  forallb not_nan (daily_series sh x y) = true.
Proof.
  destruct sh; simpl;
    first [ apply fillna_not_nan
          | apply replace_inf_not_nan, fillna_not_nan ].
Qed.

Lemma canonical_values (df : DataFrame) (c : string) :
  canonical_manual df = true -> In c funnel_columns ->
  length (values df c) = nrows df /\
  forallb is_finite (values df c) = true.
Proof.
  unfold canonical_manual. rewrite forallb_forall. intros H Hc.
  specialize (H c Hc). unfold numeric_column, values in *.
  destruct (lookup c (columns df)) as [[l | |] |]; try discriminate.
  apply andb_true_iff in H. destruct H as [Hl Hf].
  apply Nat.eqb_eq in Hl. now split.
Qed.

Lemma daily_table_sources (name : string) (sh : shape) (a b : string) :
  In (name, sh, a, b) manual_daily_table ->
  In a funnel_columns /\ In b funnel_columns.
Proof.
  unfold manual_daily_table, funnel_columns. simpl.
  intros H;
    repeat (destruct H as [H | H];
            [injection H as <- <- <- <-; simpl; tauto |]).
  contradiction.
Qed.

Lemma daily_table_lookup (df : DataFrame) (name : string) (sh : shape)
    (a b : string) :
  In (name, sh, a, b) manual_daily_table ->
  lookup name (columns (fold_left (assign_entry df) manual_daily_table df))
  = Some (NumCol (daily_series sh (values df a) (values df b))).
Proof.
  unfold manual_daily_table. simpl In.
  intros H;
    repeat (destruct H as [H | H];
            [ injection H as <- <- <- <-;
              cbn [fold_left assign_entry]; unfold setcol; cbn [columns];
              repeat rewrite lookup_setitem_other by reflexivity;
              apply lookup_setitem_same |]).
  contradiction.
Qed.

(** The name of the column that an entry assigns. *)
Lemma daily_table_other (df : DataFrame) (name : string) :
  existsb (fun e => String.eqb name (fst (fst (fst e)))) manual_daily_table
  = false ->
  lookup name (columns (fold_left (assign_entry df) manual_daily_table df))
  = lookup name (columns df).
Proof.
  unfold manual_daily_table. cbn [existsb fst]. intro H.
  repeat (apply orb_false_iff in H; destruct H as [? H]).
  cbn [fold_left assign_entry]. unfold setcol. cbn [columns].
  repeat rewrite lookup_setitem_other by assumption.
  reflexivity.
Qed.

(** X6.  On a canonical frame [calculate_daily_metrics] of [appmanual.py]
    returns a table with the rows of the frame: every column of the frame
    other than the nine metric names is in it unchanged; each of the nine
    metric columns has one value per row and holds no NaN; and the [CPA]
    column holds no [+Infinity]. *)
Theorem daily_table_keeps_frame (df : DataFrame) :
  canonical_manual df = true ->
  exists daily,
    Manual.calculate_daily_metrics df = Ok daily /\
    nrows daily = nrows df /\
    (forall name,
        existsb (fun e => String.eqb name (fst (fst (fst e))))
          manual_daily_table = false ->
        lookup name (columns daily) = lookup name (columns df)) /\
    (forall name sh a b,
        In (name, sh, a, b) manual_daily_table ->
        exists col,
          lookup name (columns daily) = Some (NumCol col) /\
          length col = nrows df /\
          forallb not_nan col = true /\
          (sh = RatioNoInf -> forallb not_pinf col = true)).
Proof.
  intro H. eexists. split; [now apply manual_daily_metrics_explicit |].
  split; [reflexivity |]. split; [apply daily_table_other |].
  intros name sh a b Hin. eexists.
  split; [exact (@daily_table_lookup df name sh a b Hin) |].
  destruct (@daily_table_sources name sh a b Hin) as [Ha Hb].
  destruct (@canonical_values df a H Ha) as [La _].
  destruct (@canonical_values df b H Hb) as [Lb _].
  split; [now apply daily_series_length |].
  split; [apply daily_series_not_nan |].
  intros ->. apply replace_inf_not_pinf.
Qed.

Lemma daily_table_keeps_frame_witness :
  canonical_manual day_without_clicks = true /\
  exists daily,
    Manual.calculate_daily_metrics day_without_clicks = Ok daily /\
    nrows daily = nrows day_without_clicks.
Proof.
  split; [reflexivity |].
  destruct (@daily_table_keeps_frame day_without_clicks eq_refl)
    as (daily & Hd & Hn & _).
  exists daily. split; assumption.
Defined.

(** ** calculate_daily_metrics: one day *)


Lemma daily_series_nth (sh : shape) (x y : list num) (n i : nat) :
  length x = n -> length y = n -> (i < n)%nat ->
  nth i (daily_series sh x y) n0 = daily_cell sh (nth i x n0) (nth i y n0).
Proof.
  intros Hx Hy Hi.
  assert (Hz : (i < length (sdiv x y))%nat)
    by (unfold sdiv; rewrite (@zip_with_length ndiv x y n Hx Hy); exact Hi).
  assert (Hn : nth i (sdiv x y) n0 = (nth i x n0 / nth i y n0)%num)
    by (apply zip_with_nth; lia).
  destruct sh; unfold daily_series, daily_cell, fillna, replace_inf,
    smul_scalar.
  - rewrite (@map_nth_in _ _ i n0 n0) by (rewrite length_map; exact Hz).
    rewrite (@map_nth_in _ _ i n0 n0) by exact Hz.
    rewrite Hn; reflexivity.
  - rewrite (@map_nth_in _ _ i n0 n0) by exact Hz. rewrite Hn; reflexivity.
  - rewrite (@map_nth_in _ _ i n0 n0) by (rewrite length_map; exact Hz).
    rewrite (@map_nth_in _ _ i n0 n0) by exact Hz.
    rewrite Hn.
    destruct (nth i x n0 / nth i y n0)%num; reflexivity.
Qed.

Lemma finite_nth (l : list num) (i : nat) :
  forallb is_finite l = true -> exists q, nth i l n0 = Fin q.
Proof.
  revert i. induction l as [| x l IH]; intros i H.
  - destruct i; simpl; unfold n0; eauto.
  - simpl in H. apply andb_true_iff in H. destruct H as [Hx Hl].
    destruct i; simpl; [| now apply IH].
    destruct x; try discriminate. eauto.
Qed.

(** Where the denominator is positive, or numerator and denominator are
    both 0, the element is the guarded ratio of [calculate_metrics]. *)
Lemma daily_cell_guarded (sh : shape) (a b : Q) :
  (Fin b >? n0)%num = true \/ ((a == 0)%Q /\ (b == 0)%Q) ->
  daily_cell sh (Fin a) (Fin b) = guarded sh (Fin a) (Fin b).
Proof.
  intros [Hb | [Ha Hb]].
  - destruct sh; unfold daily_cell, guarded;
      rewrite ?(pct_pos _ _ Hb), ?(ratio_pos _ _ Hb);
      simpl; rewrite (pos_not_zero _ Hb); reflexivity.
  - assert (Eb : Qeq_bool b 0 = true) by now apply Qeq_bool_iff.
    assert (Ea : (a ?= 0)%Q = Eq) by now apply Qeq_alt.
    assert (Hg : (Fin b >? n0)%num = false).
    { unfold ngt, n0. simpl. unfold Qltb.
      replace (Qle_bool b 0) with true; [reflexivity |].
      symmetry. apply Qle_bool_iff. rewrite Hb. apply Qle_refl. }
    destruct sh; unfold daily_cell, guarded, pct, ratio; rewrite Hg;
      simpl; rewrite Eb, Ea; reflexivity.
Qed.

(** X7.  For a day of a canonical frame whose denominator is positive, or
    whose numerator and denominator are both 0, the value that
    [calculate_daily_metrics] of [appmanual.py] gives for each of its nine
    metrics is the one that [calculate_metrics] computes from that day alone. *)
Theorem daily_value_of_a_day (df : DataFrame) (name : string) (sh : shape)
    (a b : string) (i : nat) :
  canonical_manual df = true ->
  In (name, sh, a, b) manual_daily_table ->
  (i < nrows df)%nat ->
  let x := nth i (values df a) n0 in
  let y := nth i (values df b) n0 in
  (y >? n0)%num = true \/ (x =n= n0 /\ y =n= n0) ->
  exists daily,
    Manual.calculate_daily_metrics df = Ok daily /\
    nth i (values daily name) n0 = guarded sh x y.
Proof.
  intros H Hin Hi x y Hxy.
  eexists. split; [now apply manual_daily_metrics_explicit |].
  destruct (@daily_table_sources name sh a b Hin) as [Ha Hb].
  destruct (@canonical_values df a H Ha) as [La Fa].
  destruct (@canonical_values df b H Hb) as [Lb Fb].
  unfold values at 1. rewrite (@daily_table_lookup df name sh a b Hin).
  rewrite (@daily_series_nth sh _ _ (nrows df) i La Lb Hi).
  fold x y.
  destruct (@finite_nth (values df a) i Fa) as [qa Ea].
  destruct (@finite_nth (values df b) i Fb) as [qb Eb].
  fold x in Ea. fold y in Eb. rewrite Ea, Eb in *.
  apply daily_cell_guarded. exact Hxy.
Qed.

Lemma daily_value_of_a_day_witness :
  canonical_manual two_days = true /\
  In ("CTR", Pct, "clicks", "impressions") manual_daily_table /\
  (1 < nrows two_days)%nat /\
  exists daily,
    Manual.calculate_daily_metrics two_days = Ok daily /\
    nth 1 (values daily "CTR") n0 = pct (Fin 60) (Fin 4000).
Proof.
  split; [reflexivity |]. split; [now left |]. split; [repeat constructor |].
  exact (@daily_value_of_a_day two_days "CTR" Pct "clicks" "impressions"
           1%nat eq_refl (or_introl eq_refl) (le_n 2) (or_introl eq_refl)).
Defined.

(** ** The classifier across the files *)

Ltac benchmark_cases name H :=
  repeat match type of H with
    | context [String.eqb name ?k] =>
        let E := fresh "E" in
        destruct (String.eqb name k) eqn:E;
        [ apply String.eqb_eq in E; subst name | ]
    end.

Lemma emoji_of_status (b : Bench) (v : num) :
  (let status :=
     if (v >=? ideal b)%num then "excellent"
     else if (v >=? min_ b)%num then "good" else "critical" in
   if String.eqb status "excellent" then "✅"
   else if String.eqb status "good" then "⚠️" else "🚨")
  = (if (v >=? ideal b)%num then "✅"
     else if (v >=? min_ b)%num then "⚠️" else "🚨").
Proof.
  cbv zeta.
  destruct (v >=? ideal b)%num; [reflexivity |].
  destruct (v >=? min_ b)%num; reflexivity.
Qed.

(** X8.  For a metric of the benchmark table of [appmanual.py], the three
    files show the same emoji for the same value. For a metric that the table
    does not hold, [app.py] shows the white circle and [appmanual.py], whose
    [get_status_emoji] maps every status other than excellent and good to the
    siren, shows the siren of a critical metric. *)
Theorem status_emoji_across_files (name : string) (v : num) :
  (forall b,
      lookup name Manual.BENCHMARKS = Some b ->
      Manual.get_status_emoji name v = Api.get_status_emoji name v /\
      Rev.get_status_emoji name v = Api.get_status_emoji name v) /\
  (lookup name Manual.BENCHMARKS = None ->
   Manual.get_status name v = "neutral" /\
   Manual.get_status_emoji name v = "🚨" /\
   Api.get_status_emoji name v = "⚪").
Proof.
  split.
  - intros b Hb. split.
    + unfold Manual.get_status_emoji, Manual.get_status,
        Api.get_status_emoji, Api.BENCHMARKS.
      rewrite Hb. apply emoji_of_status.
    + unfold Manual.BENCHMARKS in Hb. cbn [lookup] in Hb.
      benchmark_cases name Hb; try reflexivity. discriminate.
  - intro Hn.
    unfold Manual.get_status_emoji, Manual.get_status,
      Api.get_status_emoji, Api.BENCHMARKS.
    rewrite Hn. repeat split.
Qed.

(** ** Recommendations and the classifier *)

Lemma in_triggered (rules : list (bool * Issue)) (x : Issue) :
  In x (triggered rules) <-> In (true, x) rules.
Proof.
  induction rules as [| [[|] y] rules IH]; simpl.
  - tauto.
  - rewrite IH. split; intros [H | H]; auto; left; congruence.
  - rewrite IH. split; [auto | intros [H | H]; [discriminate | auto]].
Qed.

Lemma in_sort_issues (l : list Issue) (x : Issue) :
  In x (sort_issues l) <-> In x l.
Proof.
  unfold sort_issues. split; apply Permutation_in.
  - apply sort_by_perm.
  - apply Permutation_sym, sort_by_perm.
Qed.

Lemma critical_below_min (lo hi : Q) (v : num) :
  (lo < hi)%Q -> isna v = false ->
  (if (v >=? Fin hi)%num then "excellent"
   else if (v >=? Fin lo)%num then "good" else "critical") = "critical"
  <-> (v <? Fin lo)%num = true.
Proof.
  intros Hlt Hv.
  assert (S1 : "excellent" <> "good") by discriminate.
  assert (S2 : "excellent" <> "critical") by discriminate.
  assert (S3 : "good" <> "critical") by discriminate.
  apply (bands_from_top S1 S2 S3 v Hlt Hv).
Qed.

Lemma siren_below_min (lo hi : Q) (v : num) :
  (lo < hi)%Q -> isna v = false ->
  (if (v >=? Fin hi)%num then "✅"
   else if (v >=? Fin lo)%num then "⚠️" else "🚨") = "🚨"
  <-> (v <? Fin lo)%num = true.
Proof.
  intros Hlt Hv.
  assert (E1 : "✅" <> "⚠️") by discriminate.
  assert (E2 : "✅" <> "🚨") by discriminate.
  assert (E3 : "⚠️" <> "🚨") by discriminate.
  apply (bands_from_top E1 E2 E3 v Hlt Hv).
Qed.

(** X9.  [get_recommendations] of [appmanual.py] reports a metric exactly when
    [get_status] calls its value critical: for a metric set whose checkout
    rate, landing-page view rate, purchase rate and click-through rate are
    numbers, the issue of each of the four is in the output if and only if its
    status is critical, it carries the value of the metric and the ideal bound
    as target, and the output holds nothing else. *)
Theorem recommendations_are_the_critical_metrics (m : Metrics) :
  isna (Checkout_Rate m) = false ->
  isna (LP_View_Rate m) = false ->
  isna (Purchase_Rate m) = false ->
  isna (CTR m) = false ->
  exists out,
    Manual.get_recommendations m = Ok out /\
    (In (Manual.checkout_issue (Checkout_Rate m) (Fin 75)) out <->
     Manual.get_status "Checkout_Rate" (Checkout_Rate m) = "critical") /\
    (In (Manual.lp_issue (LP_View_Rate m) (Fin 90)) out <->
     Manual.get_status "LP_View_Rate" (LP_View_Rate m) = "critical") /\
    (In (Manual.purchase_issue (Purchase_Rate m) (Fin 65)) out <->
     Manual.get_status "Purchase_Rate" (Purchase_Rate m) = "critical") /\
    (In (Manual.ctr_issue (CTR m) (Fin (15 # 10))) out <->
     Manual.get_status "CTR" (CTR m) = "critical") /\
    (forall x,
        In x out ->
        x = Manual.checkout_issue (Checkout_Rate m) (Fin 75) \/
        x = Manual.lp_issue (LP_View_Rate m) (Fin 90) \/
        x = Manual.purchase_issue (Purchase_Rate m) (Fin 65) \/
        x = Manual.ctr_issue (CTR m) (Fin (15 # 10))).
Proof.
  intros H1 H2 H3 H4.
  eexists. split; [apply manual_recommendations |].
  change (Manual.get_status "Checkout_Rate" (Checkout_Rate m))
    with (if (Checkout_Rate m >=? Fin 75)%num then "excellent"
          else if (Checkout_Rate m >=? Fin 60)%num then "good"
          else "critical").
  change (Manual.get_status "LP_View_Rate" (LP_View_Rate m))
    with (if (LP_View_Rate m >=? Fin 90)%num then "excellent"
          else if (LP_View_Rate m >=? Fin 80)%num then "good"
          else "critical").
  change (Manual.get_status "Purchase_Rate" (Purchase_Rate m))
    with (if (Purchase_Rate m >=? Fin 65)%num then "excellent"
          else if (Purchase_Rate m >=? Fin 50)%num then "good"
          else "critical").
  change (Manual.get_status "CTR" (CTR m))
    with (if (CTR m >=? Fin (15 # 10))%num then "excellent"
          else if (CTR m >=? Fin (9 # 10))%num then "good"
          else "critical").
  rewrite (@critical_below_min 60 75 _ eq_refl H1).
  rewrite (@critical_below_min 80 90 _ eq_refl H2).
  rewrite (@critical_below_min 50 65 _ eq_refl H3).
  rewrite (@critical_below_min (9 # 10) (15 # 10) _ eq_refl H4).
  setoid_rewrite in_sort_issues. setoid_rewrite in_triggered.
  unfold manual_rules, Manual.checkout_issue, Manual.lp_issue,
    Manual.purchase_issue, Manual.ctr_issue.
  cbn [In].
  repeat split; intros;
    repeat match goal with
      | H : _ \/ _ |- _ => destruct H
      | H : False |- _ => destruct H
      end;
    try congruence;
    try (match goal with H : _ = true |- _ => rewrite H end; tauto);
    match goal with
    | H : (_, _) = (true, _) |- _ => injection H as _ <-; tauto
    end.
Qed.

Lemma recommendations_are_the_critical_metrics_witness :
  isna (Checkout_Rate weak_metrics) = false /\
  exists out,
    Manual.get_recommendations weak_metrics = Ok out /\
    (In (Manual.checkout_issue (Checkout_Rate weak_metrics) (Fin 75)) out <->
     Manual.get_status "Checkout_Rate" (Checkout_Rate weak_metrics)
     = "critical").
Proof.
  split; [reflexivity |].
  destruct (@recommendations_are_the_critical_metrics weak_metrics
              eq_refl eq_refl eq_refl eq_refl) as (out & Ho & Hc & _).
  exists out. split; assumption.
Defined.

Lemma siren_above_ideal (v : num) :
  isna v = false ->
  (if (v <=? Fin 15)%num then "✅"
   else if (v <=? Fin 25)%num then "⚠️" else "🚨") = "🚨"
  <-> (v >? Fin 25)%num = true.
Proof.
  intro Hv.
  assert (E1 : "✅" <> "⚠️") by discriminate.
  assert (E2 : "✅" <> "🚨") by discriminate.
  assert (E3 : "⚠️" <> "🚨") by discriminate.
  assert (Hlt : (15 < 25)%Q) by reflexivity.
  apply (bands_from_bottom E1 E2 E3 v Hlt Hv).
Qed.

(** X10.  [get_recommendations] of [before_metrics_addition.py] reports a
    metric exactly when [get_status_emoji] shows the siren for it: for a
    metric set of numbers, the issue of the checkout rate, the landing-page
    view rate, the click-through rate, ROAS and ACoS is in the output if and
    only if the emoji of the metric is the siren. For ACoS the rule fires
    above the ideal bound 25, which is where the classifier turns critical. *)
Theorem rev_recommendations_are_the_sirens (m : Rev.Metrics) :
  isna (Rev.Checkout_Rate m) = false ->
  isna (Rev.LP_View_Rate m) = false ->
  isna (Rev.CTR m) = false ->
  isna (Rev.ROAS m) = false ->
  isna (Rev.ACoS m) = false ->
  exists out,
    Rev.get_recommendations m = Ok out /\
    (In (Rev.checkout_issue (Rev.Checkout_Rate m) (Fin 75)) out <->
     Rev.get_status_emoji "Checkout_Rate" (Rev.Checkout_Rate m) = "🚨") /\
    (In (Rev.lp_issue (Rev.LP_View_Rate m) (Fin 90)) out <->
     Rev.get_status_emoji "LP_View_Rate" (Rev.LP_View_Rate m) = "🚨") /\
    (In (Rev.ctr_issue (Rev.CTR m) (Fin (15 # 10))) out <->
     Rev.get_status_emoji "CTR" (Rev.CTR m) = "🚨") /\
    (In (Rev.roas_issue (Rev.ROAS m) (Fin 4)) out <->
     Rev.get_status_emoji "ROAS" (Rev.ROAS m) = "🚨") /\
    (In (Rev.acos_issue (Rev.ACoS m) (Fin 25)) out <->
     Rev.get_status_emoji "ACoS" (Rev.ACoS m) = "🚨").
Proof.
  intros H1 H2 H3 H4 H5.
  eexists. split; [apply rev_recommendations |].
  change (Rev.get_status_emoji "Checkout_Rate" (Rev.Checkout_Rate m))
    with (if (Rev.Checkout_Rate m >=? Fin 75)%num then "✅"
          else if (Rev.Checkout_Rate m >=? Fin 60)%num then "⚠️"
          else "🚨").
  change (Rev.get_status_emoji "LP_View_Rate" (Rev.LP_View_Rate m))
    with (if (Rev.LP_View_Rate m >=? Fin 90)%num then "✅"
          else if (Rev.LP_View_Rate m >=? Fin 80)%num then "⚠️"
          else "🚨").
  change (Rev.get_status_emoji "CTR" (Rev.CTR m))
    with (if (Rev.CTR m >=? Fin (15 # 10))%num then "✅"
          else if (Rev.CTR m >=? Fin (9 # 10))%num then "⚠️"
          else "🚨").
  change (Rev.get_status_emoji "ROAS" (Rev.ROAS m))
    with (if (Rev.ROAS m >=? Fin 4)%num then "✅"
          else if (Rev.ROAS m >=? Fin 2)%num then "⚠️"
          else "🚨").
  change (Rev.get_status_emoji "ACoS" (Rev.ACoS m))
    with (if (Rev.ACoS m <=? Fin 15)%num then "✅"
          else if (Rev.ACoS m <=? Fin 25)%num then "⚠️"
          else "🚨").
  rewrite (@siren_below_min 60 75 _ eq_refl H1).
  rewrite (@siren_below_min 80 90 _ eq_refl H2).
  rewrite (@siren_below_min (9 # 10) (15 # 10) _ eq_refl H3).
  rewrite (@siren_below_min 2 4 _ eq_refl H4).
  rewrite (siren_above_ideal _ H5).
  setoid_rewrite in_sort_issues. setoid_rewrite in_triggered.
  unfold rev_rules, Rev.checkout_issue, Rev.lp_issue, Rev.ctr_issue,
    Rev.roas_issue, Rev.acos_issue.
  cbn [In].
  repeat split; intros;
    repeat match goal with
      | H : _ \/ _ |- _ => destruct H
      | H : False |- _ => destruct H
      end;
    try congruence;
    match goal with H : _ = true |- _ => rewrite H end; tauto.
Qed.

Lemma rev_recommendations_are_the_sirens_witness :
  isna (Fin 30) = false /\
  exists out,
    Rev.get_recommendations
      (Rev.mkMetrics (Fin 1) (Fin 85) (Fin 15) (Fin 70) (Fin 60) (Fin 3)
         (Fin 10) (Fin 200) (Fin 3) (Fin 30) (Fin 1)
         (Rev.mkTotals (Fin 0) (Fin 0) (Fin 0) (Fin 0) (Fin 0) (Fin 0)
            (Fin 0) (Fin 0))) = Ok out /\
    (In (Rev.acos_issue (Fin 30) (Fin 25)) out <->
     Rev.get_status_emoji "ACoS" (Fin 30) = "🚨").
Proof.
  split; [reflexivity |].
  destruct (@rev_recommendations_are_the_sirens
              (Rev.mkMetrics (Fin 1) (Fin 85) (Fin 15) (Fin 70) (Fin 60)
                 (Fin 3) (Fin 10) (Fin 200) (Fin 3) (Fin 30) (Fin 1)
                 (Rev.mkTotals (Fin 0) (Fin 0) (Fin 0) (Fin 0) (Fin 0)
                    (Fin 0) (Fin 0) (Fin 0)))
              eq_refl eq_refl eq_refl eq_refl eq_refl)
    as (out & Ho & _ & _ & _ & _ & Ha).
  exists out. split; assumption.
Defined.

(** ** Recommendations on an empty selection *)

Lemma empty_numeric_column (df : DataFrame) (c : string) :
  numeric_column df c = true -> nrows df = 0%nat -> values df c = [].
Proof.
  unfold numeric_column, values. intros H Hn.
  destruct (lookup c (columns df)) as [[l | |] |]; try discriminate.
  apply andb_true_iff in H. destruct H as [Hl _].
  apply Nat.eqb_eq in Hl. rewrite Hn in Hl. now destruct l.
Qed.

(** X11.  On an empty canonical frame every metric is 0, and 0 is below every
    minimum bound: [get_recommendations] then reports every rule on a minimum
    bound, the checkout rate first. In [before_metrics_addition.py] the ACoS
    rule stays silent, since an ACoS of 0 is not above 25. *)
Theorem empty_selection_reports_every_rule (df : DataFrame) :
  nrows df = 0%nat ->
  (canonical_manual df = true ->
   exists m out,
     Manual.calculate_metrics df = Ok m /\
     Manual.get_recommendations m = Ok out /\
     map metric out
     = [ "Checkout Rate"; "Landing Page View Rate";
         "Purchase Completion Rate"; "Click-Through Rate" ] /\
     map current out = [n0; n0; n0; n0]) /\
  (canonical_rev df = true ->
   exists m out,
     Rev.calculate_metrics df = Ok m /\
     Rev.get_recommendations m = Ok out /\
     map metric out
     = [ "Checkout Rate"; "ROAS (Return on Ad Spend)";
         "Landing Page View Rate"; "Click-Through Rate" ] /\
     map current out = [n0; n0; n0; n0]).
Proof.
  intro Hn. split; intro H.
  - destruct (metrics_formulas appmanual_py df H)
      as (i & c & l & a & k & p & s & fr & Ht & Hm & Hfr).
    simpl in Hm, Hfr. subst fr.
    unfold canonical_manual, funnel_columns in H. simpl in H.
    repeat (apply andb_true_iff in H; destruct H as [? H]).
    unfold column_totals in Ht.
    rewrite !empty_numeric_column in Ht by assumption.
    injection Ht as <- <- <- <- <- <- <-.
    do 2 eexists. split; [exact Hm |].
    split; [apply manual_recommendations |]. split; reflexivity.
  - destruct (rev_metrics_formulas df H)
      as (i & c & l & a & k & p & s & r & f & Ht & _ & Hm).
    unfold canonical_rev, funnel_columns in H. simpl in H.
    repeat (apply andb_true_iff in H; destruct H as [? H]).
    unfold rev_column_totals in Ht.
    rewrite !empty_numeric_column in Ht by assumption.
    injection Ht as <- <- <- <- <- <- <- <-.
    rewrite Hn in Hm.
    do 2 eexists. split; [exact Hm |].
    split; [apply rev_recommendations |]. split; reflexivity.
Qed.

Lemma empty_selection_reports_every_rule_witness :
  nrows (mkDF 0 (map (fun c => (c, NumCol [])) funnel_columns)) = 0%nat /\
  canonical_manual (mkDF 0 (map (fun c => (c, NumCol [])) funnel_columns))
  = true /\
  exists m out,
    Manual.calculate_metrics
      (mkDF 0 (map (fun c => (c, NumCol [])) funnel_columns)) = Ok m /\
    Manual.get_recommendations m = Ok out /\
    map metric out
    = [ "Checkout Rate"; "Landing Page View Rate";
        "Purchase Completion Rate"; "Click-Through Rate" ] /\
    map current out = [n0; n0; n0; n0].
Proof.
  split; [reflexivity |]. split; [reflexivity |].
  exact (proj1 (@empty_selection_reports_every_rule
                  (mkDF 0 (map (fun c => (c, NumCol [])) funnel_columns))
                  eq_refl) eq_refl).
Defined.

(** ** normalize_columns *)

Lemma in_setitem (V : Type) (k k' : string) (v v' : V)
    (d : list (string * V)) :
  In (k', v') (setitem k v d) -> (k' = k /\ v' = v) \/ In (k', v') d.
Proof.
  induction d as [| [k0 v0] d IH]; simpl.
  - intros [H | []]. injection H as <- <-. auto.
  - destruct (String.eqb k k0) eqn:E; simpl.
    + apply String.eqb_eq in E. subst k0.
      intros [H | H]; [injection H as <- <-; auto | auto].
    + intros [H | H]; [auto |]. destruct (IH H); auto.
Qed.

Lemma setitem_has_key (V : Type) (k k' : string) (v : V)
    (d : list (string * V)) :
  k' = k \/ (exists v', In (k', v') d) ->
  exists v', In (k', v') (setitem k v d).
Proof.
  induction d as [| [k0 v0] d IH]; simpl.
  - intros [-> | [v' []]]. eauto.
  - destruct (String.eqb k k0) eqn:E; simpl.
    + apply String.eqb_eq in E. subst k0.
      intros [-> | [v' [H | H]]]; eauto.
      injection H as <- <-. eauto.
    + intros [-> | [v' [H | H]]].
      * destruct IH as [w Hw]; eauto.
      * injection H as <- <-. eauto.
      * destruct IH as [w Hw]; eauto.
Qed.

(** The dict of lower-cased names: every entry is a text label under its
    lower-cased name, and every text label has an entry. *)
Lemma lower_cols_entries (cols : list label) (acc lc : list (string * string)) :
  lower_cols cols acc = Ok lc ->
  (forall k c,
      In (k, c) lc ->
      In (k, c) acc \/ (k = lower c /\ In (LStr c) cols)) /\
  (forall k, (exists c, In (k, c) acc) -> exists c, In (k, c) lc) /\
  (forall c, In (LStr c) cols -> exists c', In (lower c, c') lc).
Proof.
  revert acc. induction cols as [| [s | q | t] cols IH]; intros acc H;
    simpl in H; try discriminate.
  - injection H as <-. repeat split; auto. intros c [].
  - destruct (IH _ H) as (I1 & I2 & I3). repeat split.
    + intros k c Hin. destruct (I1 k c Hin) as [Ha | [Hk Hc]].
      * destruct (in_setitem _ _ _ _ _ Ha) as [[-> ->] | Ha']; auto.
        right. split; [reflexivity | now left].
      * right. split; [assumption | now right].
    + intros k Hk. apply I2. apply setitem_has_key. auto.
    + intros c [Hc | Hc].
      * injection Hc as <-. apply I2. apply setitem_has_key. auto.
      * now apply I3.
Qed.

Lemma first_match_some (syn : string) (lc : list (string * string))
    (c : string) :
  first_match syn lc = Some c ->
  exists k, In (k, c) lc /\ contains syn k = true.
Proof.
  induction lc as [| [k0 c0] lc IH]; simpl; [discriminate |].
  destruct (contains syn k0) eqn:E.
  - intros [= <-]. eauto.
  - intro H. destruct (IH H) as (k & Hin & Hk). eauto.
Qed.

Lemma first_match_none (syn : string) (lc : list (string * string)) :
  first_match syn lc = None <->
  forall k c, In (k, c) lc -> contains syn k = false.
Proof.
  induction lc as [| [k0 c0] lc IH]; simpl.
  - split; [intros _ k c [] | reflexivity].
  - destruct (contains syn k0) eqn:E.
    + split; [discriminate |]. intro H.
      specialize (H k0 c0 (or_introl eq_refl)). congruence.
    + rewrite IH. split.
      * intros H k c [Hin | Hin]; [congruence | eauto].
      * intros H k c Hin. eauto.
Qed.

Lemma resolve_some (synonyms : list string) (lc : list (string * string))
    (c : string) :
  resolve synonyms lc = Some c ->
  exists pre syn post,
    synonyms = pre ++ syn :: post /\
    (forall s, In s pre -> first_match s lc = None) /\
    first_match syn lc = Some c.
Proof.
  induction synonyms as [| s synonyms IH]; simpl; [discriminate |].
  destruct (first_match s lc) as [c0 |] eqn:E.
  - intros [= <-]. exists [], s, synonyms. repeat split; auto.
    intros s0 [].
  - intro H. destruct (IH H) as (pre & syn & post & -> & Hpre & Hsyn).
    exists (s :: pre), syn, post. repeat split; auto.
    intros s0 [<- | Hs]; auto.
Qed.

Lemma resolve_none (synonyms : list string) (lc : list (string * string)) :
  resolve synonyms lc = None ->
  forall s, In s synonyms -> first_match s lc = None.
Proof.
  induction synonyms as [| s synonyms IH]; simpl; [intros _ s [] |].
  destruct (first_match s lc) eqn:E; [discriminate |].
  intros H s0 [<- | Hs]; auto.
Qed.

Lemma lookup_absent (V : Type) (k : string) (d : list (string * V)) :
  ~ In k (map fst d) -> lookup k d = None.
Proof.
  induction d as [| [k0 v0] d IH]; simpl; [reflexivity |].
  intro H. destruct (String.eqb k k0) eqn:E.
  - apply String.eqb_eq in E. subst. tauto.
  - apply IH. tauto.
Qed.

(** The loop over the synonym table: a key of the table gets what its
    synonyms resolve to; the keys are distinct. *)
Lemma fold_synonyms (ks : list (string * list string))
    (lc acc : list (string * string)) (key : string) :
  NoDup (map fst ks) ->
  lookup key
    (fold_left
       (fun mapping ks0 =>
          match resolve (snd ks0) lc with
          | Some c => setitem (fst ks0) c mapping
          | None => mapping
          end)
       ks acc)
  = match lookup key ks with
    | Some synonyms =>
        match resolve synonyms lc with
        | Some c => Some c
        | None => lookup key acc
        end
    | None => lookup key acc
    end.
Proof.
  revert acc. induction ks as [| [k syns] ks IH]; intros acc Hnd;
    [reflexivity |].
  inversion Hnd as [| ? ? Hk Hnd']; subst.
  cbn [fold_left fst snd lookup]. rewrite (IH _ Hnd').
  destruct (String.eqb key k) eqn:E.
  - apply String.eqb_eq in E. subst k.
    rewrite (lookup_absent _ _ Hk).
    destruct (resolve syns lc); [apply lookup_setitem_same | reflexivity].
  - destruct (resolve syns lc) as [c |];
      [rewrite lookup_setitem_other by exact E |]; reflexivity.
Qed.

Lemma synonym_keys_distinct : NoDup (map fst COLUMN_SYNONYMS).
Proof.
  unfold COLUMN_SYNONYMS. simpl.
  repeat (constructor;
          [simpl; intro H;
           repeat (destruct H as [H | H]; [discriminate |]);
           exact H |]).
  constructor.
Qed.

(** The mapping that [normalize_columns] returns, key by key. *)
Lemma normalize_columns_lookup (df : Frame) (col_map : list (string * string)) :
  normalize_columns df = Ok col_map ->
  exists lc,
    lower_cols (labels df) [] = Ok lc /\
    forall key,
      lookup key col_map
      = match lookup key COLUMN_SYNONYMS with
        | Some synonyms => resolve synonyms lc
        | None => None
        end.
Proof.
  unfold normalize_columns.
  destruct (lower_cols (labels df) []) as [lc | e] eqn:E; [| discriminate].
  cbn [bind]. intro H. exists lc. split; [reflexivity |].
  intro key.
  transitivity
    (match lookup key COLUMN_SYNONYMS with
     | Some synonyms =>
         match resolve synonyms lc with
         | Some c => Some c
         | None => lookup key (@nil (string * string))
         end
     | None => lookup key (@nil (string * string))
     end).
  - rewrite <- (fold_synonyms _ lc [] key synonym_keys_distinct).
    f_equal. injection H as H. symmetry. exact H.
  - destruct (lookup key COLUMN_SYNONYMS) as [syns |]; [| reflexivity].
    now destruct (resolve syns lc).
Qed.

(** X12.  [normalize_columns] maps a field to a column of the sheet whose name
    contains, in lower case, a synonym of the field; and it maps every field
    for which the sheet has such a column. A field without such a column is
    left out of the mapping. *)
Theorem normalize_columns_resolves (df : Frame)
    (col_map : list (string * string)) :
  normalize_columns df = Ok col_map ->
  (forall key c,
      lookup key col_map = Some c ->
      In (LStr c) (labels df) /\
      exists synonyms syn,
        lookup key COLUMN_SYNONYMS = Some synonyms /\
        In syn synonyms /\ contains syn (lower c) = true) /\
  (forall key synonyms syn c,
      lookup key COLUMN_SYNONYMS = Some synonyms ->
      In syn synonyms ->
      In (LStr c) (labels df) ->
      contains syn (lower c) = true ->
      exists c', lookup key col_map = Some c').
Proof.
  intro H.
  destruct (normalize_columns_lookup df H) as (lc & Hlc & Hk).
  destruct (lower_cols_entries _ _ Hlc) as (I1 & _ & I3).
  split.
  - intros key c Hc. rewrite Hk in Hc.
    destruct (lookup key COLUMN_SYNONYMS) as [syns |]; [| discriminate].
    destruct (resolve_some _ _ Hc) as (pre & syn & post & -> & _ & Hsyn).
    destruct (first_match_some _ _ Hsyn) as (k & Hin & Hcon).
    destruct (I1 k c Hin) as [[] | [-> Hl]].
    split; [exact Hl |].
    exists (pre ++ syn :: post), syn. repeat split; auto.
    apply in_or_app. right. now left.
  - intros key syns syn c Hs Hsyn Hl Hcon. rewrite Hk, Hs.
    destruct (resolve syns lc) as [c' |] eqn:E; [eauto |].
    exfalso. pose proof (resolve_none _ _ E syn Hsyn) as Hn.
    destruct (I3 c Hl) as [c' Hin].
    rewrite first_match_none in Hn. specialize (Hn _ _ Hin). congruence.
Qed.

Lemma normalize_columns_resolves_witness :
  normalize_columns frame_with_two_click_columns
  = Ok [("date", "Day"); ("clicks", "Link clicks")] /\
  (forall key c,
      lookup key [("date", "Day"); ("clicks", "Link clicks")] = Some c ->
      In (LStr c) (labels frame_with_two_click_columns) /\
      exists synonyms syn,
        lookup key COLUMN_SYNONYMS = Some synonyms /\
        In syn synonyms /\ contains syn (lower c) = true).
Proof.
  split; [reflexivity |].
  exact (proj1 (@normalize_columns_resolves frame_with_two_click_columns
                  [("date", "Day"); ("clicks", "Link clicks")] eq_refl)).
Defined.

(** X13.  The order of the synonyms decides before the order of the columns:
    the column that a field is mapped to contains a synonym of the field, and
    no column of the sheet contains a synonym that stands earlier in the list
    of the field. With a column "Clicks" before a column "Link clicks", clicks
    are read from "Link clicks". *)
Theorem normalize_columns_prefers_earlier_synonym (df : Frame)
    (col_map : list (string * string)) (key : string)
    (synonyms : list string) (c : string) :
  normalize_columns df = Ok col_map ->
  lookup key COLUMN_SYNONYMS = Some synonyms ->
  lookup key col_map = Some c ->
  exists pre syn post,
    synonyms = pre ++ syn :: post /\
    contains syn (lower c) = true /\
    forall s c',
      In s pre -> In (LStr c') (labels df) -> contains s (lower c') = false.
Proof.
  intros H Hs Hc.
  destruct (normalize_columns_lookup df H) as (lc & Hlc & Hk).
  destruct (lower_cols_entries _ _ Hlc) as (I1 & _ & I3).
  rewrite Hk, Hs in Hc.
  destruct (resolve_some _ _ Hc) as (pre & syn & post & -> & Hpre & Hsyn).
  destruct (first_match_some _ _ Hsyn) as (k & Hin & Hcon).
  destruct (I1 k c Hin) as [[] | [-> Hl]].
  exists pre, syn, post. repeat split; auto.
  intros s c' Hsp Hl'. destruct (I3 c' Hl') as [c'' Hin'].
  specialize (Hpre s Hsp). rewrite first_match_none in Hpre. eauto.
Qed.

Lemma normalize_columns_prefers_earlier_synonym_witness :
  normalize_columns frame_with_two_click_columns
  = Ok [("date", "Day"); ("clicks", "Link clicks")] /\
  exists pre syn post,
    ["clicks (all)"; "link clicks"; "clicks"] = pre ++ syn :: post /\
    contains syn (lower "Link clicks") = true /\
    forall s c',
      In s pre ->
      In (LStr c') (labels frame_with_two_click_columns) ->
      contains s (lower c') = false.
Proof.
  split; [reflexivity |].
  exact (@normalize_columns_prefers_earlier_synonym
           frame_with_two_click_columns
           [("date", "Day"); ("clicks", "Link clicks")] "clicks"
           ["clicks (all)"; "link clicks"; "clicks"] "Link clicks"
           eq_refl eq_refl eq_refl).
Defined.

(** ** split_data_and_notes *)

Lemma split_rows_spec (pd : Pandas) (df : Frame) (date_col : string)
    (rows : list (list cell)) :
  split_rows pd df date_col rows
  = (filter (converts pd df date_col) rows,
     filter is_note
       (map (note_of pd df date_col)
          (filter (fun row => negb (converts pd df date_col row)) rows))).
Proof.
  induction rows as [| row rows IH]; [reflexivity |].
  cbn [split_rows filter]. rewrite IH.
  remember (converts pd df date_col row) as b eqn:Hb.
  unfold converts in Hb.
  destruct (to_datetime pd (cell_of df date_col row)); subst b;
    cbn [negb map filter]; cbv zeta.
  - reflexivity.
  - change (strip (str pd (cell_of df date_col row)))
      with (note_of pd df date_col row).
    change (negb (String.eqb (note_of pd df date_col row) "")
            && negb (String.eqb (lower (note_of pd df date_col row)) "nan")
            && negb (String.eqb (lower (note_of pd df date_col row)) "none"))
      with (is_note (note_of pd df date_col row)).
    destruct (is_note (note_of pd df date_col row)); reflexivity.
Qed.

(** X14.  [split_data_and_notes] splits the rows of the sheet in two: the data
    rows are the rows whose date cell converts, in the order of the sheet; the
    notes are the stripped texts of the date cells of the other rows, in the
    order of the sheet, without the empty ones and without "nan" and "none" in
    any case. No note is empty. *)
Theorem split_data_and_notes_partitions (pd : Pandas) (df : Frame)
    (date_col : string) :
  let data := fst (split_data_and_notes pd df date_col) in
  let notes := snd (split_data_and_notes pd df date_col) in
  body data = filter (converts pd df date_col) (body df) /\
  notes
  = filter is_note
      (map (note_of pd df date_col)
         (filter (fun row => negb (converts pd df date_col row))
            (body df))) /\
  (length (body data)
   + length (filter (fun row => negb (converts pd df date_col row))
               (body df))
   = length (body df))%nat /\
  (length notes <= length (body df) - length (body data))%nat /\
  Forall (fun n => n <> "" /\ lower n <> "nan" /\ lower n <> "none") notes.
Proof.
  cbv zeta. unfold split_data_and_notes. rewrite split_rows_spec.
  cbn [fst snd body].
  set (rows := body df).
  assert (Hlen :
            (length (filter (converts pd df date_col) rows)
             + length (filter (fun row => negb (converts pd df date_col row))
                         rows)
             = length rows)%nat).
  { clearbody rows. induction rows as [| r rows IH]; [reflexivity |].
    cbn [filter]. destruct (converts pd df date_col r); simpl; lia. }
  repeat split; try assumption.
  - set (rest := filter (fun row => negb _) rows) in *.
    pose proof (filter_length_le is_note
                  (map (note_of pd df date_col) rest)) as Hle.
    rewrite length_map in Hle. lia.
  - apply Forall_forall. intros n Hn. apply filter_In in Hn.
    destruct Hn as [_ Hn]. unfold is_note in Hn.
    apply andb_true_iff in Hn. destruct Hn as [Hn H3].
    apply andb_true_iff in Hn. destruct Hn as [H1 H2].
    apply negb_true_iff in H1, H2, H3.
    rewrite String.eqb_neq in H1, H2, H3. auto.
Qed.

(** ** clean_sheet *)

Lemma col_index_in (c : string) (cols : list label) :
  In (LStr c) cols -> exists i, col_index c cols = Some i.
Proof.
  induction cols as [| [s | q | t] cols IH]; simpl; [intros [] | | |].
  - destruct (String.eqb c s) eqn:E; [eauto |].
    intros [H | H].
    + injection H as ->. rewrite String.eqb_refl in E. discriminate.
    + destruct (IH H) as [i ->]. simpl. eauto.
  - intros [H | H]; [discriminate |].
    destruct (IH H) as [i ->]. simpl. eauto.
  - intros [H | H]; [discriminate |].
    destruct (IH H) as [i ->]. simpl. eauto.
Qed.

Lemma column_of_length (df : Frame) (name : string) (col : list cell) :
  column_of df name = Ok col -> length col = length (body df).
Proof.
  unfold column_of. destruct (col_index name (labels df)); [| discriminate].
  intros [= <-]. apply length_map.
Qed.

Lemma keep_map (A : Type) (f : A -> bool) (l : list A) :
  keep (map f l) l = filter f l.
Proof.
  induction l as [| x l IH]; [reflexivity |].
  simpl. rewrite IH. reflexivity.
Qed.

Lemma keep_length (A B : Type) (mask : list bool) (x : list A) (y : list B) :
  length x = length mask -> length y = length mask ->
  length (keep mask x) = length (keep mask y).
Proof.
  revert x y. induction mask as [| b mask IH]; intros [| a x] [| c y] Hx Hy;
    simpl in *; try discriminate; [reflexivity |].
  destruct b; simpl; [f_equal |]; apply IH; congruence.
Qed.

Lemma keep_forallb (A : Type) (p : A -> bool) (mask : list bool)
    (l : list A) :
  forallb p l = true -> forallb p (keep mask l) = true.
Proof.
  revert l. induction mask as [| b mask IH]; intros [| a l] H;
    simpl in *; try reflexivity.
  apply andb_true_iff in H. destruct H as [Ha Hl].
  destruct b; simpl; [rewrite Ha |]; now apply IH.
Qed.

Lemma has_key_getitem (V : Type) (k : string) (d : list (string * V)) :
  has_key k d = true -> exists v, lookup k d = Some v /\ getitem d k = Ok v.
Proof.
  unfold has_key, getitem. destruct (lookup k d); [eauto | discriminate].
Qed.

(** X15.  When the date column and the seven required fields resolve and no
    row of the sheet has a date cell that converts, [clean_sheet] raises
    [KeyError]: the frame built from the empty list of data rows has no
    column, and the date column is looked up in it. *)
Theorem clean_sheet_without_data_row_raises (pd : Pandas)
    (raw_df : list (list cell)) (sheet_name : string)
    (col_map : list (string * string)) (date_col : string) :
  let df := read_excel raw_df (detect_header_row pd raw_df) in
  normalize_columns df = Ok col_map ->
  lookup "date" col_map = Some date_col ->
  forallb (fun r => has_key r col_map) required = true ->
  filter (converts pd df date_col) (body df) = [] ->
  clean_sheet pd raw_df sheet_name = Raise (KeyError date_col).
Proof.
  intros df Hn Hd Hr Hb.
  unfold clean_sheet. fold df. rewrite Hn. cbn [bind]. rewrite Hd.
  unfold split_data_and_notes. rewrite split_rows_spec, Hb, Hr.
  reflexivity.
Qed.

Lemma clean_sheet_without_data_row_raises_witness :
  normalize_columns
    (read_excel sheet_of_notes (detect_header_row plain_pandas sheet_of_notes))
  = Ok [ ("date", "Day"); ("impressions", "Impressions");
         ("clicks", "Link clicks"); ("lp_views", "Landing page views");
         ("adds_to_cart", "Adds to cart");
         ("checkouts", "Checkouts initiated"); ("spend", "Amount spent");
         ("purchases", "Results") ] /\
  clean_sheet plain_pandas sheet_of_notes "Product A"
  = Raise (KeyError "Day").
Proof.
  split; [reflexivity |].
  exact (@clean_sheet_without_data_row_raises plain_pandas sheet_of_notes
           "Product A"
           [ ("date", "Day"); ("impressions", "Impressions");
             ("clicks", "Link clicks"); ("lp_views", "Landing page views");
             ("adds_to_cart", "Adds to cart");
             ("checkouts", "Checkouts initiated"); ("spend", "Amount spent");
             ("purchases", "Results") ]
           "Day" eq_refl eq_refl eq_refl eq_refl).
Defined.

Lemma normalize_columns_label (df : Frame)
    (col_map : list (string * string)) (key c : string) :
  normalize_columns df = Ok col_map ->
  lookup key col_map = Some c -> In (LStr c) (labels df).
Proof.
  intros H Hc.
  destruct (normalize_columns_lookup df H) as (lc & Hlc & Hk).
  destruct (lower_cols_entries _ _ Hlc) as (I1 & _ & _).
  rewrite Hk in Hc.
  destruct (lookup key COLUMN_SYNONYMS) as [syns |]; [| discriminate].
  destruct (resolve_some _ _ Hc) as (pre & syn & post & -> & _ & Hsyn).
  destruct (first_match_some _ _ Hsyn) as (k & Hin & Hcon).
  destruct (I1 k c Hin) as [[] | [-> Hl]]. exact Hl.
Qed.

Lemma kept_column (A B : Type) (f : A -> bool) (h : A -> B) (l : list A) :
  keep (map f l) (map h l) = map h (filter f l).
Proof.
  induction l as [| x l IH]; [reflexivity |].
  simpl. destruct (f x); simpl; now rewrite IH.
Qed.

Lemma dated_rows (pd : Pandas) (df : Frame) (date_col : string)
    (rows : list (list cell)) :
  filter (fun row => notna (timestamp_of pd df date_col row))
    (filter (converts pd df date_col) rows)
  = filter (has_timestamp pd df date_col) rows.
Proof.
  induction rows as [| row rows IH]; [reflexivity |].
  cbn [filter].
  assert (Ht : timestamp_of pd df date_col row
               = match to_datetime pd (cell_of df date_col row) with
                 | Some d => d
                 | None => None
                 end) by reflexivity.
  unfold converts at 1, has_timestamp at 1.
  destruct (to_datetime pd (cell_of df date_col row)) as [[t |] |];
    cbn [filter]; try rewrite Ht; cbn [notna]; rewrite IH; reflexivity.
Qed.

Lemma existsb_filter (A : Type) (p : A -> bool) (l : list A) :
  existsb p l = true ->
  match filter p l with [] => @nil label | _ => @nil label end = [] /\
  forall (x y : list label),
    match filter p l with [] => x | _ => y end = y.
Proof.
  intro H. split; [now destruct (filter p l) |].
  intros x y. apply existsb_exists in H. destruct H as (a & Ha & Hp).
  assert (Hin : In a (filter p l)) by (apply filter_In; auto).
  destruct (filter p l); [destruct Hin | reflexivity].
Qed.

Lemma date_column_of (pd : Pandas) (df : Frame) (date_col : string)
    (i : nat) (rows : list (list cell)) :
  col_index date_col (labels df) = Some i ->
  coerce_dates pd (map (fun row => nth i row CEmpty) rows)
  = map (timestamp_of pd df date_col) rows.
Proof.
  intro Hi. unfold coerce_dates. rewrite map_map. apply map_ext.
  intro row. unfold timestamp_of, cell_of. rewrite Hi. reflexivity.
Qed.

Lemma number_column_of (pd : Pandas) (df : Frame) (c : string)
    (i : nat) (rows : list (list cell)) :
  col_index c (labels df) = Some i ->
  coerce_numbers pd (map (fun row => nth i row CEmpty) rows)
  = map (value_of pd df c) rows.
Proof.
  intro Hi. unfold coerce_numbers, fillna. rewrite !map_map. apply map_ext.
  intro row. unfold value_of, cell_of. rewrite Hi. reflexivity.
Qed.

(** X16.  When the date column and the seven required fields resolve, some
    row has a date cell that converts, and the date cells that convert are
    dates or empty cells (no text and no number is read as a date),
    [clean_sheet] returns a table whose rows are, in sheet order, the rows
    of the sheet whose date cell is a date: a row whose date cell is empty
    converts to NaT and is in neither the table nor the notes.  Each
    numeric field of a row is the number read from the resolved column, 0
    where the cell is not a number; the product column repeats the sheet
    name. *)
Theorem clean_sheet_keeps_dated_rows (pd : Pandas)
    (raw_df : list (list cell)) (sheet_name : string)
    (col_map : list (string * string)) (date_col : string) :
  let df := read_excel raw_df (detect_header_row pd raw_df) in
  let rows := filter (has_timestamp pd df date_col) (body df) in
  let field := fun key =>
    match lookup key col_map with
    | Some c => NumCol (map (value_of pd df c) rows)
    | None => NumCol []
    end in
  normalize_columns df = Ok col_map ->
  lookup "date" col_map = Some date_col ->
  forallb (fun r => has_key r col_map) required = true ->
  existsb (converts pd df date_col) (body df) = true ->
  forallb (plain_date_cell pd df date_col) (body df) = true ->
  clean_sheet pd raw_df sheet_name
  = Ok (Some
          (mkDF (length rows)
             [ ("date", DateCol (map (timestamp_of pd df date_col) rows));
               ("impressions", field "impressions");
               ("clicks", field "clicks");
               ("lp_views", field "lp_views");
               ("adds_to_cart", field "adds_to_cart");
               ("checkouts", field "checkouts");
               ("purchases", field "purchases");
               ("spend", field "spend");
               ("product", ObjCol (map (fun _ => sheet_name) rows)) ]),
        filter is_note
          (map (note_of pd df date_col)
             (filter (fun row => negb (converts pd df date_col row))
                (body df)))).
Proof.
  intros df rows field Hn Hd Hr He _.
  unfold clean_sheet. fold df. rewrite Hn. cbn [bind]. rewrite Hd.
  unfold split_data_and_notes. rewrite split_rows_spec, Hr. cbn [negb].
  destruct (existsb_filter _ _ He) as [_ Hl]. rewrite Hl. clear Hl.
  unfold required in Hr. cbn [forallb] in Hr.
  repeat (apply andb_true_iff in Hr; destruct Hr as [?H Hr]). clear Hr.
  repeat match goal with
  | H : has_key ?k col_map = true |- _ =>
      let c := fresh "c" in
      let Hc := fresh "Hc" in
      let Hg := fresh "Hg" in
      let j := fresh "j" in
      let Hj := fresh "Hj" in
      destruct (has_key_getitem _ _ H) as (c & Hc & Hg); clear H;
      destruct (col_index_in _ _ (@normalize_columns_label df col_map k c
                                    Hn Hc)) as [j Hj];
      rewrite Hg; cbn [bind]
  end.
  destruct (col_index_in _ _ (@normalize_columns_label df col_map "date"
                                date_col Hn Hd)) as [i Hi].
  unfold column_of. cbn [labels body].
  repeat match goal with
  | H : col_index _ (labels df) = Some _ |- _ =>
      rewrite H; cbn [bind]
  end.
  subst field. cbv beta.
  repeat match goal with
  | H : lookup _ col_map = Some _ |- _ => rewrite H
  end.
  rewrite (@date_column_of pd df date_col i _ Hi).
  repeat match goal with
  | H : col_index ?c (labels df) = Some ?j |- _ =>
      rewrite (@number_column_of pd df c j _ H); clear H
  end.
  rewrite !map_map, !kept_column, !dated_rows, length_map.
  reflexivity.
Qed.

Lemma clean_sheet_keeps_dated_rows_witness :
  clean_sheet plain_pandas sheet_with_date_cells "Product A"
  = Ok (Some
          (mkDF 1
             [ ("date", DateCol [Some 20240101%Z]);
               ("impressions", NumCol [Fin 1000]);
               ("clicks", NumCol [Fin 50]);
               ("lp_views", NumCol [Fin 45]);
               ("adds_to_cart", NumCol [Fin 10]);
               ("checkouts", NumCol [Fin 7]);
               ("purchases", NumCol [Fin 4]);
               ("spend", NumCol [Fin 500]);
               ("product", ObjCol ["Product A"]) ]),
        ["Total"]).
Proof.
  exact (@clean_sheet_keeps_dated_rows plain_pandas sheet_with_date_cells
           "Product A"
           [ ("date", "Day"); ("impressions", "Impressions");
             ("clicks", "Link clicks"); ("lp_views", "Landing page views");
             ("adds_to_cart", "Adds to cart");
             ("checkouts", "Checkouts initiated"); ("spend", "Amount spent");
             ("purchases", "Results") ]
           "Day" eq_refl eq_refl eq_refl eq_refl eq_refl).
Defined.

Lemma keep_const (A : Type) (c : string) (mask : list bool) (l : list A) :
  keep mask (map (fun _ => c) l) = repeat c (length (keep mask l)).
Proof.
  revert l. induction mask as [| b mask IH]; intros [| a l];
    simpl; try reflexivity.
  destruct b; simpl; now rewrite IH.
Qed.

Lemma kept_number_column (pd : Pandas) (df : Frame) (name : string)
    (col : list cell) (date : list (option Z)) :
  column_of df name = Ok col ->
  length date = length (body df) ->
  let l := keep (map notna date) (coerce_numbers pd col) in
  length l = length (keep (map notna date) date) /\
  forallb not_nan l = true.
Proof.
  intros Hc Hd l. split.
  - apply keep_length; rewrite length_map; [| reflexivity].
    unfold coerce_numbers, fillna. rewrite !length_map.
    rewrite (column_of_length _ _ Hc). symmetry. exact Hd.
  - apply keep_forallb. apply fillna_not_nan.
Qed.

(** X17.  Every table that [clean_sheet] returns has the nine columns date,
    impressions, clicks, lp_views, adds_to_cart, checkouts, purchases, spend
    and product; each numeric column has one number per row and no NaN, no
    date is NaT, the product column repeats the sheet name, and
    [calculate_metrics] and [calculate_daily_metrics] of the same file return
    on it without raising. *)
Theorem clean_sheet_table_is_ready (pd : Pandas)
    (raw_df : list (list cell)) (sheet_name : string)
    (table : DataFrame) (notes : list string) :
  clean_sheet pd raw_df sheet_name = Ok (Some table, notes) ->
  map fst (columns table)
  = [ "date"; "impressions"; "clicks"; "lp_views"; "adds_to_cart";
      "checkouts"; "purchases"; "spend"; "product" ] /\
  Forall
    (fun name =>
       exists l,
         lookup name (columns table) = Some (NumCol l) /\
         length l = nrows table /\ forallb not_nan l = true)
    funnel_columns /\
  (exists d,
      lookup "date" (columns table) = Some (DateCol d) /\
      length d = nrows table /\ forallb notna d = true) /\
  lookup "product" (columns table)
  = Some (ObjCol (repeat sheet_name (nrows table))) /\
  (exists m, Manual.calculate_metrics table = Ok m) /\
  (exists daily,
      Manual.calculate_daily_metrics table = Ok daily /\
      nrows daily = nrows table).
Proof.
  intro H. unfold clean_sheet in H.
  destruct (normalize_columns _) as [col_map | e]; [| discriminate].
  cbn [bind] in H.
  destruct (lookup "date" col_map) as [date_col |]; [| discriminate].
  destruct (split_data_and_notes _ _ _) as [df_data notes'].
  destruct (negb _); [discriminate |].
  repeat match type of H with
  | bind ?r _ = _ =>
      let E := fresh "E" in
      destruct r eqn:E; [cbn [bind] in H | discriminate]
  end.
  injection H as <- <-.
  match goal with
  | E : column_of df_data date_col = Ok ?c |- _ =>
      assert (Hd : length (coerce_dates pd c) = length (body df_data))
        by (unfold coerce_dates; rewrite length_map;
            exact (column_of_length _ _ E));
      set (date := coerce_dates pd c) in *
  end.
  cbn [columns nrows map fst].
  split; [reflexivity |].
  split.
  { unfold funnel_columns.
    repeat apply Forall_cons; [.. | apply Forall_nil];
      cbn [lookup String.eqb Ascii.eqb Bool.eqb];
      (eexists; split; [reflexivity |]);
      match goal with
      | E : column_of df_data ?n = Ok ?c
        |- context [coerce_numbers pd ?c] =>
          exact (@kept_number_column pd df_data n c date E Hd)
      end. }
  split.
  { eexists. split; [reflexivity |]. split; [reflexivity |].
    rewrite keep_map. clear. induction date as [| [t |] date IH];
      simpl; auto. }
  split.
  { cbn [lookup String.eqb Ascii.eqb Bool.eqb]. rewrite keep_const.
    reflexivity. }
  split; eexists; [reflexivity | split; reflexivity].
Qed.

Lemma clean_sheet_table_is_ready_witness :
  exists table,
    clean_sheet plain_pandas sheet_with_gap "Product A"
    = Ok (Some table, ["Total"]) /\
    nrows table = 1%nat /\
    (exists m, Manual.calculate_metrics table = Ok m) /\
    (exists daily,
        Manual.calculate_daily_metrics table = Ok daily /\
        nrows daily = nrows table).
Proof.
  eexists. split; [vm_compute; reflexivity |]. split; [reflexivity |].
  refine (proj2 (proj2 (proj2 (proj2
    (@clean_sheet_table_is_ready plain_pandas sheet_with_gap "Product A"
       _ ["Total"] _))))).
  vm_compute. reflexivity.
Defined.

(** ** detect_header_row *)

Lemma scan_header_some (pd : Pandas) (rows : list (list cell)) (i j : nat) :
  scan_header pd i rows = Some j ->
  (i <= j < i + length rows)%nat /\
  mentions pd (nth (j - i) rows []) = true /\
  forall k, (k < j - i)%nat -> mentions pd (nth k rows []) = false.
Proof.
  revert i. induction rows as [| row rows IH]; intros i H;
    [discriminate |].
  cbn [scan_header] in H.
  destruct (row_contains pd "impression" row || row_contains pd "day" row)
    eqn:E.
  - injection H as <-. rewrite Nat.sub_diag. cbn [length nth].
    split; [lia |]. split; [exact E |]. intros k Hk. lia.
  - destruct (IH _ H) as (Hb & Hm & Hf). cbn [length].
    replace (j - i)%nat with (S (j - S i)) by lia. cbn [nth].
    split; [lia |]. split; [exact Hm |].
    intros [| k] Hk; [exact E |]. apply Hf. lia.
Qed.

Lemma scan_header_none (pd : Pandas) (rows : list (list cell)) (i : nat) :
  scan_header pd i rows = None ->
  forall k, mentions pd (nth k rows []) = false.
Proof.
  revert i. induction rows as [| row rows IH]; intros i H k.
  - destruct k; reflexivity.
  - cbn [scan_header] in H.
    destruct (row_contains pd "impression" row || row_contains pd "day" row)
      eqn:E; [discriminate |].
    destruct k as [| k]; [exact E |]. exact (IH _ H k).
Qed.

Lemma nth_firstn_below (A : Type) (d : A) (l : list A) (n k : nat) :
  (k < n)%nat -> nth k (firstn n l) d = nth k l d.
Proof.
  revert n k. induction l as [| x l IH]; intros [| n] [| k] H;
    simpl; try reflexivity; try lia.
  apply IH. lia.
Qed.

(** X18.  [detect_header_row] answers an index below 10. No row before the
    answer mentions "impression" or "day"; an answer other than 0 is the index
    of a row of the sheet that does; and when one of the first ten rows
    mentions one of the two words, the row at the answer does. So a header row
    at index 10 or later is not found and the answer is then 0. *)
Theorem detect_header_row_first_match (pd : Pandas)
    (df : list (list cell)) :
  let h := detect_header_row pd df in
  (h < 10)%nat /\
  (forall i, (i < h)%nat -> mentions pd (nth i df []) = false) /\
  (h <> 0%nat ->
   (h < length df)%nat /\ mentions pd (nth h df []) = true) /\
  ((exists i, (i < 10)%nat /\ mentions pd (nth i df []) = true) ->
   mentions pd (nth h df []) = true) /\
  ((forall i, (i < 10)%nat -> mentions pd (nth i df []) = false) ->
   h = 0%nat).
Proof.
  intro h. subst h. unfold detect_header_row.
  set (n := Nat.min 10 (length df)).
  assert (Hlen : length (firstn n df) = n)
    by (rewrite length_firstn; unfold n; lia).
  destruct (scan_header pd 0 (firstn n df)) as [j |] eqn:E.
  - destruct (scan_header_some _ _ _ E) as (Hb & Hm & Hf).
    rewrite Hlen, Nat.sub_0_r in *.
    assert (Hj : (j < n)%nat) by lia.
    rewrite nth_firstn_below in Hm by exact Hj.
    split; [unfold n in Hj; lia |].
    split.
    { intros i Hi. rewrite <- (Hf i Hi).
      symmetry. apply f_equal. apply nth_firstn_below. lia. }
    split; [intros _; split; [unfold n in Hj; lia | exact Hm] |].
    split; [intros _; exact Hm |].
    intro Hall. destruct j as [| j]; [reflexivity |].
    rewrite Hall in Hm; [discriminate | unfold n in Hj; lia].
  - pose proof (scan_header_none _ _ _ E) as Hf.
    split; [lia |]. split; [intros i Hi; lia |].
    split; [intro Hh; now destruct Hh |].
    split; [| reflexivity].
    intros [i [Hi Hm]].
    destruct (Nat.lt_ge_cases i n) as [Hin | Hin].
    + specialize (Hf i). rewrite nth_firstn_below in Hf by exact Hin.
      congruence.
    + rewrite nth_overflow in Hm by (unfold n in Hin; lia).
      discriminate.
Qed.

(** ** The rows fetched from the API *)

Lemma int_column_length (l : list Z) (v : list num) :
  Machine.untyped_column (int_column l) = NumCol v -> length v = length l.
Proof.
  unfold int_column.
  destruct (forallb in_int64 l); [| destruct (forallb in_uint64 l)];
    cbn; try discriminate; intros [= <-]; apply length_map.
Qed.

Lemma frame_of_rows_lengths (rows : list Api.Row) (name : string)
    (v : list num) :
  lookup name (columns (Machine.untyped (frame_of_rows rows)))
  = Some (NumCol v) ->
  length v = length rows.
Proof.
  unfold frame_of_rows, Machine.untyped.
  cbn [Machine.columns Machine.nrows columns map fst snd lookup].
  repeat match goal with
  | |- context [String.eqb name ?k] =>
      destruct (String.eqb name k);
      [ intro H;
        first [ discriminate H
              | injection H as H;
                first
                  [ apply int_column_length in H;
                    rewrite H; apply length_map
                  | subst v; rewrite !length_map; reflexivity ] ] |]
  end.
  discriminate.
Qed.

Lemma in_range_numeric (df : DataFrame) (name : string) :
  in_range_column df name = true ->
  (forall v, lookup name (columns df) = Some (NumCol v) ->
             length v = nrows df) ->
  numeric_column df name = true.
Proof.
  unfold in_range_column, numeric_column.
  destruct (lookup name (columns df)) as [[l | |] |]; try discriminate.
  intros H Hlen. apply andb_true_iff in H. destruct H as [H _].
  rewrite (Hlen l eq_refl), Nat.eqb_refl.
  now apply in_range_values_finite.
Qed.

(** X19.  [fetch_campaign_data] returns either a frame and no error, or no
    frame and the message that no data was found, the latter exactly when
    the API answered with no insight.  The frame has one row per insight;
    and when the values of the columns that [calculate_metrics] reads are
    in range (each is 0 or at least 2^-53, each column adds up to at most
    2^53), [calculate_metrics] returns on the frame without raising, with
    finite values only. *)
Theorem fetch_campaign_data_feeds_metrics (insights : list Insight) :
  match fetch_campaign_data insights with
  | (Some df, None) =>
      insights <> [] /\
      Machine.nrows df = length insights /\
      (in_range app_py (Machine.untyped df) = true ->
       exists m,
         MachineApi.calculate_metrics df = Ok m /\
         metrics_finite m = true)
  | (None, Some msg) =>
      insights = [] /\
      msg = "No data found for selected campaigns and date range"
  | _ => False
  end.
Proof.
  destruct insights as [| i rest]; [split; reflexivity |].
  unfold fetch_campaign_data. cbn [map].
  set (rows := Api.row_of_insight i :: map Api.row_of_insight rest).
  split; [discriminate |].
  split; [unfold rows; cbn [frame_of_rows Machine.nrows length];
          now rewrite length_map |].
  intro Hr.
  assert (Hc : canonical_api (Machine.untyped (frame_of_rows rows))
               = true).
  { unfold canonical_api. unfold in_range in Hr.
    rewrite forallb_forall in *. intros name Hin.
    apply in_range_numeric; [now apply Hr |].
    intros v Hv. exact (@frame_of_rows_lengths rows name v Hv). }
  rewrite (@machine_api_exact _ Hc Hr).
  destruct (@api_metrics_safe _ Hc) as (m & Hm & _ & Hf & _).
  exists m. now split.
Qed.

Lemma fetch_campaign_data_feeds_metrics_witness :
  exists df m,
    fetch_campaign_data two_insights = (Some df, None) /\
    in_range app_py (Machine.untyped df) = true /\
    MachineApi.calculate_metrics df = Ok m /\
    metrics_finite m = true.
Proof.
  pose proof (@fetch_campaign_data_feeds_metrics two_insights) as H.
  cbn [fetch_campaign_data two_insights map] in H.
  destruct H as (_ & _ & H).
  destruct (H eq_refl) as (m & Hm & Hf).
  eexists. exists m. split; [reflexivity |].
  split; [reflexivity |]. split; [exact Hm | exact Hf].
Defined.

(** Impressions of 2^64 fit neither int64 nor uint64: the column holds
    objects, the sum over the numeric columns leaves it out, and
    [totals.impressions] raises. *)
Example object_column_raises :
  exists df,
    fetch_campaign_data day_of_many_impressions = (Some df, None) /\
    MachineApi.calculate_metrics df = Raise (AttributeError "impressions").
Proof. eexists. split; reflexivity. Qed.

Lemma find_revenue_first (pre post : list ActionValue) (av : ActionValue) :
  is_purchase (av_action_type av) = true ->
  (forall x, In x pre -> is_purchase (av_action_type x) = false) ->
  Rev.find_revenue (pre ++ av :: post) = Some (av_value av).
Proof.
  intros Hav. induction pre as [| x pre IH]; intro Hpre.
  - cbn [List.app Rev.find_revenue]. unfold is_purchase in Hav.
    rewrite Hav. reflexivity.
  - cbn [List.app Rev.find_revenue].
    pose proof (Hpre x (or_introl eq_refl)) as Hx.
    unfold is_purchase in Hx. rewrite Hx.
    apply IH. intros y Hy. apply Hpre. now right.
Qed.

Lemma find_revenue_none (l : list ActionValue) :
  (forall x, In x l -> is_purchase (av_action_type x) = false) ->
  Rev.find_revenue l = None.
Proof.
  induction l as [| x l IH]; intro H; [reflexivity |].
  cbn [Rev.find_revenue].
  pose proof (H x (or_introl eq_refl)) as Hx.
  unfold is_purchase in Hx. rewrite Hx.
  apply IH. intros y Hy. apply H. now right.
Qed.

(** X20.  The revenue of a row of [fetch_data] is the value of the first entry
    of [action_values] whose type mentions a purchase, whatever that value is
    and whatever entries follow; when no entry mentions a purchase it is the
    number of purchases times the average order value of 600 when that number
    is positive, and 0 otherwise. *)
Theorem revenue_first_purchase_value (insight : Insight) :
  let row := Rev.row_of_insight insight in
  (forall pre av post,
      action_values insight = pre ++ av :: post ->
      is_purchase (av_action_type av) = true ->
      (forall x, In x pre -> is_purchase (av_action_type x) = false) ->
      Rev.revenue row = av_value av) /\
  ((forall x,
       In x (action_values insight) ->
       is_purchase (av_action_type x) = false) ->
   (0 < purchases (Rev.funnel row))%Z ->
   Rev.revenue row = inject_Z (purchases (Rev.funnel row) * 600)) /\
  ((forall x,
       In x (action_values insight) ->
       is_purchase (av_action_type x) = false) ->
   (purchases (Rev.funnel row) <= 0)%Z ->
   Rev.revenue row = 0%Q) /\
  Rev.funnel row = extract_actions (actions insight).
Proof.
  intro row. subst row. unfold Rev.row_of_insight.
  cbn [Rev.revenue Rev.funnel].
  split; [| split; [| split; [| reflexivity]]].
  - intros pre av post E Hav Hpre.
    rewrite E, (find_revenue_first pre post av Hav Hpre). reflexivity.
  - intros Hnone Hp. rewrite (find_revenue_none _ Hnone).
    apply Z.ltb_lt in Hp. rewrite Hp. reflexivity.
  - intros Hnone Hp. rewrite (find_revenue_none _ Hnone).
    apply Z.ltb_ge in Hp. rewrite Hp. reflexivity.
Qed.

(** ** Gauges *)

(** X21.  The bar of a gauge has one of three colours, and the colour is the
    status of the value: in [appmanual.py] green, amber and red go with the
    answers excellent, good and critical of [get_status], and no gauge is
    drawn exactly for the metrics that [get_status] calls neutral; in
    [before_metrics_addition.py] the colour goes with the emoji of
    [get_status_emoji], for ACoS as for the other metrics. This holds for
    every value, NaN and the infinities included. *)
Theorem gauge_colour_is_the_status (metric : string) (actual : num) :
  match ManualCharts.create_performance_gauge actual metric with
  | Some g =>
      g_value g = actual /\
      In (g_bar_color g) ["#10b981"; "#f59e0b"; "#ef4444"] /\
      status_of_color (g_bar_color g) = Manual.get_status metric actual /\
      emoji_of (status_of_color (g_bar_color g))
      = Manual.get_status_emoji metric actual
  | None => Manual.get_status metric actual = "neutral"
  end /\
  match RevCharts.create_performance_gauge actual metric with
  | Some g =>
      g_value g = actual /\
      In (g_bar_color g) ["#10b981"; "#f59e0b"; "#ef4444"] /\
      emoji_of (status_of_color (g_bar_color g))
      = Rev.get_status_emoji metric actual
  | None => Rev.get_status_emoji metric actual = "⚪"
  end.
Proof.
  split.
  - unfold ManualCharts.create_performance_gauge, Manual.get_status_emoji,
      Manual.get_status.
    destruct (lookup metric Manual.BENCHMARKS) as [bench |];
      [| reflexivity].
    cbn [g_value g_bar_color].
    destruct (actual >=? ideal bench)%num;
      [| destruct (actual >=? min_ bench)%num];
      (split; [reflexivity |]); (split; [simpl; tauto |]);
      split; reflexivity.
  - unfold RevCharts.create_performance_gauge, Rev.get_status_emoji.
    destruct (lookup metric Rev.BENCHMARKS) as [bench |]; [| reflexivity].
    cbn [g_value g_bar_color].
    destruct (String.eqb metric "ACoS").
    + destruct (actual <=? max_ bench)%num;
        [| destruct (actual <=? ideal bench)%num];
        (split; [reflexivity |]); (split; [simpl; tauto |]); reflexivity.
    + destruct (actual >=? ideal bench)%num;
        [| destruct (actual >=? min_ bench)%num];
        (split; [reflexivity |]); (split; [simpl; tauto |]); reflexivity.
Qed.

(** ** The sheets of a workbook *)

Lemma setitem_fresh (V : Type) (k : string) (v : V)
    (d : list (string * V)) :
  ~ In k (map fst d) -> setitem k v d = d ++ [(k, v)].
Proof.
  induction d as [| [k0 v0] d IH]; simpl; [reflexivity |].
  intro H. destruct (String.eqb k k0) eqn:E.
  - apply String.eqb_eq in E. subst. tauto.
  - rewrite IH by tauto. reflexivity.
Qed.

Lemma collect_sheets_acc (pd : Pandas)
    (sheets : list (string * list (list cell)))
    (all_data : list DataFrame) (product_notes : list (string * list string)) :
  Forall (returns pd) sheets ->
  NoDup (map fst sheets) ->
  (forall k, In k (map fst product_notes) -> ~ In k (map fst sheets)) ->
  collect_sheets pd sheets all_data product_notes
  = Ok (all_data ++ kept_tables pd sheets,
        product_notes ++ kept_notes pd sheets).
Proof.
  revert all_data product_notes.
  induction sheets as [| [sheet_name raw_df] rest IH];
    intros all_data product_notes Hr Hd Hk.
  - cbn. now rewrite !app_nil_r.
  - inversion Hr as [| s l [r Hs] Hrest]; subst.
    inversion Hd as [| n l Hn Hd']; subst.
    cbn [fst snd] in Hs.
    unfold kept_tables, kept_notes. cbn [collect_sheets flat_map].
    fold (kept_tables pd rest). fold (kept_notes pd rest).
    unfold kept. cbn [fst snd]. rewrite Hs. cbn [bind].
    assert (Hrest' : forall k,
               In k (map fst product_notes) -> ~ In k (map fst rest)).
    { intros k Hin Hin'. apply (Hk k Hin). right. exact Hin'. }
    destruct r as [[table |] notes]; [destruct (0 <? nrows table)%nat |].
    + rewrite setitem_fresh
        by (intro Hin; apply (Hk _ Hin); now left).
      rewrite IH; [now rewrite <- !app_assoc | exact Hrest | exact Hd' |].
      intros k Hin. rewrite map_app in Hin. apply in_app_or in Hin.
      destruct Hin as [Hin | [<- | []]]; [now apply Hrest' | exact Hn].
    + now apply IH.
    + now apply IH.
Qed.

Lemma collect_sheets_raise (pd : Pandas)
    (pre post : list (string * list (list cell)))
    (sheet : string * list (list cell)) (e : exn)
    (all_data : list DataFrame) (product_notes : list (string * list string)) :
  Forall (returns pd) pre ->
  clean_sheet pd (snd sheet) (fst sheet) = Raise e ->
  collect_sheets pd (pre ++ sheet :: post) all_data product_notes = Raise e.
Proof.
  intros Hr He. revert all_data product_notes.
  induction Hr as [| [sheet_name raw_df] pre [r Hs] Hrest IH];
    intros all_data product_notes.
  - destruct sheet as [sheet_name raw_df]. cbn [fst snd] in He.
    cbn [List.app collect_sheets]. rewrite He. reflexivity.
  - cbn [fst snd] in Hs. cbn [List.app collect_sheets].
    rewrite Hs. cbn [bind].
    destruct r as [[table |] notes]; [destruct (0 <? nrows table)%nat |];
      apply IH.
Qed.

Lemma kept_tables_usable (pd : Pandas)
    (sheets : list (string * list (list cell))) :
  Forall
    (fun table =>
       (0 < nrows table)%nat /\
       exists sheet notes,
         In sheet sheets /\
         clean_sheet pd (snd sheet) (fst sheet) = Ok (Some table, notes))
    (kept_tables pd sheets).
Proof.
  induction sheets as [| sheet rest IH]; [constructor |].
  unfold kept_tables. cbn [flat_map]. fold (kept_tables pd rest).
  assert (Hrest :
    Forall
      (fun table =>
         (0 < nrows table)%nat /\
         exists s notes,
           In s (sheet :: rest) /\
           clean_sheet pd (snd s) (fst s) = Ok (Some table, notes))
      (kept_tables pd rest)).
  { eapply Forall_impl; [| exact IH].
    intros t (Hn & s & notes & Hin & Hs).
    split; [exact Hn |]. exists s, notes. split; [now right | exact Hs]. }
  unfold kept.
  destruct (clean_sheet pd (snd sheet) (fst sheet))
    as [[[table |] notes] | e] eqn:E; try exact Hrest.
  destruct (0 <? nrows table)%nat eqn:En; [| exact Hrest].
  cbn [List.app]. constructor; [| exact Hrest].
  split; [now apply Nat.ltb_lt |].
  exists sheet, notes. split; [now left | exact E].
Qed.

(** X22.  The loop over the sheets of a workbook, whose sheet names are
    distinct. When [clean_sheet] returns for every sheet, the loop collects,
    in workbook order, the tables that have at least one row, and keeps the
    notes of exactly those sheets under their names: the notes of a sheet
    without a table, or with an empty one, are dropped. When [clean_sheet]
    raises for a sheet, the loop raises the same exception whatever the other
    sheets hold. Every collected table has a row and is the table
    [clean_sheet] returned for a sheet of the workbook. *)
Theorem collect_sheets_keeps_usable_sheets (pd : Pandas)
    (sheets : list (string * list (list cell))) :
  NoDup (map fst sheets) ->
  (Forall (returns pd) sheets ->
   collect_sheets pd sheets [] []
   = Ok (kept_tables pd sheets, kept_notes pd sheets)) /\
  (forall pre sheet post e,
      sheets = pre ++ sheet :: post ->
      Forall (returns pd) pre ->
      clean_sheet pd (snd sheet) (fst sheet) = Raise e ->
      collect_sheets pd sheets [] [] = Raise e) /\
  Forall
    (fun table =>
       (0 < nrows table)%nat /\
       exists sheet notes,
         In sheet sheets /\
         clean_sheet pd (snd sheet) (fst sheet) = Ok (Some table, notes))
    (kept_tables pd sheets).
Proof.
  intro Hd. split; [| split].
  - intro Hr.
    rewrite (@collect_sheets_acc pd sheets [] [] Hr Hd);
      [reflexivity | intros k []].
  - intros pre sheet post e -> Hr He.
    exact (@collect_sheets_raise pd pre post sheet e [] [] Hr He).
  - apply kept_tables_usable.
Qed.

Lemma collect_sheets_keeps_usable_sheets_witness :
  NoDup (map fst workbook_with_number_header) /\
  collect_sheets plain_pandas workbook [] []
  = Ok (kept_tables plain_pandas workbook,
        kept_notes plain_pandas workbook) /\
  kept_notes plain_pandas workbook = [("Product A", ["Total"])] /\
  length (kept_tables plain_pandas workbook) = 1%nat /\
  collect_sheets plain_pandas workbook_with_number_header [] []
  = Raise (AttributeError "lower").
Proof.
  assert (Hd : NoDup (map fst workbook_with_number_header)).
  { repeat constructor; simpl; intuition discriminate. }
  assert (Hd' : NoDup (map fst workbook)).
  { repeat constructor; simpl; intuition discriminate. }
  split; [exact Hd |].
  split.
  { apply (proj1 (@collect_sheets_keeps_usable_sheets plain_pandas
                    workbook Hd')).
    repeat constructor; eexists; vm_compute; reflexivity. }
  split; [reflexivity |]. split; [reflexivity |].
  exact (proj1 (proj2 (@collect_sheets_keeps_usable_sheets plain_pandas
                         workbook_with_number_header Hd))
           [] ("Summary", sheet_without_day) workbook
           (AttributeError "lower") eq_refl (Forall_nil _) eq_refl).
Defined.

(** ** Charts *)

Lemma benchmark_has_daily_column (metric : string) (bench : Bench) :
  lookup metric Manual.BENCHMARKS = Some bench ->
  exists sh a b, In (metric, sh, a, b) manual_daily_table.
Proof.
  unfold Manual.BENCHMARKS, manual_daily_table. cbn [lookup].
  repeat match goal with
  | |- context [String.eqb metric ?k] =>
      let E := fresh "E" in
      destruct (String.eqb metric k) eqn:E;
      [ apply String.eqb_eq in E; subst metric; intros _;
        do 3 eexists; simpl; tauto |]
  end.
  discriminate.
Qed.

(** X23.  On a canonical table with a date column, the chart of a metric of
    the benchmark table is drawn without an exception: every benchmark metric
    is a column of the daily table. The trace of actual values, the line of
    the ideal value and the line of the minimum have one point per row of the
    table, over the dates of the table; no actual value is NaN. For a metric
    outside the benchmark table the answer is None. *)
Theorem chart_traces_aligned (df : DataFrame) (dates : list (option Z))
    (metric : string) :
  canonical_manual df = true ->
  lookup "date" (columns df) = Some (DateCol dates) ->
  match lookup metric Manual.BENCHMARKS with
  | None => ManualCharts.create_actual_vs_ideal_chart df metric = Ok None
  | Some bench =>
      exists chart actual,
        ManualCharts.create_actual_vs_ideal_chart df metric
        = Ok (Some chart) /\
        c_x chart = DateCol dates /\
        c_actual chart = NumCol actual /\
        length actual = nrows df /\
        forallb not_nan actual = true /\
        c_ideal chart = repeat (ideal bench) (nrows df) /\
        c_minimum chart = repeat (min_ bench) (nrows df)
  end.
Proof.
  intros H Hd. unfold ManualCharts.create_actual_vs_ideal_chart.
  rewrite (manual_daily_metrics_explicit df H). cbn [bind].
  destruct (lookup metric Manual.BENCHMARKS) as [bench |] eqn:E;
    [| reflexivity].
  destruct (benchmark_has_daily_column _ E) as (sh & a & b & Hin).
  unfold getcol.
  rewrite (@daily_table_other df "date" eq_refl), Hd. cbn [bind].
  rewrite (@daily_table_lookup df metric sh a b Hin). cbn [bind].
  do 2 eexists. split; [reflexivity |]. cbn.
  split; [reflexivity |]. split; [reflexivity |].
  destruct (@daily_table_sources metric sh a b Hin) as [Ha Hb].
  destruct (@canonical_values df a H Ha) as [La _].
  destruct (@canonical_values df b H Hb) as [Lb _].
  split; [exact (@daily_series_length sh _ _ _ La Lb) |].
  split; [apply daily_series_not_nan |].
  split; reflexivity.
Qed.

Lemma chart_traces_aligned_witness :
  exists chart actual,
    ManualCharts.create_actual_vs_ideal_chart two_days "CTR"
    = Ok (Some chart) /\
    c_x chart = DateCol [Some 20240101%Z; Some 20240102%Z] /\
    c_actual chart = NumCol actual /\
    length actual = 2%nat /\
    forallb not_nan actual = true /\
    c_ideal chart = [Fin (15 # 10); Fin (15 # 10)] /\
    c_minimum chart = [Fin (9 # 10); Fin (9 # 10)].
Proof.
  exact (@chart_traces_aligned two_days
           [Some 20240101%Z; Some 20240102%Z] "CTR" eq_refl eq_refl).
Defined.
